(** * SillyTavern-CacheMonitor: the cache-miss diagnostic core

    A shallow embedding of the latest revision of the extension
    (the file that carries [analyzeCacheMiss], [detectLoreOrderingIssues]
    and the daily statistics) and the properties of its usage extractor,
    divergence locator, miss diagnoser, cost model and session aggregator.

    Conventions of the embedding.
    - A JavaScript string is a [string]; one character stands for one
      UTF-16 code unit, so indices and lengths agree with the source on
      text whose code units are below 256.  Messages built by the source
      that contain an arrow or an icon keep them as UTF-8 bytes; no index
      is ever computed on those.
    - Integer-valued JavaScript numbers (token counts, indices, clock
      readings in milliseconds) are [Z]; money is a binary64 [float].
      A number of a decoded JSON value is the integer its text writes;
      [JSON.stringify] and [parseInt] take it to binary64 as the source
      does.  Numbers with a fraction are outside the model.
    - [null] and [undefined] are [None] where the source only tests
      truthiness.
    - The globals [sessionStats], [currentRequest], [previousRequest] are
      fields of an explicit [State]; [Date.now()] is an argument. *)

From Stdlib Require Import ZArith List String Ascii Bool Lia QArith.
From Stdlib Require Import Permutation.
From Stdlib Require DecimalString HexadecimalString.
From Stdlib Require Import Floats.PrimFloat Floats.SpecFloat Floats.FloatOps.
Import ListNotations.

Set Warnings "-register-all,-inexact-float".

Open Scope string_scope.
Open Scope Z_scope.

(* ================================================================== *)
(** ** Strings *)

Module Str.

Definition code (c : ascii) : Z := Z.of_nat (nat_of_ascii c).

(** Case folding of the [i] flag of a regular expression without the
    [u] flag: only the ASCII letters have a partner among the code
    units a pattern made of ASCII characters can match. *)
Definition fold (c : ascii) : ascii :=
  if ((65 <=? code c) && (code c <=? 90))%Z
  then ascii_of_nat (nat_of_ascii c + 32) else c.

Definition eqb_ci (a b : ascii) : bool := Ascii.eqb (fold a) (fold b).

(** [strip_ci p s]: the rest of [s] after the literal [p], matched
    without regard to case. *)
Fixpoint strip_ci (p s : string) : option string :=
  match p, s with
  | EmptyString, _ => Some s
  | String a p', String b s' => if eqb_ci a b then strip_ci p' s' else None
  | String _ _, EmptyString => None
  end.

(** [/p/i.test(s)] for a literal pattern [p]. *)
Fixpoint test_ci (p s : string) : bool :=
  match strip_ci p s with
  | Some _ => true
  | None => match s with
            | EmptyString => false
            | String _ s' => test_ci p s'
            end
  end.

(** [String(n)] for an integer. *)
Definition dec (n : Z) : string :=
  DecimalString.NilZero.string_of_int (Z.to_int n).

(** [n.toString(16)] for an integer. *)
Definition hex (n : Z) : string :=
  HexadecimalString.NilZero.string_of_int (Z.to_hex_int n).

Definition len (s : string) : Z := Z.of_nat (String.length s).

(** [s.substring(a, b)] for [0 <= a <= b]. *)
Definition substring (a b : Z) (s : string) : string :=
  String.substring (Z.to_nat a) (Z.to_nat (b - a)) s.

(** White space of [\s] and of [trim] among the code units below 256. *)
Definition is_space (c : ascii) : bool :=
  let n := code c in
  (((9 <=? n) && (n <=? 13)) || (n =? 32) || (n =? 160))%Z.

Fixpoint trim_start (s : string) : string :=
  match s with
  | String c s' => if is_space c then trim_start s' else s
  | EmptyString => EmptyString
  end.

Fixpoint trim_end (s : string) : string :=
  match s with
  | EmptyString => EmptyString
  | String c s' =>
      match trim_end s' with
      | EmptyString => if is_space c then EmptyString else String c EmptyString
      | t => String c t
      end
  end.

Definition trim (s : string) : string := trim_end (trim_start s).

Definition join (sep : string) (l : list string) : string :=
  match l with
  | [] => ""
  | x :: xs => fold_left (fun acc y => acc ++ sep ++ y) xs x
  end.

End Str.

(* ================================================================== *)
(** ** Decoded JSON and the JavaScript values read from it *)

Inductive json : Type :=
| JNull
| JBool (b : bool)
| JNum (n : Z)
| JStr (s : string)
| JArr (items : list json)
| JObj (fields : list (string * json)).

(** A value read from a payload: [None] is [undefined]. *)
Definition jsval : Type := option json.

(** An expression either yields a value or throws. *)
Inductive completion (A : Type) : Type :=
| Returns (a : A)
| Throws.
Arguments Returns {A} a.
Arguments Throws {A}.

Definition bind {A B} (c : completion A) (k : A -> completion B) : completion B :=
  match c with
  | Returns a => k a
  | Throws => Throws
  end.

Notation "'let*' x ':=' c 'in' k" := (bind c (fun x => k))
  (at level 10, x name, c at level 100, k at level 200).

Module Js.

(** ToBoolean. *)
Definition truthy (v : jsval) : bool :=
  match v with
  | None | Some JNull => false
  | Some (JBool b) => b
  | Some (JNum n) => negb (n =? 0)
  | Some (JStr s) => negb (String.eqb s "")
  | Some (JArr _) | Some (JObj _) => true
  end.

Fixpoint assoc (k : string) (fields : list (string * json)) : jsval :=
  match fields with
  | [] => None
  | (k', v) :: rest => if String.eqb k k' then Some v else assoc k rest
  end.

(** [v.k] for one of the field names the source reads: a TypeError on
    [null] and [undefined], the field of an object, [undefined] on
    every other value. *)
Definition get (v : jsval) (k : string) : completion jsval :=
  match v with
  | None | Some JNull => Throws
  | Some (JObj fields) => Returns (assoc k fields)
  | Some _ => Returns None
  end.

(** [v?.k] *)
Definition get_opt (v : jsval) (k : string) : completion jsval :=
  match v with
  | None | Some JNull => Returns None
  | _ => get v k
  end.

(** [a || b] *)
Definition or (a b : jsval) : jsval := if truthy a then a else b.

(** [v === 'lit'] *)
Definition is_str (v : jsval) (lit : string) : bool :=
  match v with
  | Some (JStr s) => String.eqb s lit
  | _ => false
  end.

Definition num (n : Z) : jsval := Some (JNum n).
Definition str (s : string) : jsval := Some (JStr s).

End Js.

Infix "|||" := Js.or (at level 50, left associativity).

(* ================================================================== *)
(** ** Usage Extractor: [parseUsageFromEvent] *)

(** The object literal the extractor returns; every field holds whatever
    value the [||] chain selected. *)
Record ParsedUsage : Type := mkParsedUsage {
  pu_model : jsval;
  pu_input_tokens : jsval;
  pu_output_tokens : jsval;
  pu_cache_read_input_tokens : jsval;
  pu_cache_creation_input_tokens : jsval
}.

(** First [if] of the source: "OpenRouter/OpenAI format - usage in root". *)
Definition openai_usage (data : jsval) : completion (option ParsedUsage) :=
  let* usage := Js.get data "usage" in
  if Js.truthy usage then
    let* model := Js.get data "model" in
    let* prompt_tokens := Js.get usage "prompt_tokens" in
    let* input_tokens := Js.get usage "input_tokens" in
    let* completion_tokens := Js.get usage "completion_tokens" in
    let* output_tokens := Js.get usage "output_tokens" in
    let* cache_read := Js.get usage "cache_read_input_tokens" in
    let* details := Js.get usage "prompt_tokens_details" in
    let* cached_tokens := Js.get_opt details "cached_tokens" in
    let* cache_creation := Js.get usage "cache_creation_input_tokens" in
    Returns (Some {|
      pu_model := model ||| Js.str "";
      pu_input_tokens := prompt_tokens ||| input_tokens ||| Js.num 0;
      pu_output_tokens := completion_tokens ||| output_tokens ||| Js.num 0;
      pu_cache_read_input_tokens := cache_read ||| cached_tokens ||| Js.num 0;
      pu_cache_creation_input_tokens := cache_creation ||| Js.num 0 |})
  else Returns None.

(** Second [if]: "Direct Claude API - message_delta with usage". *)
Definition message_delta_usage (data : jsval) : completion (option ParsedUsage) :=
  let* type := Js.get data "type" in
  let* usage := Js.get data "usage" in
  if Js.is_str type "message_delta" && Js.truthy usage then
    let* input_tokens := Js.get usage "input_tokens" in
    let* output_tokens := Js.get usage "output_tokens" in
    let* cache_read := Js.get usage "cache_read_input_tokens" in
    let* cache_creation := Js.get usage "cache_creation_input_tokens" in
    Returns (Some {|
      pu_model := Js.str "claude";
      pu_input_tokens := input_tokens ||| Js.num 0;
      pu_output_tokens := output_tokens ||| Js.num 0;
      pu_cache_read_input_tokens := cache_read ||| Js.num 0;
      pu_cache_creation_input_tokens := cache_creation ||| Js.num 0 |})
  else Returns None.

(** Third [if]: "Direct Claude API - message_start contains initial usage". *)
Definition message_start_usage (data : jsval) : completion (option ParsedUsage) :=
  let* type := Js.get data "type" in
  let* message := Js.get data "message" in
  let* usage := Js.get_opt message "usage" in
  if Js.is_str type "message_start" && Js.truthy usage then
    let* model := Js.get_opt message "model" in
    let* input_tokens := Js.get usage "input_tokens" in
    let* output_tokens := Js.get usage "output_tokens" in
    let* cache_read := Js.get usage "cache_read_input_tokens" in
    let* cache_creation := Js.get usage "cache_creation_input_tokens" in
    Returns (Some {|
      pu_model := model ||| Js.str "claude";
      pu_input_tokens := input_tokens ||| Js.num 0;
      pu_output_tokens := output_tokens ||| Js.num 0;
      pu_cache_read_input_tokens := cache_read ||| Js.num 0;
      pu_cache_creation_input_tokens := cache_creation ||| Js.num 0 |})
  else Returns None.

(** [if (c) return r; rest]: the first branch that yields a record wins. *)
Definition or_else {A} (c : completion (option A)) (rest : completion (option A))
  : completion (option A) :=
  let* r := c in
  match r with
  | Some a => Returns (Some a)
  | None => rest
  end.

(** The body of the [try], in the order the source tests the shapes.
    [eventData] is the outcome of [JSON.parse]: a decoded payload, or
    [Throws] for text that is not JSON. *)
Definition parseUsageFromEvent (eventData : completion json) : option ParsedUsage :=
  let body :=
    let* decoded := eventData in
    let data := Some decoded in
    or_else (openai_usage data)
      (or_else (message_delta_usage data)
         (or_else (message_start_usage data)
            (Returns None))) in
  match body with
  | Returns r => r
  | Throws => None   (* catch (e) {} ; return null *)
  end.

(* ================================================================== *)
(** ** Content Fingerprint Engine: [hashString], [hashMessages] *)

(** ToInt32: the result of [<<] and of [&]. *)
Definition toInt32 (n : Z) : Z := (n + 2 ^ 31) mod 2 ^ 32 - 2 ^ 31.

(** One turn of the loop of [hashString]:
    [hash = ((hash << 5) - hash) + char; hash = hash & hash]. *)
Definition hash_step (hash : Z) (c : ascii) : Z :=
  toInt32 (toInt32 (Z.shiftl hash 5) - hash + Str.code c).

Definition hashString (str : string) : string :=
  Str.hex (fold_left hash_step (list_ascii_of_string str) 0).

(* ================================================================== *)
(** ** Numbers *)

(** The binary64 number nearest to an integer (the integer itself below
    [2^53]), an infinity from [2^1024 - 2^970] on. *)
Definition float_of_Z (n : Z) : float :=
  SF2Prim (binary_normalize prec emax n 0 false).

(** The integer a binary64 number without fraction stands for; [None]
    for an infinity or [NaN]. *)
Definition Z_of_float (x : float) : option Z :=
  match Prim2SF x with
  | S754_zero _ => Some 0
  | S754_finite s m e => Some ((if s then -1 else 1) * Z.shiftl (Z.pos m) e)
  | _ => None
  end.

(** [JSON.stringify] and the values it prints.  A [json] is a decoded
    value: [JNum n] is the number a JSON text writes as the integer [n],
    that is the binary64 number nearest to [n] (numbers with a fraction
    are outside the model); a [JObj] lists the properties of the object,
    each key once. *)
Module Json.

Definition digits10 (n : Z) : Z := Z.of_nat (String.length (Str.dec n)).

(** Number::toString on an integer from [2^53] on: the decimal with the
    fewest significant digits that reads back as the binary64 number
    [x], the nearest one when there are two, an even last digit on a
    tie.  [k] is the number of digits tried; 17 always do. *)
Fixpoint shortest (fuel : nat) (k : Z) (x : Z) : Z :=
  match fuel with
  | O => x
  | S fuel' =>
      let unit := 10 ^ (digits10 x - k) in
      let lo := x / unit * unit in
      let hi := lo + unit in
      let reads_back v :=
        match Z_of_float (float_of_Z v) with
        | Some y => y =? x
        | None => false
        end in
      if digits10 x <=? k then x
      else if reads_back lo && reads_back hi then
        if x - lo <? hi - x then lo
        else if hi - x <? x - lo then hi
        else if Z.even (x / unit) then lo else hi
      else if reads_back lo then lo
      else if reads_back hi then hi
      else shortest fuel' (k + 1) x
  end.

Fixpoint strip_zeros (fuel : nat) (v : Z) : Z :=
  match fuel with
  | O => v
  | S fuel' =>
      if (v mod 10 =? 0) && negb (v =? 0) then strip_zeros fuel' (v / 10) else v
  end.

(** [d.ddde+n], the form used from [1e21] on. *)
Definition exponential (v : Z) : string :=
  match Str.dec (strip_zeros 400 v) with
  | String d "" => String d "" ++ "e+" ++ Str.dec (digits10 v - 1)
  | String d more => String d ("." ++ more) ++ "e+" ++ Str.dec (digits10 v - 1)
  | s => s
  end.

(** How [JSON.stringify] prints [JNum n]: the digits of [n] below
    [2^53]; above, the shortest decimal of the binary64 number nearest
    to [n]; [null] when that is an infinity. *)
Definition number (n : Z) : string :=
  if Z.abs n <? 2 ^ 53 then Str.dec n
  else
    match Z_of_float (float_of_Z (Z.abs n)) with
    | None => "null"
    | Some x =>
        let v := shortest 17 1 x in
        (if n <? 0 then "-" else "")
          ++ (if v <? 10 ^ 21 then Str.dec v else exponential v)
    end.

Definition is_digit (c : ascii) : bool :=
  (48 <=? Str.code c) && (Str.code c <=? 57).

(** An integer-like key (an array index: canonical decimal digits, below
    [2^32 - 1]) and its value. *)
Definition index_key (k : string) : option Z :=
  match k with
  | EmptyString => None
  | String c rest =>
      if forallb is_digit (list_ascii_of_string k)
         && (negb (Ascii.eqb c "0") || String.eqb rest "")
      then
        let n := fold_left (fun acc d => 10 * acc + (Str.code d - 48))
                           (list_ascii_of_string k) 0 in
        if n <? 2 ^ 32 - 1 then Some n else None
      else None
  end.

Fixpoint insert_index {A} (n : Z) (x : A) (sorted : list (Z * A)) : list (Z * A) :=
  match sorted with
  | [] => [(n, x)]
  | (m, y) :: rest =>
      if n <? m then (n, x) :: sorted else (m, y) :: insert_index n x rest
  end.

(** The order in which an object gives its properties: integer-like keys
    first, ascending, then the other keys as written. *)
Definition property_order {A} (entries : list (string * A)) : list A :=
  let indexed :=
    fold_left (fun acc kv =>
                 match index_key (fst kv) with
                 | Some n => insert_index n (snd kv) acc
                 | None => acc
                 end) entries [] in
  (map snd indexed
     ++ map snd (filter (fun kv => match index_key (fst kv) with
                                   | None => true
                                   | Some _ => false
                                   end) entries))%list.

Definition hex_digit (n : Z) : ascii :=
  if n <? 10 then ascii_of_nat (Z.to_nat (48 + n))
  else ascii_of_nat (Z.to_nat (87 + n)).

Definition dquote : string := String (ascii_of_nat 34) "".

(** The escapes of [JSON.stringify] inside a string literal. *)
Definition escape (c : ascii) : string :=
  let n := Str.code c in
  if n =? 34 then "\" ++ dquote
  else if n =? 92 then "\\"
  else if n =? 8 then "\b"
  else if n =? 9 then "\t"
  else if n =? 10 then "\n"
  else if n =? 12 then "\f"
  else if n =? 13 then "\r"
  else if n <? 32 then
    "\u00" ++ String (hex_digit (n / 16)) (String (hex_digit (n mod 16)) "")
  else String c "".

Definition quote (s : string) : string :=
  dquote ++ String.concat "" (map escape (list_ascii_of_string s)) ++ dquote.

(** [JSON.stringify(j)] *)
Fixpoint stringify (j : json) : string :=
  match j with
  | JNull => "null"
  | JBool true => "true"
  | JBool false => "false"
  | JNum n => number n
  | JStr s => quote s
  | JArr items => "[" ++ Str.join "," (map stringify items) ++ "]"
  | JObj fields =>
      "{" ++ Str.join ","
               (property_order
                  (map (fun kv => (fst kv, quote (fst kv) ++ ":" ++ stringify (snd kv)))
                       fields))
          ++ "}"
  end.

End Json.

(** A chat message of the outbound request body: an object with a
    string [role], a [content] that is a string or structured JSON, and
    an optional [cache_control], in that key order. *)
Module Message.
Record t : Type := mk {
  role : string;
  content : json;
  cache_control : jsval
}.

Definition to_json (m : t) : json :=
  JObj ([("role", JStr (role m)); ("content", content m)]
        ++ match cache_control m with
           | Some c => [("cache_control", c)]
           | None => []
           end)%list.
End Message.

Module Fingerprint.
Record t : Type := mk {
  index : Z;
  role : string;
  contentPreview : string;
  fullContent : string;
  hash : string;
  hasCacheControl : bool
}.
End Fingerprint.

Fixpoint mapi {A B} (f : A -> Z -> B) (idx : Z) (l : list A) : list B :=
  match l with
  | [] => []
  | x :: xs => f x idx :: mapi f (idx + 1) xs
  end.

(** [hashMessages] on captured messages of that shape ([None]: nothing
    captured).  Every such message has a [content], so the [map] runs to
    its end; what the function does on any other request body is
    [Body.hashMessages] below. *)
Definition hashMessages (messages : option (list Message.t)) : list Fingerprint.t :=
  match messages with
  | None => []
  | Some messages =>
      mapi (fun msg idx =>
        let fullContent :=
          match Message.content msg with
          | JStr s => s
          | c => Json.stringify c
          end in
        {| Fingerprint.index := idx;
           Fingerprint.role := Message.role msg;
           Fingerprint.contentPreview := Str.substring 0 100 fullContent;
           Fingerprint.fullContent := fullContent;
           Fingerprint.hash := hashString (Json.stringify (Message.to_json msg));
           Fingerprint.hasCacheControl := Js.truthy (Message.cache_control msg) |})
        0 messages
  end.

(** *** [hashMessages] on any request body

    [currentRequest.messages] is whatever the request body carried under
    [messages]: any decoded value.  On a value that is not an array
    [hashMessages] returns the empty list; on an array the [map] throws
    a TypeError at an element that is [null] ([msg.content]) or has no
    [content] ([JSON.stringify(undefined)] is [undefined], and
    [undefined.substring] throws).  [hashMessages] above is this
    function on messages made of a string [role], a [content] and an
    optional [cache_control] (lemma [hashMessages_of_messages]). *)
Module RawFingerprint.
Record t : Type := mk {
  index : Z;
  role : jsval;
  contentPreview : string;
  fullContent : string;
  hash : string;
  hasCacheControl : bool
}.
End RawFingerprint.

Module Body.

(** The callback of the [map]. *)
Definition fingerprint (msg : json) (idx : Z) : completion RawFingerprint.t :=
  let* content := Js.get (Some msg) "content" in
  let* fullContent :=
    match content with
    | Some (JStr s) => Returns s
    | Some c => Returns (Json.stringify c)
    | None => Throws
    end in
  let* role := Js.get (Some msg) "role" in
  let* cache_control := Js.get (Some msg) "cache_control" in
  Returns {| RawFingerprint.index := idx;
             RawFingerprint.role := role;
             RawFingerprint.contentPreview := Str.substring 0 100 fullContent;
             RawFingerprint.fullContent := fullContent;
             RawFingerprint.hash := hashString (Json.stringify msg);
             RawFingerprint.hasCacheControl := Js.truthy cache_control |}.

Fixpoint map_indexed (idx : Z) (items : list json)
  : completion (list RawFingerprint.t) :=
  match items with
  | [] => Returns []
  | msg :: rest =>
      let* fp := fingerprint msg idx in
      let* fps := map_indexed (idx + 1) rest in
      Returns (fp :: fps)
  end.

Definition hashMessages (messages : jsval) : completion (list RawFingerprint.t) :=
  match messages with
  | Some (JArr items) => map_indexed 0 items
  | _ => Returns []
  end.

End Body.

(** A fingerprint of [hashMessages] above, as one of [Body.hashMessages]. *)
Definition raw_fingerprint (fp : Fingerprint.t) : RawFingerprint.t :=
  {| RawFingerprint.index := Fingerprint.index fp;
     RawFingerprint.role := Some (JStr (Fingerprint.role fp));
     RawFingerprint.contentPreview := Fingerprint.contentPreview fp;
     RawFingerprint.fullContent := Fingerprint.fullContent fp;
     RawFingerprint.hash := Fingerprint.hash fp;
     RawFingerprint.hasCacheControl := Fingerprint.hasCacheControl fp |}.

(* ================================================================== *)
(** ** Divergence Locator: [findStringDiff], [findDivergencePoint] *)

Module StringDiff.
Record t : Type := mk {
  diffIndex : Z;
  markerPos : option Z;
  context1 : string;
  context2 : string;
  lengthDiff : option string
}.
End StringDiff.

(** The [while] loop of [findStringDiff]: the length of the longest
    common prefix. *)
Fixpoint common_prefix (str1 str2 : string) : Z :=
  match str1, str2 with
  | String a s1, String b s2 =>
      if Ascii.eqb a b then 1 + common_prefix s1 s2 else 0
  | _, _ => 0
  end.

Definition findStringDiff (str1 str2 : string) : StringDiff.t :=
  let contextChars := 200 in
  if String.eqb str1 "" || String.eqb str2 "" then
    {| StringDiff.diffIndex := 0;
       StringDiff.markerPos := None;
       StringDiff.context1 := Str.substring 0 500 str1;
       StringDiff.context2 := Str.substring 0 500 str2;
       StringDiff.lengthDiff := None |}
  else
    let diffIndex := common_prefix str1 str2 in
    let start := Z.max 0 (diffIndex - contextChars) in
    let end1 := Z.min (Str.len str1) (diffIndex + contextChars) in
    let end2 := Z.min (Str.len str2) (diffIndex + contextChars) in
    let context1 := (if 0 <? start then "..." else "")
                    ++ Str.substring start end1 str1
                    ++ (if end1 <? Str.len str1 then "..." else "") in
    let context2 := (if 0 <? start then "..." else "")
                    ++ Str.substring start end2 str2
                    ++ (if end2 <? Str.len str2 then "..." else "") in
    let markerPos := diffIndex - start + (if 0 <? start then 3 else 0) in
    {| StringDiff.diffIndex := diffIndex;
       StringDiff.markerPos := Some markerPos;
       StringDiff.context1 := context1;
       StringDiff.context2 := context2;
       StringDiff.lengthDiff :=
         if Str.len str1 =? Str.len str2 then None
         else Some ("Length: " ++ Str.dec (Str.len str1) ++ " → "
                               ++ Str.dec (Str.len str2)) |}.

Module Divergence.
Record t : Type := mk {
  divergeIndex : Z;
  reason : string;
  prevContent : option string;
  currContent : option string;
  diff : option StringDiff.t;
  role : option string
}.

(** An object literal with only [divergeIndex] and [reason]. *)
Definition plain (i : Z) (why : string) : t :=
  mk i why None None None None.
End Divergence.

(** The [for] loop of [findDivergencePoint]: the first index below both
    lengths at which the hashes differ, with the two fingerprints. *)
Fixpoint first_mismatch (i : Z) (prevHashes currHashes : list Fingerprint.t)
  : option (Z * Fingerprint.t * Fingerprint.t) :=
  match prevHashes, currHashes with
  | p :: prev', c :: curr' =>
      if String.eqb (Fingerprint.hash p) (Fingerprint.hash c)
      then first_mismatch (i + 1) prev' curr'
      else Some (i, p, c)
  | _, _ => None
  end.

Definition findDivergencePoint (prevHashes currHashes : option (list Fingerprint.t))
  : Divergence.t :=
  match prevHashes, currHashes with
  | Some prevHashes, Some currHashes =>
      let minLen := Z.min (Z.of_nat (List.length prevHashes)) (Z.of_nat (List.length currHashes)) in
      match first_mismatch 0 prevHashes currHashes with
      | Some (i, p, c) =>
          let diff := findStringDiff (Fingerprint.fullContent p) (Fingerprint.fullContent c) in
          {| Divergence.divergeIndex := i;
             Divergence.reason :=
               "Message " ++ Str.dec i ++ " (" ++ Fingerprint.role c
                 ++ ") changed at char " ++ Str.dec (StringDiff.diffIndex diff);
             Divergence.prevContent := Some (Fingerprint.fullContent p);
             Divergence.currContent := Some (Fingerprint.fullContent c);
             Divergence.diff := Some diff;
             Divergence.role := Some (Fingerprint.role c) |}
      | None =>
          if negb (Z.of_nat (List.length prevHashes) =? Z.of_nat (List.length currHashes)) then
            Divergence.plain minLen
              ("Message count changed (" ++ Str.dec (Z.of_nat (List.length prevHashes))
                 ++ " → " ++ Str.dec (Z.of_nat (List.length currHashes)) ++ ")")
          else
            Divergence.plain (-1) "No divergence detected"
      end
  | _, _ => Divergence.plain 0 "No previous data"
  end.

(* ================================================================== *)
(** ** Pattern Detector: [detectContentPatterns] *)

(** The regular expressions of the detector are sequences of literals
    (matched with the [i] flag) and greedy repetitions of a character
    class, with one capture group; this is a backtracking matcher for
    exactly that fragment. *)
Module Regex.

Inductive item : Type :=
| Lit (s : string)
| Star (cls : ascii -> bool)
| Plus (cls : ascii -> bool)
| Capture (cls : ascii -> bool).   (* a group around [cls+] *)

(** Greedy repetition: take as many characters of the class as there
    are, and give them back one by one while the rest fails. *)
Fixpoint greedy {R} (cls : ascii -> bool) (s : string)
         (k : string -> string -> option R) : option R :=
  match s with
  | String c s' =>
      if cls c then
        match greedy cls s' (fun taken rest => k (String c taken) rest) with
        | Some r => Some r
        | None => k "" s
        end
      else k "" s
  | EmptyString => k "" s
  end.

(** A match anchored at the start of [s]: the captured text and what
    follows the match. *)
Fixpoint match_here (p : list item) (s : string) : option (string * string) :=
  match p with
  | [] => Some ("", s)
  | Lit l :: p' =>
      match Str.strip_ci l s with
      | Some s' => match_here p' s'
      | None => None
      end
  | Star cls :: p' => greedy cls s (fun _ rest => match_here p' rest)
  | Plus cls :: p' =>
      greedy cls s (fun taken rest =>
        if String.eqb taken "" then None else match_here p' rest)
  | Capture cls :: p' =>
      greedy cls s (fun taken rest =>
        if String.eqb taken "" then None
        else match match_here p' rest with
             | Some (_, after) => Some (taken, after)
             | None => None
             end)
  end.

(** [while ((match = re.exec(content)) !== null)] with the [g] flag:
    the captures of the successive leftmost matches.  Every pattern
    below consumes a character, so [fuel] above the length is enough. *)
Fixpoint exec_loop (fuel : nat) (p : list item) (s : string) : list string :=
  match fuel with
  | O => []
  | S fuel' =>
      match match_here p s with
      | Some (group, after) => group :: exec_loop fuel' p after
      | None =>
          match s with
          | EmptyString => []
          | String _ s' => exec_loop fuel' p s'
          end
      end
  end.

Definition exec_all (p : list item) (s : string) : list string :=
  exec_loop (S (String.length s)) p s.

(** [re.test(content)] for an alternation of sequences. *)
Fixpoint test_one (p : list item) (s : string) : bool :=
  match match_here p s with
  | Some _ => true
  | None =>
      match s with
      | EmptyString => false
      | String _ s' => test_one p s'
      end
  end.

Definition test (alternatives : list (list item)) (s : string) : bool :=
  existsb (fun p => test_one p s) alternatives.

Definition is_not (x : string) (c : ascii) : bool :=
  negb (String.eqb (String c "") x).

Definition is_digit (c : ascii) : bool :=
  (48 <=? Str.code c) && (Str.code c <=? 57).

End Regex.

(** [parseInt] of a run of decimal digits: the binary64 number nearest
    to the integer they write, [Infinity] when there is none. *)
Definition parseInt (digits : string) : float :=
  float_of_Z (fold_left (fun acc c => 10 * acc + (Str.code c - 48))
                        (list_ascii_of_string digits) 0).

Module Patterns.
Record t : Type := mk {
  hasLoreEntries : bool;
  loreEntryNames : list string;
  hasDepthMarkers : bool;
  depthValues : list float;
  hasSystemPrompt : bool;
  hasChatHistory : bool;
  hasCharacterCard : bool;
  hasPersona : bool
}.

Definition none : t := mk false [] false [] false false false false.
End Patterns.

Import Regex.

(** [/<lore_entry\s+([^>]+)>/gi] *)
Definition loreEntryRegex : list item :=
  [Lit "<lore_entry"; Plus Str.is_space; Capture (is_not ">"); Lit ">"].

(** [/\[Lore:\s*([^\]]+)\]/gi] *)
Definition altLoreRegex : list item :=
  [Lit "[Lore:"; Star Str.is_space; Capture (is_not "]"); Lit "]"].

(** [/depth[:\s=]+(\d+)/gi] *)
Definition depthRegex : list item :=
  [Lit "depth";
   Plus (fun c => negb (is_not ":" c) || Str.is_space c || negb (is_not "=" c));
   Capture is_digit].

Definition detectContentPatterns (content : string) : Patterns.t :=
  if String.eqb content "" then Patterns.none
  else
    let lore := exec_all loreEntryRegex content in
    let altLore := exec_all altLoreRegex content in
    let depth := exec_all depthRegex content in
    {| Patterns.hasLoreEntries :=
         negb (Nat.eqb (List.length lore) 0) || negb (Nat.eqb (List.length altLore) 0);
       Patterns.loreEntryNames := (map Str.trim lore ++ map Str.trim altLore)%list;
       Patterns.hasDepthMarkers := negb (Nat.eqb (List.length depth) 0);
       Patterns.depthValues := map parseInt depth;
       Patterns.hasSystemPrompt :=
         test [[Lit "system"; Star Str.is_space; Lit "prompt"];
               [Lit "you are"]; [Lit "your role is"]] content;
       Patterns.hasChatHistory :=
         test [[Lit "[assistant]"]; [Lit "[human]"]; [Lit "<msg>"]; [Lit "<message>"]] content;
       Patterns.hasCharacterCard :=
         test [[Lit "[character]"]; [Lit "{{char}}"]; [Lit "<character>"];
               [Lit "character card"]] content;
       Patterns.hasPersona :=
         test [[Lit "[user]"]; [Lit "{{user}}"]; [Lit "<user>"]; [Lit "persona"]] content |}.

(* ================================================================== *)
(** ** Lorebook-order analysis: [detectLoreOrderingIssues] *)

Module LoreIssue.
Inductive kind : Type := reordering | different_entries.

Inductive details : Type :=
| Order (prevOrder currOrder : list string)
| Changes (added removed : list string).

Record t : Type := mk {
  type : kind;
  message : string;
  recommendation : string;
  detail : details
}.

Definition kind_eqb (a b : kind) : bool :=
  match a, b with
  | reordering, reordering | different_entries, different_entries => true
  | _, _ => false
  end.
End LoreIssue.

(** [new Set(entries).has(e)] *)
Definition set_has (entries : list string) (e : string) : bool :=
  existsb (String.eqb e) entries.

(** The [for] loop over two lists of the same length: the first index
    at which the names differ. *)
Fixpoint first_order_change (prevEntries currEntries : list string)
  : option (string * string) :=
  match prevEntries, currEntries with
  | p :: prev', c :: curr' =>
      if String.eqb p c then first_order_change prev' curr' else Some (p, c)
  | _, _ => None
  end.

Definition is_empty {A} (l : list A) : bool :=
  match l with [] => true | _ => false end.

(** Both callers pass arrays, so the [!prevEntries || !currEntries] part
    of the guard never fires. *)
Definition detectLoreOrderingIssues (prevEntries currEntries : list string)
  : option LoreIssue.t :=
  if is_empty prevEntries || is_empty currEntries then None
  else
    let sameEntries :=
      Nat.eqb (List.length prevEntries) (List.length currEntries)
      && forallb (set_has currEntries) prevEntries in
    if sameEntries then
      match first_order_change prevEntries currEntries with
      | Some (p, c) =>
          Some {| LoreIssue.type := LoreIssue.reordering;
                  LoreIssue.message :=
                    "Lorebook entries reordered (" ++ p ++ " ↔ " ++ c ++ ")";
                  LoreIssue.recommendation :=
                    "Fix lorebook entry ordering: Set unique " ++ Json.dquote ++ "Order"
                      ++ Json.dquote
                      ++ " values for each entry to ensure deterministic sorting.";
                  LoreIssue.detail :=
                    LoreIssue.Order (firstn 5 prevEntries) (firstn 5 currEntries) |}
      | None => None
      end
    else
      let added := filter (fun e => negb (set_has prevEntries e)) currEntries in
      let removed := filter (fun e => negb (set_has currEntries e)) prevEntries in
      if negb (is_empty added) || negb (is_empty removed) then
        Some {| LoreIssue.type := LoreIssue.different_entries;
                LoreIssue.message := "Different lorebook entries triggered";
                LoreIssue.recommendation :=
                  "If entries change due to keywords, this is expected. For stable caching, set frequently-used entries to "
                    ++ Json.dquote ++ "Constant" ++ Json.dquote ++ " mode.";
                LoreIssue.detail := LoreIssue.Changes added removed |}
      else None.

(* ================================================================== *)
(** ** Location classification: [analyzeDivergenceLocation] *)

(** The quotient of two integers as JavaScript computes it: a binary64
    number, [Infinity] or [NaN].  The finite case is kept as the exact
    rational; rounding to binary64 does not change its comparison with
    the literals [0.2] and [0.8] for message counts below [2^50] (an
    array holds fewer than [2^32] elements), since a quotient [i/n]
    other than the literal differs from it by at least [1/(5n)]. *)
Module Num.
Inductive t : Type := NaN | PosInf | NegInf | Fin (q : Q).

Definition div (a b : Z) : t :=
  if b =? 0 then
    if a =? 0 then NaN else if 0 <? a then PosInf else NegInf
  else if 0 <? b then Fin (a # Z.to_pos b)
  else Fin (- a # Z.to_pos (- b)).

(** [x < q] *)
Definition ltb (x : t) (q : Q) : bool :=
  match x with
  | NaN | PosInf => false
  | NegInf => true
  | Fin p => negb (Qle_bool q p)
  end.
End Num.

Inductive location_t : Type := unknown | early | middle | late.

Inductive severity_t : Type := low | medium | high.

Inductive cause_t : Type :=
| lorebook_ordering
| lorebook_keywords
| depth_configuration
| system_prompt_change
| lorebook_depth_injection
| injected_content
| chat_history.

Module LocationAnalysis.
Record t : Type := mk {
  location : location_t;
  likelyCause : option cause_t;
  recommendation : option string;
  severity : severity_t;
  details : option LoreIssue.details
}.
End LocationAnalysis.

(** [patterns?.flag] read as a condition, [patterns?.loreEntryNames || []] *)
Definition flag (f : Patterns.t -> bool) (patterns : option Patterns.t) : bool :=
  match patterns with
  | Some p => f p
  | None => false
  end.

Definition names_or_empty (patterns : option Patterns.t) : list string :=
  match patterns with
  | Some p => Patterns.loreEntryNames p
  | None => []
  end.

Definition analyzeDivergenceLocation (divergeIndex totalMessages : Z)
    (prevContent currContent : string)
    (prevPatterns currPatterns : option Patterns.t) : LocationAnalysis.t :=
  let positionRatio := Num.div divergeIndex totalMessages in
  let lore := flag Patterns.hasLoreEntries prevPatterns
              || flag Patterns.hasLoreEntries currPatterns in
  let depth := flag Patterns.hasDepthMarkers prevPatterns
               || flag Patterns.hasDepthMarkers currPatterns in
  if Num.ltb positionRatio (2 # 10) || (divergeIndex <? 3) then
    let loreIssue :=
      if lore then
        detectLoreOrderingIssues (names_or_empty prevPatterns) (names_or_empty currPatterns)
      else None in
    match loreIssue with
    | Some loreIssue =>
        let reordered :=
          LoreIssue.kind_eqb (LoreIssue.type loreIssue) LoreIssue.reordering in
        {| LocationAnalysis.location := early;
           LocationAnalysis.likelyCause :=
             Some (if reordered then lorebook_ordering else lorebook_keywords);
           LocationAnalysis.recommendation := Some (LoreIssue.recommendation loreIssue);
           LocationAnalysis.severity := if reordered then high else medium;
           LocationAnalysis.details := Some (LoreIssue.detail loreIssue) |}
    | None =>
        if depth then
          {| LocationAnalysis.location := early;
             LocationAnalysis.likelyCause := Some depth_configuration;
             LocationAnalysis.recommendation :=
               Some "Check preset depth settings. Entries with depth > 0 are inserted relative to chat history, causing instability. Set constant entries to depth 0.";
             LocationAnalysis.severity := high;
             LocationAnalysis.details := None |}
        else
          {| LocationAnalysis.location := early;
             LocationAnalysis.likelyCause := Some system_prompt_change;
             LocationAnalysis.recommendation :=
               Some "Early prompt content changed. Check: system prompt, character card, or author's notes injected at top.";
             LocationAnalysis.severity := medium;
             LocationAnalysis.details := None |}
    end
  else if Num.ltb positionRatio (8 # 10) then
    if lore then
      {| LocationAnalysis.location := middle;
         LocationAnalysis.likelyCause := Some lorebook_depth_injection;
         LocationAnalysis.recommendation :=
           Some "Lorebook entries injected at non-zero depth cause instability. Set all constant entries to depth 0 for better caching.";
         LocationAnalysis.severity := high;
         LocationAnalysis.details := None |}
    else
      {| LocationAnalysis.location := middle;
         LocationAnalysis.likelyCause := Some injected_content;
         LocationAnalysis.recommendation :=
           Some "Content injected mid-prompt (author's notes, world info, etc.). Check depth settings in your preset.";
         LocationAnalysis.severity := medium;
         LocationAnalysis.details := None |}
  else
    {| LocationAnalysis.location := late;
       LocationAnalysis.likelyCause := Some chat_history;
       LocationAnalysis.recommendation :=
         Some "Change is in recent chat history - this is expected behavior.";
       LocationAnalysis.severity := low;
       LocationAnalysis.details := None |}.

(* ================================================================== *)
(** ** Miss Diagnoser: [generateSmartRecommendations], [analyzeCacheMiss] *)

Module PreviousRequest.
Record t : Type := mk {
  messages : option (list Message.t);
  messageHashes : option (list Fingerprint.t);
  systemPrompt : option Message.t;
  systemPromptHash : option string;
  timestamp : option Z
}.

(** The initial value of the global: every field [null]. *)
Definition empty : t := mk None None None None None.
End PreviousRequest.

Module PrimaryDiagnosis.
Record t : Type := mk {
  issue : string;
  icon : string;
  color : string;
  shortMessage : string;
  action : option string
}.
End PrimaryDiagnosis.

Module Recommendation.
Record t : Type := mk {
  priority : Z;
  type : string;
  message : string;
  severity : severity_t;
  actionable : option string
}.
End Recommendation.

Module Analysis.
Record t : Type := mk {
  reasons : list string;
  divergence : option Divergence.t;
  ttlWarning : bool;
  timeSinceLastRequest : option Z;
  locationAnalysis : option LocationAnalysis.t;
  loreIssue : option LoreIssue.t;
  recommendations : list Recommendation.t;
  primaryDiagnosis : option PrimaryDiagnosis.t;
  prevPatterns : option Patterns.t;
  currPatterns : option Patterns.t
}.
End Analysis.

Definition cause_name (c : cause_t) : string :=
  match c with
  | lorebook_ordering => "lorebook_ordering"
  | lorebook_keywords => "lorebook_keywords"
  | depth_configuration => "depth_configuration"
  | system_prompt_change => "system_prompt_change"
  | lorebook_depth_injection => "lorebook_depth_injection"
  | injected_content => "injected_content"
  | chat_history => "chat_history"
  end.

Definition kind_name (k : LoreIssue.kind) : string :=
  match k with
  | LoreIssue.reordering => "reordering"
  | LoreIssue.different_entries => "different_entries"
  end.

(** [recommendations.sort((a, b) => a.priority - b.priority)]: the sort
    of an array is stable. *)
Fixpoint insert_by_priority (r : Recommendation.t) (sorted : list Recommendation.t)
  : list Recommendation.t :=
  match sorted with
  | [] => [r]
  | x :: rest =>
      if Recommendation.priority r <? Recommendation.priority x
      then r :: sorted
      else x :: insert_by_priority r rest
  end.

Definition sort_by_priority (l : list Recommendation.t) : list Recommendation.t :=
  fold_left (fun sorted r => insert_by_priority r sorted) l [].

Definition generateSmartRecommendations
    (locationAnalysis : option LocationAnalysis.t) (ttlWarning : bool)
    (loreIssue : option LoreIssue.t) : list Recommendation.t :=
  let fromLocation :=
    match locationAnalysis with
    | Some la =>
        match LocationAnalysis.recommendation la with
        | Some text =>
            if String.eqb text "" then []
            else [ {| Recommendation.priority := 1;
                      Recommendation.type :=
                        match LocationAnalysis.likelyCause la with
                        | Some c => cause_name c
                        | None => "null"
                        end;
                      Recommendation.message := text;
                      Recommendation.severity := LocationAnalysis.severity la;
                      Recommendation.actionable := None |} ]
        | None => []
        end
    | None => []
    end in
  let fromTtl :=
    if ttlWarning then
      [ {| Recommendation.priority := 2;
           Recommendation.type := "ttl_expired";
           Recommendation.message :=
             "Cache expired due to 5-minute TTL. Send messages more frequently to maintain cache.";
           Recommendation.severity := medium;
           Recommendation.actionable := None |} ]
    else [] in
  let fromLore :=
    match loreIssue with
    | Some li =>
        [ {| Recommendation.priority := 1;
             Recommendation.type := kind_name (LoreIssue.type li);
             Recommendation.message := LoreIssue.message li;
             Recommendation.severity :=
               if LoreIssue.kind_eqb (LoreIssue.type li) LoreIssue.reordering
               then high else medium;
             Recommendation.actionable := Some (LoreIssue.recommendation li) |} ]
    | None => []
    end in
  sort_by_priority (fromLocation ++ fromTtl ++ fromLore)%list.

(** The [if / else if] chain that sets [analysis.primaryDiagnosis]. *)
Definition selectPrimaryDiagnosis (loreIssue : option LoreIssue.t)
    (locationAnalysis : LocationAnalysis.t) : option PrimaryDiagnosis.t :=
  let loreType := option_map LoreIssue.type loreIssue in
  let likelyCause := LocationAnalysis.likelyCause locationAnalysis in
  match loreType, likelyCause, LocationAnalysis.location locationAnalysis with
  | Some LoreIssue.reordering, _, _ =>
      Some {| PrimaryDiagnosis.issue := "Lorebook Ordering Issue";
              PrimaryDiagnosis.icon := "📚";
              PrimaryDiagnosis.color := "#f87171";
              PrimaryDiagnosis.shortMessage :=
                "Lorebook entries are reordering between requests";
              PrimaryDiagnosis.action :=
                Some "Set unique Order values for each lorebook entry" |}
  | Some LoreIssue.different_entries, _, _ =>
      Some {| PrimaryDiagnosis.issue := "Different Lorebook Entries";
              PrimaryDiagnosis.icon := "📖";
              PrimaryDiagnosis.color := "#fbbf24";
              PrimaryDiagnosis.shortMessage :=
                "Different lorebook entries triggered by keywords";
              PrimaryDiagnosis.action :=
                Some "Set frequently-used entries to Constant mode" |}
  | None, Some depth_configuration, _ =>
      Some {| PrimaryDiagnosis.issue := "Depth Configuration Issue";
              PrimaryDiagnosis.icon := "⬇️";
              PrimaryDiagnosis.color := "#f87171";
              PrimaryDiagnosis.shortMessage :=
                "Content at non-zero depth causing instability";
              PrimaryDiagnosis.action :=
                Some "Set constant entries to depth 0 in lorebook settings" |}
  | None, Some lorebook_depth_injection, _ =>
      Some {| PrimaryDiagnosis.issue := "Lorebook Depth Issue";
              PrimaryDiagnosis.icon := "📍";
              PrimaryDiagnosis.color := "#f87171";
              PrimaryDiagnosis.shortMessage :=
                "Lorebook injected mid-prompt at non-zero depth";
              PrimaryDiagnosis.action :=
                Some ("Set lorebook entries to depth 0 and position " ++ Json.dquote
                        ++ "@ Depth" ++ Json.dquote) |}
  | None, _, late =>
      Some {| PrimaryDiagnosis.issue := "Chat History Change";
              PrimaryDiagnosis.icon := "💬";
              PrimaryDiagnosis.color := "#4ade80";
              PrimaryDiagnosis.shortMessage := "Normal - new messages added to history";
              PrimaryDiagnosis.action := None |}
  | None, _, early =>
      Some {| PrimaryDiagnosis.issue := "Early Prompt Instability";
              PrimaryDiagnosis.icon := "⚠️";
              PrimaryDiagnosis.color := "#fbbf24";
              PrimaryDiagnosis.shortMessage := "System prompt or early content changed";
              PrimaryDiagnosis.action :=
                Some "Check character card, system prompt, and author's notes" |}
  | None, _, _ => None
  end.

(** [Math.round(ms / 1000)] for an integer number of milliseconds. *)
Definition round_seconds (ms : Z) : Z := (ms + 500) / 1000.

Definition ttl_reason (timeSince : Z) : string :=
  "TTL expired (" ++ Str.dec (round_seconds timeSince)
    ++ "s since last request, max 300s)".

Definition first_request_reason : string := "First request - no previous cache".

(** [analyzeCacheMiss] in its three parts; [previousRequest] and the
    reading of [Date.now()] are arguments. *)

(** "Check TTL (5 minutes = 300000ms)": the reasons pushed, [ttlWarning]
    and [timeSinceLastRequest]. *)
Definition ttlCheck (previousRequest : PreviousRequest.t) (now : Z)
  : list string * bool * option Z :=
  match PreviousRequest.timestamp previousRequest with
  | Some ts =>
      if ts =? 0 then ([first_request_reason], false, None)
      else
        let timeSince := now - ts in
        if 300000 <? timeSince
        then ([ttl_reason timeSince], true, Some timeSince)
        else ([], false, Some timeSince)
  | None => ([first_request_reason], false, None)
  end.

Module DivergenceCheck.
Record t : Type := mk {
  divergence : option Divergence.t;
  reasons : list string;
  patterns : option (Patterns.t * Patterns.t);
  loreIssue : option LoreIssue.t;
  locationAnalysis : option LocationAnalysis.t;
  primaryDiagnosis : option PrimaryDiagnosis.t
}.
End DivergenceCheck.

(** "Check for divergence": what the block under
    [if (previousRequest.messageHashes)] sets. *)
Definition divergenceCheck (previousRequest : PreviousRequest.t)
    (currentHashes : list Fingerprint.t) : DivergenceCheck.t :=
  match PreviousRequest.messageHashes previousRequest with
  | Some prevHashes =>
      let divergence := findDivergencePoint (Some prevHashes) (Some currentHashes) in
      if 0 <=? Divergence.divergeIndex divergence then
        let prevContent :=
          match Divergence.prevContent divergence with Some c => c | None => "" end in
        let currContent :=
          match Divergence.currContent divergence with Some c => c | None => "" end in
        let prevPatterns := detectContentPatterns prevContent in
        let currPatterns := detectContentPatterns currContent in
        let loreIssue :=
          if Patterns.hasLoreEntries prevPatterns || Patterns.hasLoreEntries currPatterns
          then detectLoreOrderingIssues (Patterns.loreEntryNames prevPatterns)
                                        (Patterns.loreEntryNames currPatterns)
          else None in
        let locationAnalysis :=
          analyzeDivergenceLocation (Divergence.divergeIndex divergence)
            (Z.of_nat (List.length currentHashes))
            prevContent currContent (Some prevPatterns) (Some currPatterns) in
        {| DivergenceCheck.divergence := Some divergence;
           DivergenceCheck.reasons := [Divergence.reason divergence];
           DivergenceCheck.patterns := Some (prevPatterns, currPatterns);
           DivergenceCheck.loreIssue := loreIssue;
           DivergenceCheck.locationAnalysis := Some locationAnalysis;
           DivergenceCheck.primaryDiagnosis :=
             selectPrimaryDiagnosis loreIssue locationAnalysis |}
      else DivergenceCheck.mk (Some divergence) [] None None None None
  | None => DivergenceCheck.mk None [] None None None None
  end.

(** "Check if system prompt changed": the reasons pushed. *)
Definition systemPromptCheck (previousRequest : PreviousRequest.t)
    (currentMessages : option (list Message.t)) : list string :=
  match currentMessages with
  | Some (firstMsg :: _) =>
      if String.eqb (Message.role firstMsg) "system" then
        let currSysHash := hashString (Json.stringify (Message.to_json firstMsg)) in
        match PreviousRequest.systemPromptHash previousRequest with
        | Some prevSysHash =>
            if negb (String.eqb prevSysHash "")
               && negb (String.eqb prevSysHash currSysHash)
            then ["System prompt changed"] else []
        | None => []
        end
      else []
  | _ => []
  end.

Definition analyzeCacheMiss (previousRequest : PreviousRequest.t) (now : Z)
    (currentMessages : option (list Message.t))
    (currentHashes : list Fingerprint.t) : Analysis.t :=
  let ttl := ttlCheck previousRequest now in
  let div := divergenceCheck previousRequest currentHashes in
  let sysReasons := systemPromptCheck previousRequest currentMessages in
  let ttlWarning := snd (fst ttl) in
  {| Analysis.reasons :=
       (fst (fst ttl) ++ DivergenceCheck.reasons div ++ sysReasons)%list;
     Analysis.divergence := DivergenceCheck.divergence div;
     Analysis.ttlWarning := ttlWarning;
     Analysis.timeSinceLastRequest := snd ttl;
     Analysis.locationAnalysis := DivergenceCheck.locationAnalysis div;
     Analysis.loreIssue := DivergenceCheck.loreIssue div;
     Analysis.recommendations :=
       generateSmartRecommendations (DivergenceCheck.locationAnalysis div) ttlWarning
         (DivergenceCheck.loreIssue div);
     Analysis.primaryDiagnosis := DivergenceCheck.primaryDiagnosis div;
     Analysis.prevPatterns := option_map fst (DivergenceCheck.patterns div);
     Analysis.currPatterns := option_map snd (DivergenceCheck.patterns div) |}.

(* ================================================================== *)
(** ** Cost Model: [calculateCosts] *)

(** A usage record as the data model has it: a model string and integer
    token counts.  On such a record [usage.field || 0] is the field. *)
Module Usage.
Record t : Type := mk {
  model : string;
  input_tokens : Z;
  output_tokens : Z;
  cache_read_input_tokens : Z;
  cache_creation_input_tokens : Z
}.
End Usage.

Module Price.
Record t : Type := mk {
  inputPrice : float;       (* per 1M tokens *)
  outputPrice : float;
  cacheWritePrice : float;
  cacheReadPrice : float
}.
End Price.

(** "Default to Sonnet 4.5 pricing, adjust for other models". *)
Definition sonnetPricing : Price.t := Price.mk 3.0 15.0 3.75 0.30.

(** The [if / else if] chain over the model name. *)
Definition priceTier (model : string) : Price.t :=
  if Str.test_ci "opus-4-5" model || Str.test_ci "opus-4.5" model then
    Price.mk 5.0 25.0 6.25 0.50
  else if Str.test_ci "opus-4-1" model || Str.test_ci "opus-4.1" model then
    Price.mk 15.0 75.0 18.75 1.50
  else if Str.test_ci "opus" model then
    Price.mk 5.0 25.0 6.25 0.50
  else if Str.test_ci "haiku-4-5" model || Str.test_ci "haiku-4.5" model then
    Price.mk 1.0 5.0 1.25 0.10
  else if Str.test_ci "haiku" model then
    Price.mk 0.80 4.0 1.0 0.08
  else
    sonnetPricing.

Module Costs.
Record t : Type := mk {
  inputCost : float;
  outputCost : float;
  cacheWriteCost : float;
  cacheReadCost : float;
  totalCost : float;
  costWithoutCache : float;
  savings : float
}.
End Costs.

(** [Math.max(0, inputTokens - cacheRead)] *)
Definition nonCachedInput (usage : Usage.t) : Z :=
  Z.max 0 (Usage.input_tokens usage - Usage.cache_read_input_tokens usage).

Definition per_million (tokens : Z) : float := (float_of_Z tokens / 1000000)%float.

Definition calculateCosts (usage : Usage.t) : Costs.t :=
  let price := priceTier (Usage.model usage) in
  let inputTokens := Usage.input_tokens usage in
  let outputTokens := Usage.output_tokens usage in
  let cacheRead := Usage.cache_read_input_tokens usage in
  let cacheWrite := Usage.cache_creation_input_tokens usage in
  let inputCost := (per_million (nonCachedInput usage) * Price.inputPrice price)%float in
  let outputCost := (per_million outputTokens * Price.outputPrice price)%float in
  let cacheWriteCost := (per_million cacheWrite * Price.cacheWritePrice price)%float in
  let cacheReadCost := (per_million cacheRead * Price.cacheReadPrice price)%float in
  let totalCost := (inputCost + outputCost + cacheWriteCost + cacheReadCost)%float in
  let costWithoutCache :=
    (per_million inputTokens * Price.inputPrice price + outputCost)%float in
  let savings := (costWithoutCache - totalCost)%float in
  {| Costs.inputCost := inputCost;
     Costs.outputCost := outputCost;
     Costs.cacheWriteCost := cacheWriteCost;
     Costs.cacheReadCost := cacheReadCost;
     Costs.totalCost := totalCost;
     Costs.costWithoutCache := costWithoutCache;
     Costs.savings := savings |}.

(* ================================================================== *)
(** ** Session Aggregator: [processUsageData] *)

Module HistoryEntry.
Record t : Type := mk {
  timestamp : Z;
  responseTimeMs : Z;
  usage : Usage.t;
  cacheHit : bool;
  cacheWrite : bool;
  costs : Costs.t;
  analysis : option Analysis.t;
  messageHashes : list Fingerprint.t;
  messageCount : Z
}.
End HistoryEntry.

Module SessionStats.
Record t : Type := mk {
  totalRequests : Z;
  cacheHits : Z;
  cacheMisses : Z;
  consecutiveMisses : Z;
  totalInputTokens : Z;
  totalCacheReadTokens : Z;
  totalCacheWriteTokens : Z;
  lastUsage : option Usage.t;
  requestHistory : list HistoryEntry.t
}.

Definition zero : t := mk 0 0 0 0 0 0 0 None [].
End SessionStats.

Module CurrentRequest.
Record t : Type := mk {
  active : bool;
  startTime : option Z;
  usage : option Usage.t;
  messages : option (list Message.t)
}.

Definition idle : t := mk false None None None.
End CurrentRequest.

(** The two settings the aggregator reads. *)
Module Settings.
Record t : Type := mk {
  autoPauseOnWaste : bool;
  wasteThreshold : Z
}.

Definition default : t := mk true 3.
End Settings.

(** The globals of the extension, and the warnings handed to
    [toastr.warning] so far (oldest first).  [updateDailyStats],
    [saveUsageToMessage], [updatePanel] and [log] write to local
    storage, the host's chat, the page and the console only. *)
Module State.
Record t : Type := mk {
  sessionStats : SessionStats.t;
  currentRequest : CurrentRequest.t;
  previousRequest : PreviousRequest.t;
  detectedClaudeUsage : bool;
  warnings : list string
}.

Definition initial : t :=
  mk SessionStats.zero CurrentRequest.idle PreviousRequest.empty false [].
End State.

(** [/claude/i.test(model)] *)
Definition isClaude (model : string) : bool := Str.test_ci "claude" model.

Definition waste_warning (consecutiveMisses : Z) : string :=
  Str.dec consecutiveMisses ++ " consecutive cache misses. Check prompt stability.".

(** The entry [processUsageData] pushes for an accepted record. *)
Definition historyEntry (now : Z) (usage : Usage.t) (st : State.t) : HistoryEntry.t :=
  let current := State.currentRequest st in
  let hadCacheRead := 0 <? Usage.cache_read_input_tokens usage in
  let hadCacheWrite := 0 <? Usage.cache_creation_input_tokens usage in
  let responseTime :=
    match CurrentRequest.startTime current with
    | Some t => if t =? 0 then 0 else now - t
    | None => 0
    end in
  let currentHashes := hashMessages (CurrentRequest.messages current) in
  let analysis :=
    if hadCacheWrite && negb hadCacheRead
    then Some (analyzeCacheMiss (State.previousRequest st) now
                 (CurrentRequest.messages current) currentHashes)
    else None in
  {| HistoryEntry.timestamp := now;
     HistoryEntry.responseTimeMs := responseTime;
     HistoryEntry.usage := usage;
     HistoryEntry.cacheHit := hadCacheRead;
     HistoryEntry.cacheWrite := hadCacheWrite;
     HistoryEntry.costs := calculateCosts usage;
     HistoryEntry.analysis := analysis;
     HistoryEntry.messageHashes := currentHashes;
     HistoryEntry.messageCount :=
       match CurrentRequest.messages current with
       | Some msgs => Z.of_nat (List.length msgs)
       | None => 0
       end |}.

(** [history.push(entry); ... if (history.length > 100) history.shift()] *)
Definition push_bounded (history : list HistoryEntry.t) (entry : HistoryEntry.t)
  : list HistoryEntry.t :=
  let pushed := (history ++ [entry])%list in
  if 100 <? Z.of_nat (List.length pushed) then tl pushed else pushed.

(** The snapshot stored "as previous for next comparison". *)
Definition snapshot (now : Z) (messages : list Message.t) : PreviousRequest.t :=
  let first_is_system :=
    match messages with
    | m :: _ => String.eqb (Message.role m) "system"
    | [] => false
    end in
  {| PreviousRequest.messages := Some messages;
     PreviousRequest.messageHashes := Some (hashMessages (Some messages));
     PreviousRequest.systemPrompt :=
       if first_is_system then hd_error messages else None;
     PreviousRequest.systemPromptHash :=
       match messages with
       | m :: _ =>
           if first_is_system
           then Some (hashString (Json.stringify (Message.to_json m)))
           else None
       | [] => None
       end;
     PreviousRequest.timestamp := Some now |}.

(** [settings] is [extension_settings[extensionName]]; the readings of
    [Date.now()] within one call are taken as the one instant [now]. *)
Definition processUsageData (settings : option Settings.t) (now : Z)
    (usage : option Usage.t) (st : State.t) : State.t :=
  match usage with
  | None => st
  | Some usage =>
      if negb (isClaude (Usage.model usage)) then st
      else
        let stats := State.sessionStats st in
        let current := State.currentRequest st in
        let hadCacheRead := 0 <? Usage.cache_read_input_tokens usage in
        let hadCacheWrite := 0 <? Usage.cache_creation_input_tokens usage in
        let cacheHits :=
          if hadCacheRead then SessionStats.cacheHits stats + 1
          else SessionStats.cacheHits stats in
        let cacheMisses :=
          if hadCacheRead then SessionStats.cacheMisses stats
          else if hadCacheWrite then SessionStats.cacheMisses stats + 1
          else SessionStats.cacheMisses stats in
        let consecutiveMisses :=
          if hadCacheRead then 0
          else if hadCacheWrite then SessionStats.consecutiveMisses stats + 1
          else SessionStats.consecutiveMisses stats in
        let entry := historyEntry now usage st in
        let previousRequest :=
          match CurrentRequest.messages current with
          | Some messages => snapshot now messages
          | None => State.previousRequest st
          end in
        let warn :=
          match settings with
          | Some s =>
              Settings.autoPauseOnWaste s
              && (Settings.wasteThreshold s <=? consecutiveMisses)
          | None => false
          end in
        {| State.sessionStats :=
             {| SessionStats.totalRequests := SessionStats.totalRequests stats + 1;
                SessionStats.cacheHits := cacheHits;
                SessionStats.cacheMisses := cacheMisses;
                SessionStats.consecutiveMisses := consecutiveMisses;
                SessionStats.totalInputTokens :=
                  SessionStats.totalInputTokens stats + Usage.input_tokens usage;
                SessionStats.totalCacheReadTokens :=
                  SessionStats.totalCacheReadTokens stats
                  + Usage.cache_read_input_tokens usage;
                SessionStats.totalCacheWriteTokens :=
                  SessionStats.totalCacheWriteTokens stats
                  + Usage.cache_creation_input_tokens usage;
                SessionStats.lastUsage := Some usage;
                SessionStats.requestHistory :=
                  push_bounded (SessionStats.requestHistory stats) entry |};
           State.currentRequest :=
             {| CurrentRequest.active := CurrentRequest.active current;
                CurrentRequest.startTime := CurrentRequest.startTime current;
                CurrentRequest.usage := Some usage;
                CurrentRequest.messages := CurrentRequest.messages current |};
           State.previousRequest := previousRequest;
           State.detectedClaudeUsage := true;
           State.warnings :=
             if warn then (State.warnings st ++ [waste_warning consecutiveMisses])%list
             else State.warnings st |}
  end.

(* ================================================================== *)
(** ** The session as a transition system *)

(** What happens to the globals between page load and now. *)
Inductive event : Type :=
| RequestSent (now : Z) (messages : option (list Message.t))
    (* the fetch interceptor sees a chat-completion request *)
| UsageSeen (settings : option Settings.t) (now : Z) (usage : option Usage.t)
    (* a usage record reaches [processUsageData] *)
| StreamClosed
    (* the response stream ends, fails or is cancelled *)
| StatsReset.
    (* the reset button of the panel *)

Definition step (st : State.t) (e : event) : State.t :=
  match e with
  | RequestSent now messages =>
      {| State.sessionStats := State.sessionStats st;
         State.currentRequest :=
           {| CurrentRequest.active := true;
              CurrentRequest.startTime := Some now;
              CurrentRequest.usage := None;
              CurrentRequest.messages := messages |};
         State.previousRequest := State.previousRequest st;
         State.detectedClaudeUsage := State.detectedClaudeUsage st;
         State.warnings := State.warnings st |}
  | UsageSeen settings now usage => processUsageData settings now usage st
  | StreamClosed =>
      let current := State.currentRequest st in
      {| State.sessionStats := State.sessionStats st;
         State.currentRequest :=
           {| CurrentRequest.active := false;
              CurrentRequest.startTime := CurrentRequest.startTime current;
              CurrentRequest.usage := CurrentRequest.usage current;
              CurrentRequest.messages := CurrentRequest.messages current |};
         State.previousRequest := State.previousRequest st;
         State.detectedClaudeUsage := State.detectedClaudeUsage st;
         State.warnings := State.warnings st |}
  | StatsReset =>
      {| State.sessionStats := SessionStats.zero;
         State.currentRequest := State.currentRequest st;
         State.previousRequest := State.previousRequest st;
         State.detectedClaudeUsage := false;
         State.warnings := State.warnings st |}
  end.

Definition run (st : State.t) (events : list event) : State.t :=
  fold_left step events st.

(** [Date.now()] is a positive number of milliseconds. *)
Definition clock_ok (e : event) : Prop :=
  match e with
  | RequestSent now _ | UsageSeen _ now _ => 0 < now
  | _ => True
  end.

(** The states the extension can be in. *)
Inductive reachable : State.t -> Prop :=
| reachable_initial : reachable State.initial
| reachable_step (st : State.t) (e : event) :
    reachable st -> clock_ok e -> reachable (step st e).

(* ================================================================== *)
(** ** The session when a request body defeats [hashMessages] *)

(** What [processUsageData] has written when [hashMessages] throws on
    the captured messages: [detectedClaudeUsage], [currentRequest.usage],
    the totals, [lastUsage] and the three counters.  The history entry,
    the daily statistics, the snapshot and the warning come after the
    call and are not reached.  A missing record and one of another
    model return before the call. *)
Definition processUsageData_interrupted (usage : option Usage.t) (st : State.t)
  : State.t :=
  match usage with
  | None => st
  | Some usage =>
      if negb (isClaude (Usage.model usage)) then st
      else
        let stats := State.sessionStats st in
        let current := State.currentRequest st in
        let hadCacheRead := 0 <? Usage.cache_read_input_tokens usage in
        let hadCacheWrite := 0 <? Usage.cache_creation_input_tokens usage in
        {| State.sessionStats :=
             {| SessionStats.totalRequests := SessionStats.totalRequests stats + 1;
                SessionStats.cacheHits :=
                  if hadCacheRead then SessionStats.cacheHits stats + 1
                  else SessionStats.cacheHits stats;
                SessionStats.cacheMisses :=
                  if hadCacheRead then SessionStats.cacheMisses stats
                  else if hadCacheWrite then SessionStats.cacheMisses stats + 1
                  else SessionStats.cacheMisses stats;
                SessionStats.consecutiveMisses :=
                  if hadCacheRead then 0
                  else if hadCacheWrite then SessionStats.consecutiveMisses stats + 1
                  else SessionStats.consecutiveMisses stats;
                SessionStats.totalInputTokens :=
                  SessionStats.totalInputTokens stats + Usage.input_tokens usage;
                SessionStats.totalCacheReadTokens :=
                  SessionStats.totalCacheReadTokens stats
                  + Usage.cache_read_input_tokens usage;
                SessionStats.totalCacheWriteTokens :=
                  SessionStats.totalCacheWriteTokens stats
                  + Usage.cache_creation_input_tokens usage;
                SessionStats.lastUsage := Some usage;
                SessionStats.requestHistory := SessionStats.requestHistory stats |};
           State.currentRequest :=
             {| CurrentRequest.active := CurrentRequest.active current;
                CurrentRequest.startTime := CurrentRequest.startTime current;
                CurrentRequest.usage := Some usage;
                CurrentRequest.messages := CurrentRequest.messages current |};
           State.previousRequest := State.previousRequest st;
           State.detectedClaudeUsage := true;
           State.warnings := State.warnings st |}
  end.

(** The interceptor stores [body.messages] as it finds it.  The
    [RequestSent] of the session above carries messages [hashMessages]
    accepts; [UnhashableRequestSent] is a chat-completion request whose
    messages array holds an element without [content], on which
    [hashMessages] throws. *)
Inductive session_event : Type :=
| Seen (e : event)
| UnhashableRequestSent (now : Z).

(** The globals, and whether [currentRequest.messages] is such an array.
    While it is, the field [CurrentRequest.messages] of [globals] stands
    for nothing: [processUsageData] reads [currentRequest.messages]
    first in the call that throws. *)
Module Session.
Record t : Type := mk {
  globals : State.t;
  unhashable : bool
}.

Definition initial : t := mk State.initial false.
End Session.

(** The exception leaves [processUsageData]; both callers catch it (the
    stream reader then marks the request inactive, which is
    [StreamClosed]). *)
Definition session_step (s : Session.t) (e : session_event) : Session.t :=
  match e with
  | UnhashableRequestSent now =>
      {| Session.globals := step (Session.globals s) (RequestSent now None);
         Session.unhashable := true |}
  | Seen (RequestSent now messages) =>
      {| Session.globals := step (Session.globals s) (RequestSent now messages);
         Session.unhashable := false |}
  | Seen (UsageSeen settings now usage) =>
      {| Session.globals :=
           if Session.unhashable s
           then processUsageData_interrupted usage (Session.globals s)
           else processUsageData settings now usage (Session.globals s);
         Session.unhashable := Session.unhashable s |}
  | Seen e =>
      {| Session.globals := step (Session.globals s) e;
         Session.unhashable := Session.unhashable s |}
  end.

Definition session_run (s : Session.t) (events : list session_event) : Session.t :=
  fold_left session_step events s.

(* ================================================================== *)
(** ** The first revision of the aggregator

    The repository keeps older revisions of the extension.  In the
    oldest one [processUsageData] has no model test, and its
    [if / else if] over [hadCacheRead] and [hadCacheWrite] ends in an
    [else] ("No cache activity at all") that also extends the streak. *)

Module FirstRevision.
(** The update of [cacheHits], [cacheMisses] and [consecutiveMisses]. *)
Definition counters (usage : Usage.t) (stats : SessionStats.t) : Z * Z * Z :=
  let hadCacheRead := 0 <? Usage.cache_read_input_tokens usage in
  let hadCacheWrite := 0 <? Usage.cache_creation_input_tokens usage in
  if hadCacheRead then
    (SessionStats.cacheHits stats + 1, SessionStats.cacheMisses stats, 0)
  else if hadCacheWrite then
    (SessionStats.cacheHits stats, SessionStats.cacheMisses stats + 1,
     SessionStats.consecutiveMisses stats + 1)
  else
    (SessionStats.cacheHits stats, SessionStats.cacheMisses stats,
     SessionStats.consecutiveMisses stats + 1).
End FirstRevision.

(* ================================================================== *)
(** ** Stream Tap: the frame splitter of [setupFetchInterceptor] *)

(** The tap works on decoded text: [chunk] below is what
    [decoder.decode(value, { stream: true })] returned for one read. *)
Module Tap.

Definition newline : ascii := ascii_of_nat 10.

(** Puts a character in front of the first piece. *)
Definition cons_head (c : ascii) (pieces : list string) : list string :=
  match pieces with
  | [] => [String c ""]
  | piece :: rest => String c piece :: rest
  end.

(** [text.split(/\n\n/)] *)
Fixpoint split_events (text : string) : list string :=
  match text with
  | EmptyString => [""]
  | String a rest =>
      match rest with
      | String b rest' =>
          if Ascii.eqb a newline && Ascii.eqb b newline
          then "" :: split_events rest'
          else cons_head a (split_events rest)
      | EmptyString => [String a ""]
      end
  end.

(** [event.split('\n')] *)
Fixpoint split_lines (event : string) : list string :=
  match event with
  | EmptyString => [""]
  | String a rest =>
      if Ascii.eqb a newline then "" :: split_lines rest
      else cons_head a (split_lines rest)
  end.

(** [line.slice(n)] *)
Fixpoint slice (n : nat) (line : string) : string :=
  match n, line with
  | O, _ => line
  | S n', String _ rest => slice n' rest
  | S _, EmptyString => EmptyString
  end.

(** The body of [for (const line of lines)]: the payload handed to
    [parseUsageFromEvent], if any. *)
Definition line_payload (line : string) : list string :=
  if String.prefix "data: " line then
    let eventData := Str.trim (slice 6 line) in
    if negb (String.eqb eventData "") && negb (String.eqb eventData "[DONE]")
    then [eventData] else []
  else [].

Definition event_payloads (event : string) : list string :=
  flat_map line_payload (split_lines event).

(** One turn of the read loop: [sseBuffer += chunk], the split, and
    [sseBuffer = events.pop() || '']; the result is the new buffer and
    the payloads handed to the extractor, in order. *)
Definition read_chunk (sseBuffer chunk : string) : string * list string :=
  let events := split_events (sseBuffer ++ chunk) in
  (last events "", flat_map event_payloads (removelast events)).

(** The whole loop, from the empty buffer. *)
Definition read_all (chunks : list string) : string * list string :=
  fold_left (fun state chunk =>
               let '(sseBuffer, payloads) := state in
               let '(sseBuffer', more) := read_chunk sseBuffer chunk in
               (sseBuffer', payloads ++ more)%list)
            chunks ("", []).

End Tap.

(* ================================================================== *)
(** ** [escapeHtml] *)

(** [str.replace(/c/g, replacement)] for a pattern of one character. *)
Fixpoint replace_all (c : ascii) (replacement : string) (str : string) : string :=
  match str with
  | EmptyString => EmptyString
  | String x rest =>
      (if Ascii.eqb x c then replacement else String x "")
        ++ replace_all c replacement rest
  end.

Definition escapeHtml (str : string) : string :=
  replace_all "'"%char "&#039;"
    (replace_all (ascii_of_nat 34) "&quot;"
       (replace_all ">"%char "&gt;"
          (replace_all "<"%char "&lt;"
             (replace_all "&"%char "&amp;" str)))).

(* ================================================================== *)
(** ** [updateTTLTimer] *)

(** [s.padStart(2, '0')] *)
Definition padStart2 (s : string) : string :=
  match String.length s with
  | 0%nat => "00"
  | 1%nat => "0" ++ s
  | _ => s
  end.

(** The text and the colour written to the timer element, when the
    panel has one. *)
Definition updateTTLTimer (previousRequest : PreviousRequest.t) (now : Z)
  : string * string :=
  let no_cache := ("TTL: No cache yet", "") in
  match PreviousRequest.timestamp previousRequest with
  | None => no_cache
  | Some ts =>
      if ts =? 0 then no_cache
      else
        let elapsed := now - ts in
        let remaining := Z.max 0 (300000 - elapsed) in
        let remainingSec := remaining / 1000 in
        let min := remainingSec / 60 in
        let sec := Z.rem remainingSec 60 in
        if remaining <=? 0 then ("TTL: EXPIRED", "#f87171")
        else if remaining <? 60000 then
          ("TTL: " ++ Str.dec sec ++ "s", "#f87171")
        else if remaining <? 120000 then
          ("TTL: " ++ Str.dec min ++ ":" ++ padStart2 (Str.dec sec), "#fbbf24")
        else
          ("TTL: " ++ Str.dec min ++ ":" ++ padStart2 (Str.dec sec), "#4ade80")
  end.

(* ================================================================== *)
(** ** [saveUsageToMessage] *)

(** An object as the list of its own properties, in insertion order. *)
Module Obj.

(** [obj[k] = v]: an existing property keeps its place. *)
Fixpoint set (k : string) (v : json) (fields : list (string * json))
  : list (string * json) :=
  match fields with
  | [] => [(k, v)]
  | (k', v') :: rest =>
      if String.eqb k k' then (k, v) :: rest else (k', v') :: set k v rest
  end.

End Obj.

(** A message of the host's [chat] array: the two properties the
    extension touches. *)
Module ChatMessage.
Record t : Type := mk {
  is_user : bool;
  extra : option (list (string * json))
}.
End ChatMessage.

(** The assignments to [lastMessage.extra]. *)
Definition with_usage (usage : Usage.t) (m : ChatMessage.t) : ChatMessage.t :=
  let extra := match ChatMessage.extra m with Some e => e | None => [] end in
  {| ChatMessage.is_user := ChatMessage.is_user m;
     ChatMessage.extra :=
       Some (Obj.set "output_tokens" (JNum (Usage.output_tokens usage))
            (Obj.set "input_tokens" (JNum (Usage.input_tokens usage))
            (Obj.set "cache_creation_input_tokens"
                     (JNum (Usage.cache_creation_input_tokens usage))
            (Obj.set "cache_read_input_tokens"
                     (JNum (Usage.cache_read_input_tokens usage)) extra)))) |}.

(** [chat] is the host's array, [None] when it is not there. *)
Definition saveUsageToMessage (usage : Usage.t) (chat : option (list ChatMessage.t))
  : option (list ChatMessage.t) :=
  match chat with
  | None => None
  | Some [] => Some []
  | Some messages =>
      let lastMessage := last messages (ChatMessage.mk true None) in
      if negb (ChatMessage.is_user lastMessage)
      then Some (removelast messages ++ [with_usage usage lastMessage])%list
      else Some messages
  end.

(* ================================================================== *)
(** ** [loadSettings] *)

Definition defaultSettings : list (string * json) :=
  [("enabled", JBool true);
   ("panelCollapsed", JBool false);
   ("autoPauseOnWaste", JBool true);
   ("wasteThreshold", JNum 3);
   ("showPanel", JBool true);
   ("openrouterApiKey", JStr "")].

(** [stored] is [extension_settings[extensionName]]; the result is its
    value after the call. *)
Definition loadSettings (stored : option (list (string * json)))
  : list (string * json) :=
  fold_left (fun settings kv =>
               match Js.assoc (fst kv) settings with
               | None => Obj.set (fst kv) (snd kv) settings
               | Some _ => settings
               end)
            defaultSettings
            (match stored with Some s => s | None => [] end).

(* ================================================================== *)
(** * Vocabulary of the statements, and sample data *)

(** The order of the specification: delta, then start, then the generic
    usage object.  Built from the same three branches as the source. *)
Definition parseUsageFromEvent_documented_order (eventData : completion json)
  : option ParsedUsage :=
  let body :=
    let* decoded := eventData in
    let data := Some decoded in
    or_else (message_delta_usage data)
      (or_else (message_start_usage data)
         (or_else (openai_usage data)
            (Returns None))) in
  match body with
  | Returns r => r
  | Throws => None
  end.

(** A native streaming delta event: it has the delta shape and, because
    its counters sit in a root [usage] object, the generic shape too. *)
Definition delta_payload : json :=
  JObj [("type", JStr "message_delta");
        ("usage", JObj [("input_tokens", JNum 12);
                        ("output_tokens", JNum 34);
                        ("cache_read_input_tokens", JNum 500)])].

Definition sonnet_hit : Usage.t :=
  Usage.mk "anthropic/claude-sonnet-4.5" 1200 50 500 0.

Definition sonnet_write_miss : Usage.t :=
  Usage.mk "anthropic/claude-sonnet-4.5" 1200 50 0 800.

Definition hello : list Message.t :=
  [Message.mk "system" (JStr "You are a narrator.") None;
   Message.mk "user" (JStr "hello") None].

(** The last [n] elements of a list. *)
Definition last_n {A} (n : nat) (l : list A) : list A :=
  skipn (List.length l - n) l.

(** The session with, beside it, every history entry recorded since the
    last reset, none evicted. *)
Definition journal_step (sj : State.t * list HistoryEntry.t) (e : event)
  : State.t * list HistoryEntry.t :=
  let '(st, journal) := sj in
  (step st e,
   match e with
   | UsageSeen _ now (Some usage) =>
       if isClaude (Usage.model usage)
       then (journal ++ [historyEntry now usage st])%list
       else journal
   | StatsReset => []
   | _ => journal
   end).

Definition journal (events : list event) : list HistoryEntry.t :=
  snd (fold_left journal_step events (State.initial, [])).

Definition hundred_and_one : list event :=
  map (fun n => UsageSeen (Some Settings.default) (1000 + Z.of_nat n) (Some sonnet_hit))
      (seq 0 101).

(** The counts at which [n] write-misses in a row warn, starting from
    the count [c]: every count from the threshold on. *)
Definition warned_counts (threshold c : Z) (n : nat) : list Z :=
  filter (fun k => threshold <=? k) (map (fun i => c + Z.of_nat i) (seq 1 n)).

(** The two sequences carry the same hash at every index below [n]
    that both have. *)
Definition agree_below (n : nat) (prevHashes currHashes : list Fingerprint.t) : Prop :=
  forall j p c,
    (j < n)%nat ->
    nth_error prevHashes j = Some p ->
    nth_error currHashes j = Some c ->
    Fingerprint.hash p = Fingerprint.hash c.

Definition msgA : Message.t := Message.mk "system" (JStr "You are a narrator.") None.
Definition msgB : Message.t := Message.mk "user" (JStr "hello") None.
Definition msgC : Message.t := Message.mk "assistant" (JStr "Hi.") None.
Definition msgD : Message.t := Message.mk "assistant" (JStr "Hi there.") None.

Definition fingerprints (messages : list Message.t) : option (list Fingerprint.t) :=
  Some (hashMessages (Some messages)).

(** [i / n < q] for the quotient JavaScript computes from two integers:
    with [n = 0] the quotient is [NaN] or an infinity, and is below [q]
    only as [-Infinity], that is for a negative [i]. *)
Definition quotient_below (i n : Z) (q : Q) : Prop :=
  if n =? 0 then i < 0 else (inject_Z i / inject_Z n < q)%Q.

Definition lore_and_depth_prev : string := "<lore_entry Elves> depth: 2".
Definition lore_and_depth_curr : string := "<lore_entry Dwarves> depth: 2".

(** A write of 1000 tokens into the cache and nothing else. *)
Definition cache_write_only : Usage.t := Usage.mk "claude-sonnet-4-5" 0 0 0 1000.

Definition million_input : Usage.t := Usage.mk "claude-sonnet-4-5" 1000000 0 0 0.

(** The snapshot is all-null until a request with captured messages has
    been processed, and carries a positive timestamp from then on. *)
Definition snapshot_ok (p : PreviousRequest.t) : Prop :=
  match PreviousRequest.timestamp p with
  | None => p = PreviousRequest.empty
  | Some ts => 0 < ts
  end.

Definition is_ttl_reason (reason : string) : bool :=
  String.prefix "TTL expired" reason.

Definition after_first_request : State.t :=
  run State.initial
      [RequestSent 1000 (Some hello);
       UsageSeen (Some Settings.default) 2000 (Some sonnet_write_miss)].

(** The chunks of a response, put end to end. *)
Definition joined (chunks : list string) : string :=
  fold_right String.append "" chunks.

(** The separator of two events: a blank line. *)
Definition blank_line : string := String Tap.newline (String Tap.newline "").

(** [d.k] on a decoded payload other than [null]. *)
Definition field (d : json) (k : string) : jsval :=
  match d with
  | JObj fields => Js.assoc k fields
  | _ => None
  end.

(** [d.message?.usage] *)
Definition message_usage (d : json) : jsval :=
  match field d "message" with
  | Some (JObj fields) => Js.assoc "usage" fields
  | _ => None
  end.

(** A field of a returned record holds a truthy value or its default. *)
Definition defaults_to (default : json) (v : jsval) : Prop :=
  Js.truthy v = true \/ v = Some default.

Definition start_payload : json :=
  JObj [("type", JStr "message_start");
        ("message", JObj [("model", JStr "claude-sonnet-4-5");
                          ("usage", JObj [("input_tokens", JNum 900);
                                          ("cache_creation_input_tokens", JNum 800)])])].

(** "All numeric fields default to 0" and the model to the empty
    string: no field of a returned record is [undefined], [null] or
    another falsy value. *)
Definition fields_defaulted (u : ParsedUsage) : Prop :=
  defaults_to (JStr "") (pu_model u)
  /\ defaults_to (JNum 0) (pu_input_tokens u)
  /\ defaults_to (JNum 0) (pu_output_tokens u)
  /\ defaults_to (JNum 0) (pu_cache_read_input_tokens u)
  /\ defaults_to (JNum 0) (pu_cache_creation_input_tokens u).

(** The polynomial hash [s[0]*31^(n-1) + ... + s[n-1]], not wrapped. *)
Definition poly31 (chars : list ascii) : Z :=
  fold_left (fun h c => 31 * h + Str.code c) chars 0.

(** The priorities of a list of recommendations never decrease. *)
Fixpoint by_priority (recs : list Recommendation.t) : bool :=
  match recs with
  | a :: (b :: _) as rest =>
      (Recommendation.priority a <=? Recommendation.priority b) && by_priority rest
  | _ => true
  end.

Definition is_ttl_recommendation (r : Recommendation.t) : bool :=
  String.eqb (Recommendation.type r) "ttl_expired".

(** The hash [processUsageData] and [hashMessages] give a message. *)
Definition message_hash (m : Message.t) : string :=
  hashString (Json.stringify (Message.to_json m)).

(** What holds of the counters between any two events. *)
Definition counters_ok (st : State.t) : Prop :=
  let stats := State.sessionStats st in
  0 <= SessionStats.consecutiveMisses stats <= SessionStats.cacheMisses stats
  /\ 0 <= SessionStats.cacheHits stats
  /\ SessionStats.cacheHits stats + SessionStats.cacheMisses stats
     <= SessionStats.totalRequests stats
  /\ Z.of_nat (List.length (SessionStats.requestHistory stats))
     <= Z.min 100 (SessionStats.totalRequests stats)
  /\ State.detectedClaudeUsage st = (0 <? SessionStats.totalRequests stats)
  /\ (SessionStats.lastUsage stats = None <-> SessionStats.totalRequests stats = 0).

(** The history holds an entry for every request counted, up to 100. *)
Definition history_complete (st : State.t) : Prop :=
  let stats := State.sessionStats st in
  Z.of_nat (List.length (SessionStats.requestHistory stats))
  = Z.min 100 (SessionStats.totalRequests stats).

(** Three requests whose messages cannot be hashed, each answered by a
    write-miss. *)
Definition unhashable_misses : list session_event :=
  [UnhashableRequestSent 1000;
   Seen (UsageSeen (Some Settings.default) 2000 (Some sonnet_write_miss));
   UnhashableRequestSent 3000;
   Seen (UsageSeen (Some Settings.default) 4000 (Some sonnet_write_miss));
   UnhashableRequestSent 5000;
   Seen (UsageSeen (Some Settings.default) 6000 (Some sonnet_write_miss))].

(** An entry of a request that wrote to the cache and read nothing. *)
Definition is_write_miss (e : HistoryEntry.t) : bool :=
  HistoryEntry.cacheWrite e && negb (HistoryEntry.cacheHit e).

(** The same two conditions on a usage record. *)
Definition read_hit (usage : Usage.t) : bool :=
  0 <? Usage.cache_read_input_tokens usage.

Definition write_miss (usage : Usage.t) : bool :=
  (0 <? Usage.cache_creation_input_tokens usage) && negb (read_hit usage).

(** The number of records with a property. *)
Definition count (p : Usage.t -> bool) (records : list Usage.t) : Z :=
  Z.of_nat (List.length (filter p records)).

(** The sum of one token count over the records. *)
Definition total (f : Usage.t -> Z) (records : list Usage.t) : Z :=
  fold_right (fun usage acc => f usage + acc) 0 records.

(** The records after the last cache hit. *)
Definition since_last_hit (records : list Usage.t) : list Usage.t :=
  fold_left (fun acc usage => if read_hit usage then [] else (acc ++ [usage])%list)
            records [].

(** The last element of a list. *)
Definition final {A} (l : list A) : option A := hd_error (rev l).

(** The statistics are what the usage records add up to. *)
Definition stats_of_records (stats : SessionStats.t) (records : list Usage.t)
  : Prop :=
  SessionStats.totalRequests stats = Z.of_nat (List.length records)
  /\ SessionStats.cacheHits stats = count read_hit records
  /\ SessionStats.cacheMisses stats = count write_miss records
  /\ SessionStats.consecutiveMisses stats = count write_miss (since_last_hit records)
  /\ SessionStats.totalInputTokens stats = total Usage.input_tokens records
  /\ SessionStats.totalCacheReadTokens stats
     = total Usage.cache_read_input_tokens records
  /\ SessionStats.totalCacheWriteTokens stats
     = total Usage.cache_creation_input_tokens records
  /\ SessionStats.lastUsage stats = final records.

(** The session with, beside it, every usage record counted since the
    last reset, each with the history entry pushed for it, if the call
    got that far. *)
Definition ledger_step (sl : Session.t * list (Usage.t * option HistoryEntry.t))
    (e : session_event) : Session.t * list (Usage.t * option HistoryEntry.t) :=
  let '(s, ledger) := sl in
  (session_step s e,
   match e with
   | Seen (UsageSeen _ now (Some usage)) =>
       if isClaude (Usage.model usage)
       then (ledger
               ++ [(usage,
                    if Session.unhashable s then None
                    else Some (historyEntry now usage (Session.globals s)))])%list
       else ledger
   | Seen StatsReset => []
   | _ => ledger
   end).

Definition ledger (events : list session_event)
  : list (Usage.t * option HistoryEntry.t) :=
  snd (fold_left ledger_step events (Session.initial, [])).

(** The entries pushed for the records of a ledger. *)
Definition pushed (records : list (Usage.t * option HistoryEntry.t))
  : list HistoryEntry.t :=
  flat_map (fun r => match snd r with Some e => [e] | None => [] end) records.

(** An entry, where there is one, carries the record it was pushed for. *)
Definition entry_of_record (r : Usage.t * option HistoryEntry.t) : Prop :=
  match snd r with
  | Some e => HistoryEntry.usage e = fst r
  | None => True
  end.

(** What every event keeps true of the session and its ledger. *)
Definition ledger_ok (s : Session.t) (records : list (Usage.t * option HistoryEntry.t))
  : Prop :=
  stats_of_records (State.sessionStats (Session.globals s)) (map fst records)
  /\ SessionStats.requestHistory (State.sessionStats (Session.globals s))
     = last_n 100 (pushed records)
  /\ Forall entry_of_record records.

(** What [escapeHtml] makes of one character, read off its five
    replacements. *)
Definition escape_char (c : ascii) : string :=
  if Ascii.eqb c "&"%char then "&amp;"
  else if Ascii.eqb c "<"%char then "&lt;"
  else if Ascii.eqb c ">"%char then "&gt;"
  else if Ascii.eqb c (ascii_of_nat 34) then "&quot;"
  else if Ascii.eqb c "'"%char then "&#039;"
  else String c "".

(** The characters that would open or close a tag or an attribute
    value. *)
Definition is_markup (c : ascii) : bool :=
  Ascii.eqb c "<"%char || Ascii.eqb c ">"%char
  || Ascii.eqb c (ascii_of_nat 34) || Ascii.eqb c "'"%char.

Definition code_units (s : string) : list ascii := list_ascii_of_string s.

(** The four properties [saveUsageToMessage] writes. *)
Definition usage_keys : list string :=
  ["cache_read_input_tokens"; "cache_creation_input_tokens";
   "input_tokens"; "output_tokens"].

(** [m.extra] read as an object: no property when it is not there. *)
Definition extra_of (m : ChatMessage.t) : list (string * json) :=
  match ChatMessage.extra m with Some e => e | None => [] end.

(** The settings object before [loadSettings]: empty when absent. *)
Definition stored_settings (stored : option (list (string * json)))
  : list (string * json) :=
  match stored with Some s => s | None => [] end.

(** What an entry of the history says agrees with the usage record and
    the fingerprints it carries. *)
Definition entry_consistent (e : HistoryEntry.t) : Prop :=
  let usage := HistoryEntry.usage e in
  HistoryEntry.cacheHit e = (0 <? Usage.cache_read_input_tokens usage)
  /\ HistoryEntry.cacheWrite e = (0 <? Usage.cache_creation_input_tokens usage)
  /\ HistoryEntry.costs e = calculateCosts usage
  /\ isClaude (Usage.model usage) = true
  /\ HistoryEntry.messageCount e
     = Z.of_nat (List.length (HistoryEntry.messageHashes e))
  /\ (HistoryEntry.analysis e <> None <-> is_write_miss e = true).

(** The readings of the clock never go back: each is at least [last],
    the one before. *)
Fixpoint clock_monotone (last : Z) (events : list event) : Prop :=
  match events with
  | [] => True
  | RequestSent now _ :: rest | UsageSeen _ now _ :: rest =>
      last <= now /\ clock_monotone now rest
  | _ :: rest => clock_monotone last rest
  end.

(** The timestamps of the entries never decrease. *)
Fixpoint in_time_order (entries : list HistoryEntry.t) : bool :=
  match entries with
  | a :: (b :: _) as rest =>
      (HistoryEntry.timestamp a <=? HistoryEntry.timestamp b) && in_time_order rest
  | _ => true
  end.

(** Nothing the state remembers is later than [last]. *)
Definition not_after (last : Z) (st : State.t) : Prop :=
  match CurrentRequest.startTime (State.currentRequest st) with
  | Some t => t <= last
  | None => True
  end
  /\ Forall (fun e => HistoryEntry.timestamp e <= last
                      /\ 0 <= HistoryEntry.responseTimeMs e)
            (SessionStats.requestHistory (State.sessionStats st))
  /\ in_time_order (SessionStats.requestHistory (State.sessionStats st)) = true.

(** The request of [hello] after the system prompt was rewritten. *)
Definition hello_rewritten : list Message.t :=
  [Message.mk "system" (JStr "You are a poet.") None;
   Message.mk "user" (JStr "hello") None].

(** A message without [content], as a request body can carry it. *)
Definition no_content : json := JObj [("role", JStr "user")].

(* ================================================================== *)
(** * Properties *)

(** ** Numbers and objects as [JSON.stringify] prints them *)

Example number_samples :
  map Json.number
      [0; -7; 2 ^ 53 - 1; 2 ^ 53 + 1; 2 ^ 63; 10 ^ 21; 2 ^ 70; - (2 ^ 80); 2 ^ 1024]
  = ["0"; "-7"; "9007199254740991"; "9007199254740992"; "9223372036854776000";
     "1e+21"; "1.1805916207174113e+21"; "-1.2089258196146292e+24"; "null"].
Proof. vm_compute. reflexivity. Qed.

Example stringify_property_order :
  Json.stringify (JObj [("b", JNum 1); ("10", JNum 2); ("9", JNum 3); ("01", JNull)])
  = "{" ++ Json.quote "9" ++ ":3," ++ Json.quote "10" ++ ":2,"
        ++ Json.quote "b" ++ ":1," ++ Json.quote "01" ++ ":null}".
Proof. vm_compute. reflexivity. Qed.

Example parseInt_rounds :
  parseInt "9007199254740993" = 9007199254740992%float
  /\ parseInt "2" = 2%float.
Proof. split; vm_compute; reflexivity. Qed.

(** ** Usage Extractor *)

Lemma get_of_truthy :
  forall v k, Js.truthy v = true -> exists r, Js.get v k = Returns r.
Proof.
  intros [[| b | n | s | items | fields]|] k H; simpl in *;
    try discriminate; eauto.
Qed.

Lemma get_opt_returns :
  forall v k, exists r, Js.get_opt v k = Returns r.
Proof.
  intros [[| b | n | s | items | fields]|] k; simpl; eauto.
Qed.

(** Whatever the delta branch accepts, the generic branch before it has
    already accepted: the second [if] of the source is never the one
    that returns. *)
Lemma message_delta_branch_shadowed :
  forall data u,
    message_delta_usage data = Returns (Some u) ->
    exists g, openai_usage data = Returns (Some g).
Proof.
  intros data u H.
  unfold message_delta_usage, openai_usage in *.
  destruct (Js.get data "type") as [type|] eqn:Ty; simpl in H; [|discriminate].
  destruct (Js.get data "usage") as [usage|]; simpl in *; [|discriminate].
  destruct (Js.truthy usage) eqn:T.
  - assert (exists model, Js.get data "model" = Returns model) as [model ->].
    { destruct data as [[| b | n | s | items | fields]|]; simpl in *;
        try discriminate; eauto. }
    simpl.
    repeat match goal with
    | |- context [Js.get usage ?k] =>
        let r := fresh "r" in
        destruct (get_of_truthy usage k T) as [r ->]; simpl
    end.
    match goal with
    | |- context [Js.get_opt ?v ?k] =>
        let r := fresh "r" in
        destruct (get_opt_returns v k) as [r ->]; simpl
    end.
    eauto.
  - rewrite andb_false_r in H. discriminate.
Qed.

(** C1 (the code departs from it).  The claim: a payload matching more
    than one shape is normalized by the first of delta, start, generic.
    On the delta event [delta_payload] the source returns the record of
    the generic branch, with the empty model string, where the delta
    branch yields the model ["claude"]; the documented order would
    return the latter. *)
Theorem parseUsageFromEvent_delta_payload :
  message_delta_usage (Some delta_payload)
    = Returns (Some (mkParsedUsage (Js.str "claude") (Js.num 12) (Js.num 34)
                                   (Js.num 500) (Js.num 0)))
  /\ parseUsageFromEvent (Returns delta_payload)
     = Some (mkParsedUsage (Js.str "") (Js.num 12) (Js.num 34) (Js.num 500) (Js.num 0))
  /\ parseUsageFromEvent_documented_order (Returns delta_payload)
     = Some (mkParsedUsage (Js.str "claude") (Js.num 12) (Js.num 34)
                           (Js.num 500) (Js.num 0)).
Proof. repeat split; reflexivity. Qed.

(** ** Session Aggregator: classification of a record *)

Lemma push_bounded_eq :
  forall history entry,
    push_bounded history entry
    = ((if 100 <=? Z.of_nat (List.length history) then tl history else history)
         ++ [entry])%list.
Proof.
  intros history entry. unfold push_bounded.
  rewrite length_app. simpl List.length.
  destruct (100 <=? Z.of_nat (List.length history)) eqn:E.
  - apply Z.leb_le in E.
    replace (100 <? Z.of_nat (List.length history + 1)) with true
      by (symmetry; apply Z.ltb_lt; lia).
    destruct history; simpl in *; [lia | reflexivity].
  - apply Z.leb_gt in E.
    replace (100 <? Z.of_nat (List.length history + 1)) with false
      by (symmetry; apply Z.ltb_ge; lia).
    reflexivity.
Qed.

Lemma push_bounded_last :
  forall history entry, In entry (push_bounded history entry).
Proof.
  intros. rewrite push_bounded_eq. apply in_or_app. right. left. reflexivity.
Qed.

(** C2.  For a record with a Claude model string: a positive
    [cache_read_input_tokens] is a hit ([cacheHits] + 1,
    [consecutiveMisses] = 0); no read and a positive
    [cache_creation_input_tokens] is a write-miss ([cacheMisses] + 1,
    [consecutiveMisses] + 1); neither leaves the three counters as they
    were.  The entry stored in the history carries the same verdict. *)
Theorem processUsageData_classification :
  forall settings now usage st,
    isClaude (Usage.model usage) = true ->
    let stats := State.sessionStats st in
    let stats' := State.sessionStats (processUsageData settings now (Some usage) st) in
    let entry := historyEntry now usage st in
    let read := Usage.cache_read_input_tokens usage in
    let write := Usage.cache_creation_input_tokens usage in
    In entry (SessionStats.requestHistory stats')
    /\ (0 < read ->
        SessionStats.cacheHits stats' = SessionStats.cacheHits stats + 1
        /\ SessionStats.consecutiveMisses stats' = 0
        /\ SessionStats.cacheMisses stats' = SessionStats.cacheMisses stats
        /\ HistoryEntry.cacheHit entry = true)
    /\ (read = 0 -> 0 < write ->
        SessionStats.cacheMisses stats' = SessionStats.cacheMisses stats + 1
        /\ SessionStats.consecutiveMisses stats'
           = SessionStats.consecutiveMisses stats + 1
        /\ SessionStats.cacheHits stats' = SessionStats.cacheHits stats
        /\ HistoryEntry.cacheHit entry = false
        /\ HistoryEntry.cacheWrite entry = true
        /\ HistoryEntry.analysis entry <> None)
    /\ (read = 0 -> write = 0 ->
        SessionStats.cacheHits stats' = SessionStats.cacheHits stats
        /\ SessionStats.cacheMisses stats' = SessionStats.cacheMisses stats
        /\ SessionStats.consecutiveMisses stats'
           = SessionStats.consecutiveMisses stats
        /\ HistoryEntry.cacheHit entry = false
        /\ HistoryEntry.cacheWrite entry = false
        /\ HistoryEntry.analysis entry = None).
Proof.
  intros settings now usage st Hclaude. cbv zeta.
  unfold processUsageData. rewrite Hclaude. cbn [negb].
  cbn [State.sessionStats SessionStats.cacheHits SessionStats.cacheMisses
       SessionStats.consecutiveMisses SessionStats.requestHistory].
  split; [apply push_bounded_last|].
  unfold historyEntry.
  cbn [HistoryEntry.cacheHit HistoryEntry.cacheWrite HistoryEntry.analysis].
  split; [|split].
  - intros Hr. apply Z.ltb_lt in Hr. rewrite Hr. repeat split; reflexivity.
  - intros Hr Hw. rewrite Hr. apply Z.ltb_lt in Hw. rewrite Hw.
    cbn. repeat split; discriminate.
  - intros Hr Hw. rewrite Hr, Hw. cbn. repeat split; reflexivity.
Qed.

Lemma processUsageData_classification_witness :
  isClaude (Usage.model sonnet_hit) = true
  /\ SessionStats.cacheHits
       (State.sessionStats
          (processUsageData (Some Settings.default) 1000 (Some sonnet_hit) State.initial))
     = 1.
Proof.
  split; [reflexivity|].
  pose proof (processUsageData_classification (Some Settings.default) 1000
                sonnet_hit State.initial eq_refl) as H.
  cbv zeta in H. destruct H as [_ [H _]].
  destruct (H ltac:(reflexivity)) as [Hhits _]. exact Hhits.
Defined.

(** In the first revision a record without cache activity extended the
    streak of misses; the current revision leaves the streak alone. *)
Lemma first_revision_no_cache_activity :
  forall usage stats,
    Usage.cache_read_input_tokens usage = 0 ->
    Usage.cache_creation_input_tokens usage = 0 ->
    FirstRevision.counters usage stats
    = (SessionStats.cacheHits stats, SessionStats.cacheMisses stats,
       SessionStats.consecutiveMisses stats + 1).
Proof.
  intros usage stats Hr Hw. unfold FirstRevision.counters.
  rewrite Hr, Hw. reflexivity.
Qed.

(** ** Session Aggregator: the previous-request snapshot *)

Lemma snapshot_not_empty :
  forall now messages, snapshot now messages <> PreviousRequest.empty.
Proof. intros now messages H. discriminate (f_equal PreviousRequest.timestamp H). Qed.

Lemma processUsageData_previousRequest :
  forall settings now usage st,
    State.previousRequest (processUsageData settings now usage st)
    = State.previousRequest st
    \/ exists messages,
         CurrentRequest.messages (State.currentRequest st) = Some messages
         /\ State.previousRequest (processUsageData settings now usage st)
            = snapshot now messages.
Proof.
  intros settings now [usage|] st; simpl; [|now left].
  destruct (isClaude (Usage.model usage)); simpl; [|now left].
  destruct (CurrentRequest.messages (State.currentRequest st)) as [messages|];
    [right; eauto | now left].
Qed.

(** C10.  [processUsageData] replaces the previous-request snapshot only
    when the current request captured messages: with no captured body
    the whole snapshot (messages, hashes, system prompt and its hash,
    timestamp) is what it was; a replaced snapshot is the one built from
    the captured messages; and a snapshot that is not the all-null one
    never becomes the all-null one again. *)
Theorem processUsageData_snapshot_frame :
  forall settings now usage st,
    let st' := processUsageData settings now usage st in
    (CurrentRequest.messages (State.currentRequest st) = None ->
     State.previousRequest st' = State.previousRequest st)
    /\ (State.previousRequest st' <> State.previousRequest st ->
        exists messages,
          CurrentRequest.messages (State.currentRequest st) = Some messages
          /\ State.previousRequest st' = snapshot now messages)
    /\ (State.previousRequest st <> PreviousRequest.empty ->
        State.previousRequest st' <> PreviousRequest.empty).
Proof.
  intros settings now usage st. cbv zeta.
  destruct (processUsageData_previousRequest settings now usage st)
    as [Same | [messages [Hm Hs]]].
  - rewrite Same. repeat split; auto. intros H. now elim H.
  - rewrite Hs, Hm. repeat split.
    + discriminate.
    + eauto.
    + intros _. apply snapshot_not_empty.
Qed.

(** Over a whole session: once set, never all-null again. *)
Lemma snapshot_never_reverts :
  forall events st,
    State.previousRequest st <> PreviousRequest.empty ->
    State.previousRequest (run st events) <> PreviousRequest.empty.
Proof.
  induction events as [|e events IH]; intros st H; simpl; [exact H|].
  apply IH. destruct e; simpl; try exact H.
  destruct (processUsageData_previousRequest settings now usage st)
    as [Same | [messages [_ Hs]]].
  - rewrite Same. exact H.
  - rewrite Hs. apply snapshot_not_empty.
Qed.

Lemma processUsageData_snapshot_frame_witness :
  let st := step State.initial (RequestSent 1000 (Some hello)) in
  let st1 := processUsageData (Some Settings.default) 2000 (Some sonnet_write_miss) st in
  let st2 := processUsageData (Some Settings.default) 3000 (Some sonnet_hit)
               (step st1 (RequestSent 2500 None)) in
  State.previousRequest st1 = snapshot 2000 hello
  /\ State.previousRequest st2 = State.previousRequest st1.
Proof.
  cbv zeta. split; [reflexivity|].
  destruct (processUsageData_snapshot_frame (Some Settings.default) 3000
              (Some sonnet_hit)
              (step (processUsageData (Some Settings.default) 2000
                       (Some sonnet_write_miss)
                       (step State.initial (RequestSent 1000 (Some hello))))
                    (RequestSent 2500 None))) as [Frame _].
  apply Frame. reflexivity.
Defined.

(** ** Session Aggregator: the bounded history *)

Lemma last_n_length :
  forall {A} n (l : list A), List.length (last_n n l) = Nat.min n (List.length l).
Proof. intros A n l. unfold last_n. rewrite length_skipn. lia. Qed.

Lemma push_bounded_last_n :
  forall log entry,
    push_bounded (last_n 100 log) entry = last_n 100 (log ++ [entry]).
Proof.
  intros log entry. rewrite push_bounded_eq.
  rewrite last_n_length. unfold last_n. rewrite length_app. simpl List.length.
  destruct (Nat.le_gt_cases 100 (List.length log)) as [Hge | Hlt].
  - replace (100 <=? Z.of_nat (Nat.min 100 (List.length log))) with true
      by (symmetry; apply Z.leb_le; lia).
    rewrite skipn_app.
    replace (List.length log + 1 - 100 - List.length log)%nat with 0%nat by lia.
    simpl skipn at 3. f_equal.
    replace (List.length log + 1 - 100)%nat with (S (List.length log - 100)) by lia.
    rewrite <- (skipn_skipn 1). simpl. reflexivity.
  - replace (100 <=? Z.of_nat (Nat.min 100 (List.length log))) with false
      by (symmetry; apply Z.leb_gt; lia).
    replace (List.length log - 100)%nat with 0%nat by lia.
    replace (List.length log + 1 - 100)%nat with 0%nat by lia.
    reflexivity.
Qed.

(** The history is the window of the last 100 entries of the journal. *)
Lemma history_is_window :
  forall events st log,
    SessionStats.requestHistory (State.sessionStats st) = last_n 100 log ->
    let '(st', log') := fold_left journal_step events (st, log) in
    st' = run st events
    /\ SessionStats.requestHistory (State.sessionStats st') = last_n 100 log'.
Proof.
  induction events as [|e events IH]; intros st log Hinv; simpl.
  - split; [reflexivity | exact Hinv].
  - apply IH.
    destruct e as [now messages | settings now [usage|] | | ]; simpl; try exact Hinv.
    + destruct (isClaude (Usage.model usage)); simpl; [|exact Hinv].
      rewrite Hinv. apply push_bounded_last_n.
    + reflexivity.
Qed.



(** ** Session Aggregator: the waste warning *)

(** What a call on an accepted record adds to the warnings. *)
Lemma processUsageData_warnings :
  forall s now usage st,
    isClaude (Usage.model usage) = true ->
    let st' := processUsageData (Some s) now (Some usage) st in
    State.warnings st'
    = (State.warnings st
       ++ (if Settings.autoPauseOnWaste s
              && (Settings.wasteThreshold s
                  <=? SessionStats.consecutiveMisses (State.sessionStats st'))
           then [waste_warning (SessionStats.consecutiveMisses (State.sessionStats st'))]
           else []))%list.
Proof.
  intros s now usage st Hclaude. cbv zeta.
  unfold processUsageData. rewrite Hclaude. simpl.
  match goal with
  | |- (if ?c then _ else _) = _ => destruct c
  end; [reflexivity | now rewrite app_nil_r].
Qed.

Lemma processUsageData_write_miss_count :
  forall settings now usage st,
    isClaude (Usage.model usage) = true ->
    Usage.cache_read_input_tokens usage = 0 ->
    0 < Usage.cache_creation_input_tokens usage ->
    SessionStats.consecutiveMisses
      (State.sessionStats (processUsageData settings now (Some usage) st))
    = SessionStats.consecutiveMisses (State.sessionStats st) + 1.
Proof.
  intros settings now usage st Hclaude Hr Hw.
  unfold processUsageData. rewrite Hclaude. simpl.
  rewrite Hr. apply Z.ltb_lt in Hw. rewrite Hw. reflexivity.
Qed.

Lemma write_misses_in_a_row :
  forall s now usage,
    isClaude (Usage.model usage) = true ->
    Usage.cache_read_input_tokens usage = 0 ->
    0 < Usage.cache_creation_input_tokens usage ->
    Settings.autoPauseOnWaste s = true ->
    forall n st,
      State.warnings (run st (repeat (UsageSeen (Some s) now (Some usage)) n))
      = (State.warnings st
         ++ map waste_warning
              (warned_counts (Settings.wasteThreshold s)
                 (SessionStats.consecutiveMisses (State.sessionStats st)) n))%list.
Proof.
  intros s now usage Hclaude Hr Hw Hon.
  induction n as [|n IH]; intros st.
  - simpl. now rewrite app_nil_r.
  - cbn [repeat run fold_left step]. fold (run (processUsageData (Some s) now (Some usage) st)
                                            (repeat (UsageSeen (Some s) now (Some usage)) n)).
    rewrite IH.
    rewrite (processUsageData_warnings s now usage st Hclaude).
    rewrite (processUsageData_write_miss_count (Some s) now usage st Hclaude Hr Hw).
    rewrite Hon. cbn [andb].
    unfold warned_counts.
    set (c := SessionStats.consecutiveMisses (State.sessionStats st)).
    change (seq 1 (S n)) with (1%nat :: seq 2 n).
    rewrite <- (seq_shift n 1). cbn [map filter]. rewrite map_map.
    replace (c + Z.of_nat 1) with (c + 1) by lia.
    rewrite (map_ext (fun x => c + Z.of_nat (S x)) (fun i => c + 1 + Z.of_nat i))
      by (intros; lia).
    rewrite <- app_assoc. f_equal.
    destruct (Settings.wasteThreshold s <=? c + 1); reflexivity.
Qed.




(** ** Divergence Locator *)

Lemma first_mismatch_found :
  forall prevHashes currHashes k i p c,
    nth_error prevHashes i = Some p ->
    nth_error currHashes i = Some c ->
    Fingerprint.hash p <> Fingerprint.hash c ->
    agree_below i prevHashes currHashes ->
    first_mismatch k prevHashes currHashes = Some (k + Z.of_nat i, p, c).
Proof.
  induction prevHashes as [|p0 prev IH]; intros [|c0 curr] k i p c Hp Hc Hne Hagree;
    destruct i as [|i]; simpl in *; try discriminate.
  - injection Hp as ->. injection Hc as ->.
    apply String.eqb_neq in Hne. rewrite Hne.
    now replace (k + 0) with k by lia.
  - rewrite (proj2 (String.eqb_eq _ _) (Hagree 0%nat p0 c0 ltac:(lia) eq_refl eq_refl)).
    rewrite (IH curr (k + 1) i p c Hp Hc Hne).
    + f_equal. f_equal. f_equal. lia.
    + intros j p' c' Hj Hp' Hc'.
      apply (Hagree (S j) p' c'); [lia | exact Hp' | exact Hc'].
Qed.

Lemma first_mismatch_none :
  forall prevHashes currHashes k,
    agree_below (Nat.min (List.length prevHashes) (List.length currHashes))
                prevHashes currHashes ->
    first_mismatch k prevHashes currHashes = None.
Proof.
  induction prevHashes as [|p0 prev IH]; intros [|c0 curr] k Hagree;
    simpl in *; try reflexivity.
  rewrite (proj2 (String.eqb_eq _ _) (Hagree 0%nat p0 c0 ltac:(lia) eq_refl eq_refl)).
  apply IH. intros j p' c' Hj Hp' Hc'.
  apply (Hagree (S j) p' c'); [lia | exact Hp' | exact Hc'].
Qed.

(** C4.  [findDivergencePoint] returns the smallest index at which the
    hashes differ, whatever follows it; when the sequences agree up to
    the shorter length and the lengths differ, the shorter length with
    the message-count-changed reason; when they agree and have the same
    length, no divergence (index -1).  [[A,B,C]] against [[A,B,D]] gives
    index 2, [[A,B]] against [[A,B,C]] a count change at 2, [[A,B]]
    against [[A,B]] no divergence. *)
Theorem findDivergencePoint_first_difference :
  forall prevHashes currHashes,
    let r := findDivergencePoint (Some prevHashes) (Some currHashes) in
    let shorter := Nat.min (List.length prevHashes) (List.length currHashes) in
    (forall i p c,
        nth_error prevHashes i = Some p ->
        nth_error currHashes i = Some c ->
        Fingerprint.hash p <> Fingerprint.hash c ->
        agree_below i prevHashes currHashes ->
        Divergence.divergeIndex r = Z.of_nat i
        /\ Divergence.prevContent r = Some (Fingerprint.fullContent p)
        /\ Divergence.currContent r = Some (Fingerprint.fullContent c)
        /\ Divergence.role r = Some (Fingerprint.role c))
    /\ (agree_below shorter prevHashes currHashes ->
        List.length prevHashes <> List.length currHashes ->
        Divergence.divergeIndex r = Z.of_nat shorter
        /\ Divergence.reason r
           = "Message count changed (" ++ Str.dec (Z.of_nat (List.length prevHashes))
               ++ " → " ++ Str.dec (Z.of_nat (List.length currHashes)) ++ ")")
    /\ (agree_below shorter prevHashes currHashes ->
        List.length prevHashes = List.length currHashes ->
        Divergence.divergeIndex r = -1
        /\ Divergence.reason r = "No divergence detected")
    /\ Divergence.divergeIndex
         (findDivergencePoint (fingerprints [msgA; msgB; msgC])
                              (fingerprints [msgA; msgB; msgD])) = 2
    /\ findDivergencePoint (fingerprints [msgA; msgB]) (fingerprints [msgA; msgB; msgC])
       = Divergence.plain 2 "Message count changed (2 → 3)"
    /\ findDivergencePoint (fingerprints [msgA; msgB]) (fingerprints [msgA; msgB])
       = Divergence.plain (-1) "No divergence detected".
Proof.
  intros prevHashes currHashes. cbv zeta.
  split; [|split; [|split; [|split; [|split]]]]; try (vm_compute; reflexivity).
  - intros i p c Hp Hc Hne Hagree. unfold findDivergencePoint.
    rewrite (first_mismatch_found prevHashes currHashes 0 i p c Hp Hc Hne Hagree).
    simpl. auto.
  - intros Hagree Hlen. unfold findDivergencePoint.
    rewrite (first_mismatch_none prevHashes currHashes 0 Hagree).
    replace (Z.of_nat (List.length prevHashes) =? Z.of_nat (List.length currHashes))
      with false by (symmetry; apply Z.eqb_neq; lia).
    simpl. split; [lia | reflexivity].
  - intros Hagree Hlen. unfold findDivergencePoint.
    rewrite (first_mismatch_none prevHashes currHashes 0 Hagree).
    rewrite Hlen, Z.eqb_refl. simpl. auto.
Qed.

Lemma findDivergencePoint_first_difference_witness :
  Divergence.divergeIndex
    (findDivergencePoint (fingerprints [msgA; msgC; msgC; msgB])
                         (fingerprints [msgA; msgD; msgC; msgA])) = 1.
Proof.
  destruct (findDivergencePoint_first_difference
              (hashMessages (Some [msgA; msgC; msgC; msgB]))
              (hashMessages (Some [msgA; msgD; msgC; msgA]))) as [First _].
  cbv zeta in First.
  refine (proj1 (First 1%nat _ _ eq_refl eq_refl _ _)).
  - vm_compute. discriminate.
  - intros j p c Hj. destruct j as [|j]; [|lia].
    intros Hp Hc. injection Hp as <-. injection Hc as <-. reflexivity.
Defined.

(** ** Lorebook-order analysis *)

Lemma set_has_In :
  forall entries e, set_has entries e = true <-> In e entries.
Proof.
  intros entries e. unfold set_has. rewrite existsb_exists. split.
  - intros [x [Hin Heq]]. apply String.eqb_eq in Heq. now subst.
  - intros Hin. exists e. split; [exact Hin | apply String.eqb_refl].
Qed.

Lemma forallb_set_has_incl :
  forall prevEntries currEntries,
    forallb (set_has currEntries) prevEntries = true <-> incl prevEntries currEntries.
Proof.
  intros prevEntries currEntries. rewrite forallb_forall. unfold incl.
  split; intros H x Hx; apply set_has_In; auto.
Qed.

Lemma first_order_change_none :
  forall prevEntries currEntries,
    List.length prevEntries = List.length currEntries ->
    (first_order_change prevEntries currEntries = None <-> prevEntries = currEntries).
Proof.
  induction prevEntries as [|p prev IH]; intros [|c curr] Hlen; simpl in *;
    try discriminate; [tauto|].
  destruct (String.eqb p c) eqn:E.
  - apply String.eqb_eq in E. subst c. rewrite IH by lia.
    split; [intros -> | intros H; injection H]; auto.
  - apply String.eqb_neq in E. split; [discriminate | intros H; injection H; tauto].
Qed.

Lemma filter_empty_incl :
  forall other entries,
    is_empty (filter (fun e => negb (set_has other e)) entries) = true ->
    incl entries other.
Proof.
  intros other entries H x Hx.
  destruct (set_has other x) eqn:E; [now apply set_has_In|].
  assert (In x (filter (fun e => negb (set_has other e)) entries)) as Hin
    by (apply filter_In; split; [exact Hx | now rewrite E]).
  destruct (filter (fun e => negb (set_has other e)) entries);
    [destruct Hin | discriminate].
Qed.

Lemma detectContentPatterns_lore_flag :
  forall content,
    Patterns.hasLoreEntries (detectContentPatterns content)
    = negb (is_empty (Patterns.loreEntryNames (detectContentPatterns content))).
Proof.
  intros content. unfold detectContentPatterns.
  destruct (String.eqb content ""); [reflexivity|].
  cbn [Patterns.hasLoreEntries Patterns.loreEntryNames].
  destruct (exec_all loreEntryRegex content), (exec_all altLoreRegex content);
    reflexivity.
Qed.

(** The test of [analyzeCacheMiss] in front of the call ("if either side
    has lore entries") changes nothing: with no entry on either side the
    function reports no issue by itself. *)
Lemma lore_gate_is_redundant :
  forall prevContent currContent,
    let prevPatterns := detectContentPatterns prevContent in
    let currPatterns := detectContentPatterns currContent in
    (if Patterns.hasLoreEntries prevPatterns || Patterns.hasLoreEntries currPatterns
     then detectLoreOrderingIssues (Patterns.loreEntryNames prevPatterns)
                                   (Patterns.loreEntryNames currPatterns)
     else None)
    = detectLoreOrderingIssues (Patterns.loreEntryNames prevPatterns)
                               (Patterns.loreEntryNames currPatterns).
Proof.
  intros prevContent currContent. cbv zeta.
  rewrite (detectContentPatterns_lore_flag prevContent).
  rewrite (detectContentPatterns_lore_flag currContent).
  generalize (Patterns.loreEntryNames (detectContentPatterns prevContent)).
  generalize (Patterns.loreEntryNames (detectContentPatterns currContent)).
  intros [|c cs] [|p ps]; reflexivity.
Qed.

(** The claim as stated fails where exactly one list is empty: the name
    multisets differ, and no lore issue is reported. *)
Lemma detectLoreOrderingIssues_one_side_empty :
  detectLoreOrderingIssues ["Dragon Lair"] [] = None
  /\ detectLoreOrderingIssues [] ["Dragon Lair"] = None.
Proof. split; reflexivity. Qed.

(** C6, amended.  When either list of names is empty no lore issue is
    reported.  For two non-empty lists: "reordering" when they hold the
    same multiset of names in a different order; "different_entries"
    with the added and the removed names when the multisets differ and
    neither list repeats a name; no issue when the lists are equal.
    The miss diagnoser's test for lore entries on either side, in front
    of the call, does not change the outcome. *)
Theorem detectLoreOrderingIssues_classification :
  forall prevEntries currEntries,
    (prevEntries = [] \/ currEntries = [] ->
     detectLoreOrderingIssues prevEntries currEntries = None)
    /\ (prevEntries <> [] -> currEntries <> [] ->
        (Permutation prevEntries currEntries -> prevEntries <> currEntries ->
         exists issue,
           detectLoreOrderingIssues prevEntries currEntries = Some issue
           /\ LoreIssue.type issue = LoreIssue.reordering)
        /\ (NoDup prevEntries -> NoDup currEntries ->
            ~ Permutation prevEntries currEntries ->
            exists issue added removed,
              detectLoreOrderingIssues prevEntries currEntries = Some issue
              /\ LoreIssue.type issue = LoreIssue.different_entries
              /\ LoreIssue.detail issue = LoreIssue.Changes added removed
              /\ (forall e, In e added <-> In e currEntries /\ ~ In e prevEntries)
              /\ (forall e, In e removed <-> In e prevEntries /\ ~ In e currEntries))
        /\ (prevEntries = currEntries ->
            detectLoreOrderingIssues prevEntries currEntries = None))
    /\ (forall prevContent currContent,
          let prevPatterns := detectContentPatterns prevContent in
          let currPatterns := detectContentPatterns currContent in
          (if Patterns.hasLoreEntries prevPatterns || Patterns.hasLoreEntries currPatterns
           then detectLoreOrderingIssues (Patterns.loreEntryNames prevPatterns)
                                         (Patterns.loreEntryNames currPatterns)
           else None)
          = detectLoreOrderingIssues (Patterns.loreEntryNames prevPatterns)
                                     (Patterns.loreEntryNames currPatterns)).
Proof.
  intros prevEntries currEntries.
  split; [|split; [|exact lore_gate_is_redundant]].
  - intros [-> | ->]; unfold detectLoreOrderingIssues; simpl;
      [reflexivity | now rewrite orb_true_r].
  - intros Hp Hc.
    unfold detectLoreOrderingIssues.
    replace (is_empty prevEntries) with false by (destruct prevEntries; simpl; congruence).
    replace (is_empty currEntries) with false by (destruct currEntries; simpl; congruence).
    cbn [orb].
    split; [|split].
    + intros Hperm Hne.
      rewrite (Permutation_length Hperm), Nat.eqb_refl.
      rewrite (proj2 (forallb_set_has_incl prevEntries currEntries))
        by (intros x; apply Permutation_in; exact Hperm).
      cbn [andb].
      destruct (first_order_change prevEntries currEntries) as [[p c]|] eqn:E.
      * eexists. split; reflexivity.
      * apply first_order_change_none in E; [contradiction|].
        apply Permutation_length; exact Hperm.
    + intros Np Nc Hnot.
      destruct (Nat.eqb (List.length prevEntries) (List.length currEntries)
                && forallb (set_has currEntries) prevEntries) eqn:Same.
      * exfalso. apply Hnot. apply andb_true_iff in Same as [Hlen Hincl].
        apply Nat.eqb_eq in Hlen. apply forallb_set_has_incl in Hincl.
        apply NoDup_Permutation_bis; [exact Np | lia | exact Hincl].
      * destruct (negb (is_empty (filter (fun e => negb (set_has prevEntries e)) currEntries))
                  || negb (is_empty (filter (fun e => negb (set_has currEntries e))
                                            prevEntries))) eqn:Changed.
        -- eexists. eexists. eexists.
           split; [reflexivity|]. split; [reflexivity|]. split; [reflexivity|].
           split; intros e; rewrite filter_In, negb_true_iff;
             rewrite <- not_true_iff_false, set_has_In; tauto.
        -- exfalso. apply Hnot. apply orb_false_iff in Changed as [Ha Hr].
           apply negb_false_iff in Ha, Hr.
           apply NoDup_Permutation; [exact Np | exact Nc|].
           intros x. split.
           ++ apply (filter_empty_incl currEntries prevEntries Hr).
           ++ apply (filter_empty_incl prevEntries currEntries Ha).
    + intros <-.
      rewrite Nat.eqb_refl.
      rewrite (proj2 (forallb_set_has_incl prevEntries prevEntries)) by apply incl_refl.
      cbn [andb].
      now rewrite (proj2 (first_order_change_none prevEntries prevEntries eq_refl) eq_refl).
Qed.

Lemma detectLoreOrderingIssues_classification_witness :
  option_map LoreIssue.type (detectLoreOrderingIssues ["Elves"; "Dwarves"] ["Dwarves"; "Elves"])
  = Some LoreIssue.reordering.
Proof.
  destruct (detectLoreOrderingIssues_classification ["Elves"; "Dwarves"] ["Dwarves"; "Elves"])
    as [_ [H _]].
  destruct (H ltac:(discriminate) ltac:(discriminate)) as [Reorder _].
  destruct (Reorder (perm_swap _ _ _) ltac:(discriminate)) as [issue [-> Ty]].
  simpl. now rewrite Ty.
Defined.

(** With repeated names the comparison, made on sets of names, can
    call two different multisets a reordering. *)
Remark detectLoreOrderingIssues_repeated_names :
  option_map LoreIssue.type
    (detectLoreOrderingIssues ["Elves"; "Elves"; "Dwarves"] ["Elves"; "Dwarves"; "Dwarves"])
  = Some LoreIssue.reordering.
Proof. reflexivity. Qed.

(** ** Location classification *)

Lemma quotient_ltb_spec :
  forall i n q, Num.ltb (Num.div i n) q = true <-> quotient_below i n q.
Proof.
  intros i n q. unfold quotient_below, Num.div.
  destruct n as [|p|p]; cbn [Z.eqb Z.ltb Z.compare].
  - destruct i as [|a|a]; cbn; split; intros H; try discriminate; try lia;
      reflexivity.
  - cbn [Num.ltb]. rewrite negb_true_iff, <- not_true_iff_false, Qle_bool_iff.
    unfold Qle, Qlt, Qdiv, Qmult, Qinv, inject_Z. cbn. lia.
  - cbn [Num.ltb]. rewrite negb_true_iff, <- not_true_iff_false, Qle_bool_iff.
    unfold Qle, Qlt, Qdiv, Qmult, Qinv, inject_Z. cbn. lia.
Qed.

(** What the function returns, branch by branch. *)
Lemma analyzeDivergenceLocation_unfold :
  forall i n prevContent currContent prevPatterns currPatterns,
    let a := analyzeDivergenceLocation i n prevContent currContent
               prevPatterns currPatterns in
    let lore := flag Patterns.hasLoreEntries prevPatterns
                || flag Patterns.hasLoreEntries currPatterns in
    let depth := flag Patterns.hasDepthMarkers prevPatterns
                 || flag Patterns.hasDepthMarkers currPatterns in
    let loreIssue :=
      if lore then detectLoreOrderingIssues (names_or_empty prevPatterns)
                                            (names_or_empty currPatterns)
      else None in
    (LocationAnalysis.location a, LocationAnalysis.likelyCause a, LocationAnalysis.severity a)
    = if Num.ltb (Num.div i n) (2 # 10) || (i <? 3) then
        match loreIssue with
        | Some issue =>
            match LoreIssue.type issue with
            | LoreIssue.reordering => (early, Some lorebook_ordering, high)
            | LoreIssue.different_entries => (early, Some lorebook_keywords, medium)
            end
        | None =>
            if depth then (early, Some depth_configuration, high)
            else (early, Some system_prompt_change, medium)
        end
      else if Num.ltb (Num.div i n) (8 # 10) then
        if lore then (middle, Some lorebook_depth_injection, high)
        else (middle, Some injected_content, medium)
      else (late, Some chat_history, low).
Proof.
  intros. subst a lore depth loreIssue. unfold analyzeDivergenceLocation.
  destruct (Num.ltb (Num.div i n) (2 # 10) || (i <? 3)).
  - destruct (flag Patterns.hasLoreEntries prevPatterns
              || flag Patterns.hasLoreEntries currPatterns).
    + destruct (detectLoreOrderingIssues _ _) as [issue|].
      * destruct (LoreIssue.type issue); reflexivity.
      * destruct (flag Patterns.hasDepthMarkers prevPatterns
                  || flag Patterns.hasDepthMarkers currPatterns); reflexivity.
    + destruct (flag Patterns.hasDepthMarkers prevPatterns
                || flag Patterns.hasDepthMarkers currPatterns); reflexivity.
  - destruct (Num.ltb (Num.div i n) (8 # 10)); [|reflexivity].
    destruct (flag Patterns.hasLoreEntries prevPatterns
              || flag Patterns.hasLoreEntries currPatterns); reflexivity.
Qed.

(** The claim as stated fails on an early divergence with depth markers
    on both sides whose lorebook entries differ: the cause is the
    medium-severity [lorebook_keywords], not the high-severity
    [depth_configuration]. *)
Lemma analyzeDivergenceLocation_keywords_before_depth :
  let prevPatterns := detectContentPatterns lore_and_depth_prev in
  let currPatterns := detectContentPatterns lore_and_depth_curr in
  let a := analyzeDivergenceLocation 0 10 lore_and_depth_prev lore_and_depth_curr
             (Some prevPatterns) (Some currPatterns) in
  Patterns.hasDepthMarkers prevPatterns = true
  /\ Patterns.hasDepthMarkers currPatterns = true
  /\ LocationAnalysis.location a = early
  /\ LocationAnalysis.likelyCause a = Some lorebook_keywords
  /\ LocationAnalysis.severity a = medium.
Proof. cbv zeta. repeat split; vm_compute; reflexivity. Qed.

(** C5, amended.  For every divergence index [i] and total message
    count [n] the location is "early" iff [i/n < 0.2] or [i < 3],
    otherwise "middle" iff [i/n < 0.8], otherwise "late"; the quotient
    is the one JavaScript computes, so a count of 0 leaves only
    [i < 3] to decide between early and late.  Early: a lore issue of
    type reordering gives the high-severity [lorebook_ordering], one of
    type different_entries the medium-severity [lorebook_keywords]; with
    no lore issue, depth markers give the high-severity
    [depth_configuration] and their absence the medium-severity
    [system_prompt_change].  Middle: lore entries give the high-severity
    [lorebook_depth_injection], otherwise the medium-severity
    [injected_content].  Late: the low-severity [chat_history]. *)
Theorem analyzeDivergenceLocation_classification :
  forall i n prevContent currContent prevPatterns currPatterns,
    let a := analyzeDivergenceLocation i n prevContent currContent
               prevPatterns currPatterns in
    let isEarly := quotient_below i n (2 # 10) \/ i < 3 in
    let lore := flag Patterns.hasLoreEntries prevPatterns
                || flag Patterns.hasLoreEntries currPatterns in
    let depth := flag Patterns.hasDepthMarkers prevPatterns
                 || flag Patterns.hasDepthMarkers currPatterns in
    let loreIssue :=
      if lore then detectLoreOrderingIssues (names_or_empty prevPatterns)
                                            (names_or_empty currPatterns)
      else None in
    let verdict := (LocationAnalysis.likelyCause a, LocationAnalysis.severity a) in
    (LocationAnalysis.location a = early <-> isEarly)
    /\ (LocationAnalysis.location a = middle
        <-> ~ isEarly /\ quotient_below i n (8 # 10))
    /\ (LocationAnalysis.location a = late
        <-> ~ isEarly /\ ~ quotient_below i n (8 # 10))
    /\ (LocationAnalysis.location a = early ->
        (forall issue, loreIssue = Some issue ->
                       LoreIssue.type issue = LoreIssue.reordering ->
                       verdict = (Some lorebook_ordering, high))
        /\ (forall issue, loreIssue = Some issue ->
                          LoreIssue.type issue = LoreIssue.different_entries ->
                          verdict = (Some lorebook_keywords, medium))
        /\ (loreIssue = None -> depth = true ->
            verdict = (Some depth_configuration, high))
        /\ (loreIssue = None -> depth = false ->
            verdict = (Some system_prompt_change, medium)))
    /\ (LocationAnalysis.location a = middle ->
        (lore = true -> verdict = (Some lorebook_depth_injection, high))
        /\ (lore = false -> verdict = (Some injected_content, medium)))
    /\ (LocationAnalysis.location a = late -> verdict = (Some chat_history, low)).
Proof.
  intros i n prevContent currContent prevPatterns currPatterns. cbv zeta.
  pose proof (analyzeDivergenceLocation_unfold i n prevContent currContent
                prevPatterns currPatterns) as U.
  cbv zeta in U.
  pose proof (quotient_ltb_spec i n (2 # 10)) as R2.
  pose proof (quotient_ltb_spec i n (8 # 10)) as R8.
  pose proof (Z.ltb_lt i 3) as I3.
  set (a := analyzeDivergenceLocation i n prevContent currContent
              prevPatterns currPatterns) in *.
  set (lore := flag Patterns.hasLoreEntries prevPatterns
               || flag Patterns.hasLoreEntries currPatterns) in *.
  set (depth := flag Patterns.hasDepthMarkers prevPatterns
                || flag Patterns.hasDepthMarkers currPatterns) in *.
  set (loreIssue := if lore then _ else None) in *.
  destruct (Num.ltb (Num.div i n) (2 # 10)) eqn:B2;
    destruct (i <? 3) eqn:B3;
    destruct (Num.ltb (Num.div i n) (8 # 10)) eqn:B8;
    cbn [orb] in U;
    destruct loreIssue as [issue|];
    try destruct (LoreIssue.type issue) eqn:Ty;
    destruct depth; destruct lore;
    injection U as Loc Cause Sev; rewrite Loc, Cause, Sev;
    (assert (forall P : Prop, (true = true <-> P) -> P) as T
       by (intros P [H _]; exact (H eq_refl)));
    (assert (forall P : Prop, (false = true <-> P) -> ~ P) as F
       by (intros P [_ H] HP; discriminate (H HP)));
    repeat match goal with
           | H : true = true <-> _ |- _ => apply T in H
           | H : false = true <-> _ |- _ => apply F in H
           end;
    repeat split; intros; try discriminate; try congruence; try tauto.
Qed.

Lemma analyzeDivergenceLocation_classification_witness :
  LocationAnalysis.location
    (analyzeDivergenceLocation 5 10 "" "" (Some Patterns.none) (Some Patterns.none))
  = middle
  /\ LocationAnalysis.location
       (analyzeDivergenceLocation 0 0 "" "" (Some Patterns.none) (Some Patterns.none))
     = early
  /\ LocationAnalysis.location
       (analyzeDivergenceLocation 5 0 "" "" (Some Patterns.none) (Some Patterns.none))
     = late.
Proof.
  split; [|split].
  - destruct (analyzeDivergenceLocation_classification 5 10 "" ""
                (Some Patterns.none) (Some Patterns.none)) as [_ [Middle _]].
    cbv zeta in Middle. apply Middle. unfold quotient_below. cbn [Z.eqb]. split.
    + intros [H | H]; [|lia]. revert H.
      unfold Qlt, Qdiv, Qmult, Qinv, inject_Z. simpl. lia.
    + unfold Qlt, Qdiv, Qmult, Qinv, inject_Z. simpl. lia.
  - destruct (analyzeDivergenceLocation_classification 0 0 "" ""
                (Some Patterns.none) (Some Patterns.none)) as [Early _].
    cbv zeta in Early. apply Early. right. lia.
  - destruct (analyzeDivergenceLocation_classification 5 0 "" ""
                (Some Patterns.none) (Some Patterns.none)) as [_ [_ [Late _]]].
    cbv zeta in Late. apply Late. unfold quotient_below. cbn [Z.eqb].
    split; [intros [H | H]; lia | lia].
Defined.

(** ** Cost Model *)

(** C8.  The non-cached input billed by [calculateCosts] is
    [max(0, input_tokens - cache_read_input_tokens)], never negative;
    [totalCost] is the sum of the input, output, cache-write and
    cache-read costs; [savings] is [costWithoutCache - totalCost], which
    a cache write makes negative; at Sonnet pricing, 1,000,000 input
    tokens and nothing else cost 3.0 with savings 0. *)
Theorem calculateCosts_breakdown :
  forall usage,
    let c := calculateCosts usage in
    let price := priceTier (Usage.model usage) in
    nonCachedInput usage
    = Z.max 0 (Usage.input_tokens usage - Usage.cache_read_input_tokens usage)
    /\ 0 <= nonCachedInput usage
    /\ Costs.inputCost c
       = (per_million (nonCachedInput usage) * Price.inputPrice price)%float
    /\ Costs.totalCost c
       = (Costs.inputCost c + Costs.outputCost c + Costs.cacheWriteCost c
          + Costs.cacheReadCost c)%float
    /\ Costs.savings c = (Costs.costWithoutCache c - Costs.totalCost c)%float
    /\ (price = sonnetPricing ->
        Usage.input_tokens usage = 1000000 ->
        Usage.output_tokens usage = 0 ->
        Usage.cache_read_input_tokens usage = 0 ->
        Usage.cache_creation_input_tokens usage = 0 ->
        Costs.inputCost c = 3.0%float /\ Costs.savings c = 0%float)
    /\ priceTier (Usage.model million_input) = sonnetPricing
    /\ Costs.inputCost (calculateCosts million_input) = 3.0%float
    /\ Costs.savings (calculateCosts million_input) = 0%float
    /\ (Costs.savings (calculateCosts cache_write_only) <? 0)%float = true.
Proof.
  intros usage. cbv zeta.
  split; [reflexivity|].
  split; [unfold nonCachedInput; lia|].
  split; [reflexivity|].
  split; [reflexivity|].
  split; [reflexivity|].
  split; [|repeat split; vm_compute; reflexivity].
  intros Hprice Hin Hout Hread Hwrite.
  unfold calculateCosts, nonCachedInput.
  rewrite Hprice, Hin, Hout, Hread, Hwrite.
  split; vm_compute; reflexivity.
Qed.

Lemma calculateCosts_breakdown_witness :
  Costs.inputCost (calculateCosts (Usage.mk "anthropic/claude-3.7-sonnet" 1000000 0 0 0))
  = 3.0%float
  /\ Costs.savings (calculateCosts (Usage.mk "anthropic/claude-3.7-sonnet" 1000000 0 0 0))
     = 0%float.
Proof.
  destruct (calculateCosts_breakdown
              (Usage.mk "anthropic/claude-3.7-sonnet" 1000000 0 0 0))
    as [_ [_ [_ [_ [_ [Sonnet _]]]]]].
  exact (Sonnet eq_refl eq_refl eq_refl eq_refl eq_refl).
Defined.

(** ** Miss Diagnoser: first request and TTL *)

Lemma reachable_snapshot_ok :
  forall st, reachable st -> snapshot_ok (State.previousRequest st).
Proof.
  induction 1 as [|st e Hst IH Hclock]; [reflexivity|].
  destruct e as [now messages | settings now usage | | ]; simpl; try exact IH.
  destruct (processUsageData_previousRequest settings now usage st)
    as [Same | [messages [_ Hs]]].
  - rewrite Same. exact IH.
  - rewrite Hs. exact Hclock.
Qed.

Lemma findDivergencePoint_reason_not_ttl :
  forall prevHashes currHashes,
    is_ttl_reason
      (Divergence.reason (findDivergencePoint (Some prevHashes) (Some currHashes)))
    = false.
Proof.
  intros prevHashes currHashes. unfold findDivergencePoint.
  destruct (first_mismatch 0 prevHashes currHashes) as [[[i p] c]|].
  - reflexivity.
  - destruct (negb _); reflexivity.
Qed.

(** No reason pushed after the TTL check is a TTL reason or the
    first-request reason. *)
Lemma later_reasons :
  forall previousRequest currentMessages currentHashes r,
    In r (DivergenceCheck.reasons (divergenceCheck previousRequest currentHashes)
          ++ systemPromptCheck previousRequest currentMessages)%list ->
    is_ttl_reason r = false /\ r <> first_request_reason.
Proof.
  intros previousRequest currentMessages currentHashes r Hin.
  apply in_app_or in Hin as [Hin | Hin].
  - unfold divergenceCheck in Hin.
    destruct (PreviousRequest.messageHashes previousRequest) as [prevHashes|];
      [|destruct Hin].
    destruct (0 <=? _); [|destruct Hin].
    destruct Hin as [<- | []].
    split; [apply findDivergencePoint_reason_not_ttl|].
    unfold findDivergencePoint.
    destruct (first_mismatch 0 prevHashes currentHashes) as [[[i p] c]|].
    + discriminate.
    + destruct (negb _); discriminate.
  - unfold systemPromptCheck in Hin.
    destruct currentMessages as [[|firstMsg rest]|]; try destruct Hin.
    destruct (String.eqb (Message.role firstMsg) "system"); [|destruct Hin].
    destruct (PreviousRequest.systemPromptHash previousRequest); [|destruct Hin].
    destruct (_ && _); [|destruct Hin].
    destruct Hin as [<- | []]. split; [reflexivity | discriminate].
Qed.

(** C3.  In a state the extension can reach: with no previous timestamp
    the diagnosis has the first-request reason as its only reason, no
    divergence, [ttlWarning] false and no primary diagnosis; with a
    previous timestamp [ts], [ttlWarning] is set and a TTL-expiry reason
    is recorded exactly when [now - ts] exceeds 300000 ms. *)
Theorem analyzeCacheMiss_first_request_and_ttl :
  forall st now currentMessages currentHashes,
    reachable st ->
    let prev := State.previousRequest st in
    let a := analyzeCacheMiss prev now currentMessages currentHashes in
    (PreviousRequest.timestamp prev = None ->
     Analysis.reasons a = ["First request - no previous cache"]
     /\ Analysis.divergence a = None
     /\ Analysis.locationAnalysis a = None
     /\ Analysis.loreIssue a = None
     /\ Analysis.ttlWarning a = false
     /\ Analysis.primaryDiagnosis a = None)
    /\ (forall ts,
          PreviousRequest.timestamp prev = Some ts ->
          Analysis.timeSinceLastRequest a = Some (now - ts)
          /\ (Analysis.ttlWarning a = true <-> 300000 < now - ts)
          /\ (In (ttl_reason (now - ts)) (Analysis.reasons a) <-> 300000 < now - ts)
          /\ (existsb is_ttl_reason (Analysis.reasons a) = true <-> 300000 < now - ts)).
Proof.
  intros st now currentMessages currentHashes Hreach. cbv zeta.
  pose proof (reachable_snapshot_ok st Hreach) as Hok. unfold snapshot_ok in Hok.
  split.
  - intros Hnone. rewrite Hnone in Hok. rewrite Hok. repeat split.
    destruct currentMessages as [[|firstMsg rest]|]; try reflexivity.
    unfold analyzeCacheMiss, systemPromptCheck. simpl.
    destruct (String.eqb (Message.role firstMsg) "system"); reflexivity.
  - intros ts Hts. rewrite Hts in Hok.
    pose proof (later_reasons (State.previousRequest st) currentMessages currentHashes)
      as Later.
    unfold analyzeCacheMiss.
    cbn [Analysis.timeSinceLastRequest Analysis.ttlWarning Analysis.reasons].
    set (later := (DivergenceCheck.reasons _ ++ systemPromptCheck _ _)%list) in *.
    unfold ttlCheck. rewrite Hts.
    replace (ts =? 0) with false by (symmetry; apply Z.eqb_neq; lia).
    cbv zeta.
    assert (existsb is_ttl_reason later = false) as NoTtl.
    { apply not_true_iff_false. intros H. apply existsb_exists in H as [r [Hin Hr]].
      destruct (Later r Hin) as [Hf _]. congruence. }
    destruct (300000 <? now - ts) eqn:E;
      [apply Z.ltb_lt in E | apply Z.ltb_ge in E]; cbn [fst snd app].
    + repeat split; auto.
      * intros _. left. reflexivity.
    + repeat split; try discriminate; try lia.
      * intros Hin. destruct (Later _ Hin) as [Hf _]. discriminate Hf.
      * rewrite NoTtl. discriminate.
Qed.

Lemma after_first_request_reachable : reachable after_first_request.
Proof.
  change (reachable
            (step (step State.initial (RequestSent 1000 (Some hello)))
                  (UsageSeen (Some Settings.default) 2000 (Some sonnet_write_miss)))).
  apply reachable_step; [|reflexivity].
  apply reachable_step; [|reflexivity].
  apply reachable_initial.
Defined.

Lemma analyzeCacheMiss_first_request_and_ttl_witness :
  Analysis.reasons (analyzeCacheMiss (State.previousRequest State.initial) 2000
                      (Some hello) (hashMessages (Some hello)))
  = ["First request - no previous cache"]
  /\ Analysis.ttlWarning
       (analyzeCacheMiss (State.previousRequest after_first_request) 402000
          (Some hello) (hashMessages (Some hello))) = true.
Proof.
  split.
  - destruct (analyzeCacheMiss_first_request_and_ttl State.initial 2000 (Some hello)
                (hashMessages (Some hello)) reachable_initial) as [First _].
    exact (proj1 (First eq_refl)).
  - destruct (analyzeCacheMiss_first_request_and_ttl after_first_request 402000
                (Some hello) (hashMessages (Some hello)) after_first_request_reachable)
      as [_ Ttl].
    destruct (Ttl 2000 eq_refl) as [_ [Warn _]].
    apply Warn. reflexivity.
Defined.

(* ================================================================== *)
(** * Further properties *)

(** ** Stream Tap *)

Lemma append_nil_r : forall s : string, s ++ "" = s.
Proof. induction s as [|c s IH]; simpl; [reflexivity | now rewrite IH]. Qed.

Lemma append_assoc : forall a b c : string, (a ++ b) ++ c = a ++ (b ++ c).
Proof. induction a as [|x a IH]; intros; simpl; [reflexivity | now rewrite IH]. Qed.

Lemma split_events_cons2 :
  forall a b rest,
    Tap.split_events (String a (String b rest))
    = if Ascii.eqb a Tap.newline && Ascii.eqb b Tap.newline
      then "" :: Tap.split_events rest
      else Tap.cons_head a (Tap.split_events (String b rest)).
Proof. reflexivity. Qed.

Lemma split_events_nonempty : forall text, Tap.split_events text <> [].
Proof.
  induction text as [|a rest IH]; [discriminate|].
  destruct rest as [|b rest']; [discriminate|].
  rewrite split_events_cons2.
  destruct (Ascii.eqb a Tap.newline && Ascii.eqb b Tap.newline); [discriminate|].
  destruct (Tap.split_events (String b rest')); [contradiction | discriminate].
Qed.

(** Text without a complete blank line is one piece. *)
Lemma split_events_single :
  forall text piece, Tap.split_events text = [piece] -> piece = text.
Proof.
  induction text as [|a rest IH]; intros piece H.
  - injection H as <-. reflexivity.
  - destruct rest as [|b rest'].
    + injection H as <-. reflexivity.
    + rewrite split_events_cons2 in H.
      destruct (Ascii.eqb a Tap.newline && Ascii.eqb b Tap.newline).
      * injection H as _ H. now apply split_events_nonempty in H.
      * destruct (Tap.split_events (String b rest')) as [|p r] eqn:E;
          [now apply split_events_nonempty in E|].
        simpl in H. injection H as <- ->. now rewrite (IH p eq_refl).
Qed.

(** Splitting commutes with the arrival of more text: the pieces
    already closed stay, and the open piece is split again with what
    arrived. *)
Lemma split_events_app :
  forall a b,
    Tap.split_events (a ++ b)
    = (removelast (Tap.split_events a)
       ++ Tap.split_events (last (Tap.split_events a) "" ++ b))%list.
Proof.
  assert (forall n a, (String.length a <= n)%nat -> forall b,
            Tap.split_events (a ++ b)
            = (removelast (Tap.split_events a)
               ++ Tap.split_events (last (Tap.split_events a) "" ++ b))%list) as Strong.
  { induction n as [|n IH]; intros a Hlen b.
    - destruct a; [reflexivity | simpl in Hlen; lia].
    - destruct a as [|x rest]; [reflexivity|].
      destruct rest as [|y rest']; [reflexivity|].
      change ((String x (String y rest')) ++ b) with (String x (String y (rest' ++ b))).
      rewrite !split_events_cons2.
      destruct (Ascii.eqb x Tap.newline && Ascii.eqb y Tap.newline) eqn:C.
      + rewrite (IH rest' ltac:(simpl in Hlen; lia) b).
        pose proof (split_events_nonempty rest') as Hne.
        destruct (Tap.split_events rest') as [|p r]; [contradiction|].
        reflexivity.
      + change (String y (rest' ++ b)) with ((String y rest') ++ b).
        destruct (Tap.split_events (String y rest')) as [|p r] eqn:E;
          [now apply split_events_nonempty in E|].
        destruct r as [|q r].
        * apply split_events_single in E. subst p.
          cbn [Tap.cons_head removelast last app].
          change (String x (String y rest') ++ b) with (String x (String y (rest' ++ b))).
          rewrite split_events_cons2, C. reflexivity.
        * rewrite (IH (String y rest') ltac:(simpl in Hlen |- *; lia) b), E.
          reflexivity. }
  intros a b. apply (Strong (String.length a) a (le_n _) b).
Qed.

Lemma last_app_nonempty :
  forall {A} (l1 l2 : list A) d, l2 <> [] -> last (l1 ++ l2) d = last l2 d.
Proof.
  intros A l1 l2 d Hne. induction l1 as [|x l1 IH]; [reflexivity|].
  simpl. rewrite IH. destruct (l1 ++ l2)%list eqn:E; [|reflexivity].
  apply app_eq_nil in E as [_ ->]. contradiction.
Qed.

(** What the loop holds after reading text [t] in any number of chunks. *)
Lemma read_all_from :
  forall chunks t,
    fold_left (fun state chunk =>
                 let '(sseBuffer, payloads) := state in
                 let '(sseBuffer', more) := Tap.read_chunk sseBuffer chunk in
                 (sseBuffer', payloads ++ more)%list)
              chunks
              (last (Tap.split_events t) "",
               flat_map Tap.event_payloads (removelast (Tap.split_events t)))
    = (last (Tap.split_events (t ++ joined chunks)) "",
       flat_map Tap.event_payloads (removelast (Tap.split_events (t ++ joined chunks)))).
Proof.
  induction chunks as [|chunk chunks IH]; intros t.
  - simpl. now rewrite append_nil_r.
  - cbn [fold_left joined fold_right]. unfold Tap.read_chunk at 2.
    rewrite <- append_assoc, <- IH. f_equal.
    rewrite (split_events_app t chunk).
    pose proof (split_events_nonempty (last (Tap.split_events t) "" ++ chunk)) as Hne.
    rewrite (removelast_app _ Hne), flat_map_app, (last_app_nonempty _ _ _ Hne).
    reflexivity.
Qed.

(** X1.  The frame splitter does not depend on how the response is cut
    into chunks: reading the chunks one by one hands the extractor the
    same payloads, in the same order, and leaves the same text in the
    buffer, as reading the whole response at once. *)
Theorem read_all_chunking_invariant :
  forall chunks, Tap.read_all chunks = Tap.read_chunk "" (joined chunks).
Proof.
  intros chunks. unfold Tap.read_all, Tap.read_chunk.
  exact (read_all_from chunks "").
Qed.

Lemma cons_head_concat :
  forall sep c pieces,
    pieces <> [] ->
    String.concat sep (Tap.cons_head c pieces) = String c (String.concat sep pieces).
Proof.
  intros sep c [|p r] H; [contradiction|]. destruct r; reflexivity.
Qed.

Lemma split_events_join :
  forall text, String.concat blank_line (Tap.split_events text) = text.
Proof.
  assert (forall n text, (String.length text <= n)%nat ->
            String.concat blank_line (Tap.split_events text) = text) as Strong.
  { induction n as [|n IH]; intros text Hlen.
    - destruct text; [reflexivity | simpl in Hlen; lia].
    - destruct text as [|a rest]; [reflexivity|].
      destruct rest as [|b rest']; [reflexivity|].
      rewrite split_events_cons2.
      destruct (Ascii.eqb a Tap.newline && Ascii.eqb b Tap.newline) eqn:C.
      + apply andb_true_iff in C as [Ca Cb].
        apply Ascii.eqb_eq in Ca, Cb. subst a b.
        pose proof (split_events_nonempty rest') as Hne.
        pose proof (IH rest' ltac:(simpl in Hlen; lia)) as Hrest.
        destruct (Tap.split_events rest') as [|p r]; [contradiction|].
        cbn [String.concat]. cbn [String.concat] in Hrest. rewrite Hrest. reflexivity.
      + rewrite cons_head_concat by apply split_events_nonempty.
        now rewrite (IH (String b rest') ltac:(simpl in Hlen |- *; lia)). }
  intros text. apply (Strong (String.length text) text (le_n _)).
Qed.

Lemma last_piece_is_open :
  forall text,
    Tap.split_events (last (Tap.split_events text) "") = [last (Tap.split_events text) ""].
Proof.
  intros text.
  pose proof (split_events_app text "") as H.
  rewrite !append_nil_r in H.
  rewrite (app_removelast_last "" (split_events_nonempty text)) in H at 1.
  now apply app_inv_head in H.
Qed.

(** X2.  Whatever the chunks, the text the tap keeps in its buffer holds
    no complete event (no blank line closes one inside it), and nothing
    of the response is lost: the events split off so far and the buffer,
    joined by blank lines, are the text read so far. *)
Theorem read_all_buffer_is_open_event :
  forall chunks,
    let sseBuffer := fst (Tap.read_all chunks) in
    let events := removelast (Tap.split_events (joined chunks)) in
    Tap.split_events sseBuffer = [sseBuffer]
    /\ snd (Tap.read_all chunks) = flat_map Tap.event_payloads events
    /\ String.concat blank_line (events ++ [sseBuffer]) = joined chunks.
Proof.
  intros chunks. cbv zeta.
  pose proof (read_all_from chunks "") as H.
  change (fold_left _ chunks _) with (Tap.read_all chunks) in H.
  cbn [append] in H. rewrite H. cbn [fst snd].
  split; [apply last_piece_is_open|]. split; [reflexivity|].
  rewrite <- (app_removelast_last "" (split_events_nonempty (joined chunks))).
  apply split_events_join.
Qed.

Lemma trim_end_idempotent : forall s, Str.trim_end (Str.trim_end s) = Str.trim_end s.
Proof.
  induction s as [|c s IH]; [reflexivity|].
  simpl. destruct (Str.trim_end s) as [|c' t] eqn:E.
  - destruct (Str.is_space c) eqn:Sp; [reflexivity|]. simpl. now rewrite Sp.
  - simpl. simpl in IH. rewrite IH. reflexivity.
Qed.

Lemma trim_end_head :
  forall c s c' t, Str.trim_end (String c s) = String c' t -> c' = c.
Proof.
  intros c s c' t H. simpl in H.
  destruct (Str.trim_end s).
  - destruct (Str.is_space c); [discriminate | now injection H].
  - now injection H.
Qed.

Lemma trim_start_head :
  forall s c t, Str.trim_start s = String c t -> Str.is_space c = false.
Proof.
  induction s as [|x s IH]; intros c t H; [discriminate|].
  simpl in H. destruct (Str.is_space x) eqn:Sp; [eauto|].
  injection H as <- _. exact Sp.
Qed.

Lemma trim_idempotent : forall s, Str.trim (Str.trim s) = Str.trim s.
Proof.
  intros s. unfold Str.trim.
  destruct (Str.trim_start s) as [|c t] eqn:E; [reflexivity|].
  destruct (Str.trim_end (String c t)) as [|c' t'] eqn:E'; [reflexivity|].
  pose proof (trim_end_head _ _ _ _ E') as ->.
  pose proof (trim_start_head _ _ _ E) as Sp.
  cbn [Str.trim_start]. rewrite Sp, <- E'. apply trim_end_idempotent.
Qed.

(** X3.  A payload handed to the extractor is never empty, never the
    [[DONE]] terminator, and carries no white space at either end. *)
Theorem read_chunk_payloads_clean :
  forall sseBuffer chunk payload,
    In payload (snd (Tap.read_chunk sseBuffer chunk)) ->
    payload <> "" /\ payload <> "[DONE]" /\ Str.trim payload = payload.
Proof.
  intros sseBuffer chunk payload Hin. unfold Tap.read_chunk in Hin. cbn [snd] in Hin.
  apply in_flat_map in Hin as [event [_ Hin]].
  unfold Tap.event_payloads in Hin.
  apply in_flat_map in Hin as [line [_ Hin]].
  unfold Tap.line_payload in Hin.
  destruct (String.prefix "data: " line); [|destruct Hin].
  destruct (negb (String.eqb (Str.trim (Tap.slice 6 line)) "")) eqn:N1; [|destruct Hin].
  destruct (negb (String.eqb (Str.trim (Tap.slice 6 line)) "[DONE]")) eqn:N2;
    [|destruct Hin].
  destruct Hin as [<- | []].
  apply negb_true_iff, String.eqb_neq in N1, N2.
  repeat split; auto using trim_idempotent.
Qed.

Lemma read_chunk_payloads_clean_witness :
  snd (Tap.read_chunk "da" ("ta:  {} " ++ blank_line ++ "data: [DONE]" ++ blank_line))
  = ["{}"]
  /\ Str.trim "{}" = "{}".
Proof.
  split; [reflexivity|].
  apply (read_chunk_payloads_clean "da"
           ("ta:  {} " ++ blank_line ++ "data: [DONE]" ++ blank_line) "{}").
  left. reflexivity.
Defined.

(** ** Usage Extractor: what is recognized, and the defaults *)

Ltac run_binds H :=
  repeat match type of H with
         | context [bind ?c _] =>
             let r := fresh "r" in
             destruct c as [r|] eqn:?; cbn [bind] in H; [|discriminate H]
         end.

Lemma or_defaults_to :
  forall a default, defaults_to default (a ||| Some default).
Proof.
  intros a default. unfold defaults_to, Js.or.
  destruct (Js.truthy a) eqn:T; [left; exact T | right; reflexivity].
Qed.

Lemma openai_usage_defaulted :
  forall data u, openai_usage data = Returns (Some u) -> fields_defaulted u.
Proof.
  intros data u H. unfold openai_usage in H. run_binds H.
  destruct (Js.truthy r); [|discriminate]. run_binds H.
  injection H as <-. repeat split; apply or_defaults_to.
Qed.

Lemma message_delta_usage_defaulted :
  forall data u, message_delta_usage data = Returns (Some u) -> fields_defaulted u.
Proof.
  intros data u H. unfold message_delta_usage in H. run_binds H.
  destruct (Js.is_str r "message_delta" && Js.truthy r0); [|discriminate]. run_binds H.
  injection H as <-. repeat split; try apply or_defaults_to. left. reflexivity.
Qed.

Lemma message_start_usage_defaulted :
  forall data u, message_start_usage data = Returns (Some u) -> fields_defaulted u.
Proof.
  intros data u H. unfold message_start_usage in H. run_binds H.
  destruct (Js.is_str r "message_start" && Js.truthy r1); [|discriminate]. run_binds H.
  injection H as <-. repeat split; try apply or_defaults_to.
  unfold defaults_to, Js.or. destruct (Js.truthy r2) eqn:T; [now left | now left].
Qed.

Lemma or_else_some :
  forall {A} (c rest : completion (option A)) a,
    or_else c rest = Returns (Some a) ->
    c = Returns (Some a) \/ (c = Returns None /\ rest = Returns (Some a)).
Proof.
  intros A [[x|]|] rest a H; simpl in H; try discriminate; auto.
Qed.



(** X5.  The extractor returns nothing exactly for the payload [null]
    and for a payload that has neither a truthy root [usage] nor, being
    a [message_start] event, a truthy [message.usage]; text that is not
    JSON gives nothing either.  It never raises. *)
Theorem parseUsageFromEvent_none_iff :
  forall d,
    parseUsageFromEvent Throws = None
    /\ (parseUsageFromEvent (Returns d) = None <->
        d = JNull
        \/ (Js.truthy (field d "usage") = false
            /\ (Js.is_str (field d "type") "message_start"
                && Js.truthy (message_usage d)) = false)).
Proof.
  intros d. split; [reflexivity|].
  destruct d as [| b | n | s | items | fields];
    try (split; [intros _; right; split; reflexivity | intros _; reflexivity]).
  unfold parseUsageFromEvent, message_usage, field. cbn [bind].
  unfold openai_usage at 1. cbn [Js.get bind].
  destruct (Js.truthy (Js.assoc "usage" fields)) eqn:T.
  + repeat match goal with
           | |- context [Js.get (Js.assoc "usage" fields) ?k] =>
               let r := fresh "r" in
               destruct (get_of_truthy (Js.assoc "usage" fields) k T) as [r ->];
               cbn [bind]
           end.
    match goal with
    | |- context [Js.get_opt ?v ?k] =>
        let r := fresh "r" in destruct (get_opt_returns v k) as [r ->]; cbn [bind]
    end.
    cbn [or_else bind]. split; [discriminate|].
    intros [H | [H _]]; discriminate.
  + cbn [or_else bind].
    unfold message_delta_usage. cbn [Js.get bind]. rewrite T, andb_false_r.
    cbn [or_else bind].
    unfold message_start_usage. cbn [Js.get bind].
    assert (Js.get_opt (Js.assoc "message" fields) "usage"
            = Returns match Js.assoc "message" fields with
                      | Some (JObj fs) => Js.assoc "usage" fs
                      | _ => None
                      end) as ->
      by (destruct (Js.assoc "message" fields) as [[]|]; reflexivity).
    cbn [bind].
    set (usage := match Js.assoc "message" fields with
                  | Some (JObj fs) => Js.assoc "usage" fs
                  | _ => None
                  end).
    destruct (Js.is_str (Js.assoc "type" fields) "message_start" && Js.truthy usage) eqn:C.
    * pose proof C as C'. apply andb_true_iff in C as [_ Tu].
      destruct (get_opt_returns (Js.assoc "message" fields) "model") as [r ->].
      cbn [bind].
      repeat match goal with
             | |- context [Js.get usage ?k] =>
                 let r := fresh "r" in
                 destruct (get_of_truthy usage k Tu) as [r ->]; cbn [bind]
             end.
      cbn [or_else bind]. split; [discriminate|].
      intros [H | [_ H]]; [discriminate|].
      unfold usage in C'. discriminate (eq_trans (eq_sym C') H).
    * cbn [or_else bind].
      split; [intros _; right; split; [reflexivity | exact C] | intros _; reflexivity].
Qed.

(** ** Content Fingerprint Engine *)

Lemma toInt32_range : forall n, - 2 ^ 31 <= toInt32 n < 2 ^ 31.
Proof.
  intros n. unfold toInt32.
  pose proof (Z.mod_pos_bound (n + 2 ^ 31) (2 ^ 32) ltac:(lia)). lia.
Qed.

Lemma toInt32_wraps : forall n, exists q, toInt32 n = n + q * 2 ^ 32.
Proof.
  intros n. exists (- ((n + 2 ^ 31) / 2 ^ 32)). unfold toInt32.
  rewrite (Z.mod_eq (n + 2 ^ 31) (2 ^ 32)) by lia. lia.
Qed.

Lemma toInt32_periodic : forall n q, toInt32 (n + q * 2 ^ 32) = toInt32 n.
Proof.
  intros n q. unfold toInt32.
  replace (n + q * 2 ^ 32 + 2 ^ 31) with (n + 2 ^ 31 + q * 2 ^ 32) by lia.
  now rewrite Z_mod_plus_full.
Qed.

Lemma hash_step_wraps :
  forall p c, hash_step (toInt32 p) c = toInt32 (31 * p + Str.code c).
Proof.
  intros p c. unfold hash_step. rewrite Z.shiftl_mul_pow2 by lia.
  destruct (toInt32_wraps p) as [q1 ->].
  destruct (toInt32_wraps ((p + q1 * 2 ^ 32) * 2 ^ 5)) as [q2 ->].
  replace ((p + q1 * 2 ^ 32) * 2 ^ 5 + q2 * 2 ^ 32 - (p + q1 * 2 ^ 32) + Str.code c)
    with (31 * p + Str.code c + (31 * q1 + q2) * 2 ^ 32) by lia.
  apply toInt32_periodic.
Qed.

Lemma hash_fold_wraps :
  forall chars p,
    fold_left hash_step chars (toInt32 p)
    = toInt32 (fold_left (fun h c => 31 * h + Str.code c) chars p).
Proof.
  induction chars as [|c chars IH]; intros p; [reflexivity|].
  cbn [fold_left]. rewrite hash_step_wraps. apply IH.
Qed.

(** X6.  [hashString] is the polynomial hash with multiplier 31 over the
    code units, wrapped to a signed 32-bit integer and written in
    hexadecimal: the shift-and-subtract of the loop never loses more
    than the wrap-around. *)
Theorem hashString_is_wrapped_polynomial :
  forall str,
    hashString str = Str.hex (toInt32 (poly31 (list_ascii_of_string str)))
    /\ - 2 ^ 31 <= toInt32 (poly31 (list_ascii_of_string str)) < 2 ^ 31.
Proof.
  intros str. split; [|apply toInt32_range].
  unfold hashString, poly31. f_equal.
  exact (hash_fold_wraps (list_ascii_of_string str) 0).
Qed.

Lemma mapi_length :
  forall {A B} (f : A -> Z -> B) idx l, List.length (mapi f idx l) = List.length l.
Proof.
  intros A B f idx l. revert idx.
  induction l as [|x l IH]; intros idx; simpl; [reflexivity | now rewrite IH].
Qed.

Lemma mapi_nth_error :
  forall {A B} (f : A -> Z -> B) l idx k,
    nth_error (mapi f idx l) k
    = option_map (fun x => f x (idx + Z.of_nat k)) (nth_error l k).
Proof.
  intros A B f. induction l as [|x l IH]; intros idx k.
  - destruct k; reflexivity.
  - destruct k as [|k]; simpl.
    + now replace (idx + 0) with idx by lia.
    + rewrite IH. destruct (nth_error l k); simpl; [|reflexivity].
      do 2 f_equal. lia.
Qed.

Lemma mapi_app :
  forall {A B} (f : A -> Z -> B) l1 l2 idx,
    mapi f idx (l1 ++ l2)
    = (mapi f idx l1 ++ mapi f (idx + Z.of_nat (List.length l1)) l2)%list.
Proof.
  intros A B f. induction l1 as [|x l1 IH]; intros l2 idx; simpl.
  - now replace (idx + 0) with idx by lia.
  - rewrite IH. do 3 f_equal. lia.
Qed.

Lemma substring_length_le :
  forall s n m, (String.length (String.substring n m s) <= m)%nat.
Proof.
  induction s as [|c s IH]; intros n m.
  - destruct n, m; simpl; lia.
  - destruct n as [|n]; destruct m as [|m]; simpl; try lia.
    + specialize (IH 0%nat m). lia.
    + apply IH.
    + apply IH.
Qed.

Lemma fingerprint_cases :
  forall msg idx,
    match field msg "content" with
    | None => Body.fingerprint msg idx = Throws
    | Some content =>
        Body.fingerprint msg idx
        = Returns
            (let fullContent :=
               match content with JStr s => s | c => Json.stringify c end in
             {| RawFingerprint.index := idx;
                RawFingerprint.role := field msg "role";
                RawFingerprint.contentPreview := Str.substring 0 100 fullContent;
                RawFingerprint.fullContent := fullContent;
                RawFingerprint.hash := hashString (Json.stringify msg);
                RawFingerprint.hasCacheControl :=
                  Js.truthy (field msg "cache_control") |})
    end.
Proof.
  intros msg idx. unfold Body.fingerprint, field.
  destruct msg as [| b | n | s | items | fields]; try reflexivity.
  cbn [Js.get bind].
  destruct (Js.assoc "content" fields) as [content|]; [|reflexivity].
  destruct content; reflexivity.
Qed.

Lemma map_indexed_throws :
  forall items idx,
    Body.map_indexed idx items = Throws
    <-> exists msg, In msg items /\ field msg "content" = None.
Proof.
  induction items as [|msg items IH]; intros idx; cbn [Body.map_indexed].
  - split; [discriminate | intros [msg [[] _]]].
  - pose proof (fingerprint_cases msg idx) as Head.
    destruct (field msg "content") as [content|] eqn:Content.
    + rewrite Head. cbn [bind].
      destruct (Body.map_indexed (idx + 1) items) as [fps|] eqn:Rest; cbn [bind].
      * split; [discriminate|].
        intros [bad [[<- | Member] Missing]]; [congruence|].
        exfalso. assert (Body.map_indexed (idx + 1) items = Throws) as Thrown
          by (apply IH; eauto).
        congruence.
      * split; [|reflexivity]. intros _.
        destruct (proj1 (IH (idx + 1)) Rest) as [bad [Member Missing]].
        exists bad. split; [right; exact Member | exact Missing].
    + rewrite Head. cbn [bind]. split; [|reflexivity].
      intros _. exists msg. split; [left; reflexivity | exact Content].
Qed.

Lemma map_indexed_returns :
  forall items idx fps,
    Body.map_indexed idx items = Returns fps ->
    List.length fps = List.length items
    /\ forall k msg,
         nth_error items k = Some msg ->
         exists fp, nth_error fps k = Some fp
                    /\ Body.fingerprint msg (idx + Z.of_nat k) = Returns fp.
Proof.
  induction items as [|msg items IH]; intros idx fps Done;
    cbn [Body.map_indexed] in Done.
  - injection Done as <-. split; [reflexivity|]. intros [|k] m H; discriminate H.
  - destruct (Body.fingerprint msg idx) as [fp|] eqn:Head; [|discriminate Done].
    cbn [bind] in Done.
    destruct (Body.map_indexed (idx + 1) items) as [rest|] eqn:Rest;
      [|discriminate Done].
    cbn [bind] in Done. injection Done as <-.
    destruct (IH _ _ Rest) as [Len Each].
    split; [cbn [List.length]; rewrite Len; reflexivity|].
    intros [|k] m Hk; cbn [nth_error] in *.
    + injection Hk as <-. exists fp. split; [reflexivity|].
      replace (idx + Z.of_nat 0) with idx by lia. exact Head.
    + destruct (Each k m Hk) as [fp' [Hfp Hprint]].
      exists fp'. split; [exact Hfp|].
      replace (idx + Z.of_nat (S k)) with (idx + 1 + Z.of_nat k) by lia.
      exact Hprint.
Qed.

(** On messages of the shape the analysis is stated for, [hashMessages]
    is [Body.hashMessages]: it returns, with the same fingerprints. *)
Lemma hashMessages_of_messages :
  forall messages,
    Body.hashMessages (Some (JArr (map Message.to_json messages)))
    = Returns (map raw_fingerprint (hashMessages (Some messages))).
Proof.
  intros messages. unfold Body.hashMessages, hashMessages. generalize 0 at 1 3.
  induction messages as [|m messages IH]; intros idx;
    cbn [map Body.map_indexed mapi]; [reflexivity|].
  rewrite IH.
  pose proof (fingerprint_cases (Message.to_json m) idx) as Head.
  assert (field (Message.to_json m) "content" = Some (Message.content m)) as Content
    by reflexivity.
  rewrite Content in Head. rewrite Head. cbn [bind]. do 2 f_equal.
  unfold raw_fingerprint, field, Message.to_json.
  cbn [Fingerprint.index Fingerprint.role Fingerprint.contentPreview
       Fingerprint.fullContent Fingerprint.hash Fingerprint.hasCacheControl].
  destruct (Message.content m), (Message.cache_control m); reflexivity.
Qed.

(** X7.  [hashMessages] on the messages array of a request body throws
    exactly when some element has no [content] ([null] and values that
    are not objects included); otherwise it returns one fingerprint per
    message, in order: the fingerprint at position [k] carries the index
    [k], the [role] of the message, the hash of the serialized message,
    the content (serialized unless a string) and a preview that is its
    first 100 characters at most.  Anything that is not an array gives
    the empty list, and on messages made of a role, a content and an
    optional cache control it never throws. *)
Theorem hashMessages_one_per_message :
  forall items,
    (Body.hashMessages (Some (JArr items)) = Throws
     <-> exists msg, In msg items /\ field msg "content" = None)
    /\ ((forall msg, In msg items -> field msg "content" <> None) ->
        exists fps, Body.hashMessages (Some (JArr items)) = Returns fps)
    /\ (forall fps,
          Body.hashMessages (Some (JArr items)) = Returns fps ->
          List.length fps = List.length items
          /\ forall k msg,
               nth_error items k = Some msg ->
               exists fp content,
                 nth_error fps k = Some fp
                 /\ field msg "content" = Some content
                 /\ RawFingerprint.index fp = Z.of_nat k
                 /\ RawFingerprint.role fp = field msg "role"
                 /\ RawFingerprint.hash fp = hashString (Json.stringify msg)
                 /\ RawFingerprint.fullContent fp
                    = match content with JStr s => s | c => Json.stringify c end
                 /\ RawFingerprint.contentPreview fp
                    = String.substring 0 100 (RawFingerprint.fullContent fp)
                 /\ (String.length (RawFingerprint.contentPreview fp) <= 100)%nat
                 /\ RawFingerprint.hasCacheControl fp
                    = Js.truthy (field msg "cache_control"))
    /\ (forall messages,
          Body.hashMessages (Some (JArr (map Message.to_json messages)))
          = Returns (map raw_fingerprint (hashMessages (Some messages))))
    /\ Body.hashMessages None = Returns []
    /\ (forall v, (forall elements, v <> JArr elements) ->
                  Body.hashMessages (Some v) = Returns []).
Proof.
  intros items. split; [apply map_indexed_throws|].
  split.
  { intros Every. cbn [Body.hashMessages].
    destruct (Body.map_indexed 0 items) as [fps|] eqn:Done; [eauto|].
    apply map_indexed_throws in Done as [msg [Member Missing]].
    exfalso. exact (Every msg Member Missing). }
  split; [|split; [apply hashMessages_of_messages|split; [reflexivity|]]].
  - intros fps Done. cbn [Body.hashMessages] in Done.
    destruct (map_indexed_returns _ _ _ Done) as [Len Each].
    split; [exact Len|]. intros k msg Hk.
    destruct (Each k msg Hk) as [fp [Hfp Print]].
    pose proof (fingerprint_cases msg (0 + Z.of_nat k)) as Cases.
    destruct (field msg "content") as [content|]; [|congruence].
    exists fp, content. split; [exact Hfp|]. split; [reflexivity|].
    rewrite Cases in Print. injection Print as <-.
    cbn [RawFingerprint.index RawFingerprint.role RawFingerprint.hash
         RawFingerprint.fullContent RawFingerprint.contentPreview
         RawFingerprint.hasCacheControl].
    repeat split; try reflexivity. apply substring_length_le.
  - intros v NotArray. destruct v; try reflexivity.
    exfalso. exact (NotArray items0 eq_refl).
Qed.

Lemma hashMessages_one_per_message_witness :
  Body.hashMessages (Some (JArr [Message.to_json msgA; no_content])) = Throws.
Proof.
  apply (proj1 (hashMessages_one_per_message [Message.to_json msgA; no_content])).
  exists no_content. split; [right; left; reflexivity | reflexivity].
Defined.

(** ** Divergence Locator: the difference inside a message *)

Lemma common_prefix_bounds :
  forall str1 str2,
    0 <= common_prefix str1 str2 <= Z.min (Str.len str1) (Str.len str2).
Proof.
  unfold Str.len.
  induction str1 as [|a s1 IH]; intros [|b s2];
    cbn [common_prefix String.length]; rewrite ?Nat2Z.inj_succ; try lia.
  destruct (Ascii.eqb a b); [|lia]. specialize (IH s2). lia.
Qed.

Lemma common_prefix_get :
  forall str1 str2 k,
    (Z.of_nat k < common_prefix str1 str2) ->
    String.get k str1 = String.get k str2.
Proof.
  induction str1 as [|a s1 IH]; intros [|b s2] k Hk;
    cbn [common_prefix] in Hk; try lia.
  destruct (Ascii.eqb a b) eqn:E; [|lia].
  apply Ascii.eqb_eq in E. subst b.
  destruct k as [|k]; [reflexivity|]. cbn [String.get]. apply IH. lia.
Qed.

Lemma common_prefix_differs :
  forall str1 str2,
    common_prefix str1 str2 < Z.min (Str.len str1) (Str.len str2) ->
    String.get (Z.to_nat (common_prefix str1 str2)) str1
    <> String.get (Z.to_nat (common_prefix str1 str2)) str2.
Proof.
  unfold Str.len.
  induction str1 as [|a s1 IH]; intros [|b s2] H;
    cbn [common_prefix String.length] in *; rewrite ?Nat2Z.inj_succ in H; try lia.
  destruct (Ascii.eqb a b) eqn:E.
  - pose proof (common_prefix_bounds s1 s2) as [Hb _].
    replace (Z.to_nat (1 + common_prefix s1 s2))
      with (S (Z.to_nat (common_prefix s1 s2))) by lia.
    cbn [String.get]. apply IH. lia.
  - apply Ascii.eqb_neq in E. cbn. congruence.
Qed.

Lemma common_prefix_refl : forall s, common_prefix s s = Str.len s.
Proof.
  unfold Str.len. induction s as [|a s IH]; [reflexivity|].
  cbn [common_prefix String.length]. rewrite Ascii.eqb_refl, IH, Nat2Z.inj_succ. lia.
Qed.

Lemma append_length :
  forall a b : string, String.length (a ++ b) = (String.length a + String.length b)%nat.
Proof. induction a as [|x a IH]; intros b; simpl; [reflexivity | now rewrite IH]. Qed.

(** X8.  For two non-empty strings [findStringDiff] reports as
    [diffIndex] the length of their longest common start: it lies
    between 0 and the shorter length, the strings agree at every index
    below it and, when it is below the shorter length, differ at it; on
    equal strings it is their length.  A length note is given exactly
    when the lengths differ. *)
Theorem findStringDiff_first_difference :
  forall str1 str2,
    str1 <> "" -> str2 <> "" ->
    let d := StringDiff.diffIndex (findStringDiff str1 str2) in
    0 <= d <= Z.min (Str.len str1) (Str.len str2)
    /\ (forall k, Z.of_nat k < d -> String.get k str1 = String.get k str2)
    /\ (d < Z.min (Str.len str1) (Str.len str2) ->
        String.get (Z.to_nat d) str1 <> String.get (Z.to_nat d) str2)
    /\ (str1 = str2 -> d = Str.len str1)
    /\ (StringDiff.lengthDiff (findStringDiff str1 str2) = None
        <-> Str.len str1 = Str.len str2).
Proof.
  intros str1 str2 H1 H2. cbv zeta. unfold findStringDiff.
  apply String.eqb_neq in H1, H2. rewrite H1, H2. cbn [orb StringDiff.diffIndex
                                                        StringDiff.lengthDiff].
  split; [apply common_prefix_bounds|].
  split; [intros k; apply common_prefix_get|].
  split; [apply common_prefix_differs|].
  split; [intros <-; apply common_prefix_refl|].
  destruct (Str.len str1 =? Str.len str2) eqn:E.
  - apply Z.eqb_eq in E. tauto.
  - apply Z.eqb_neq in E. split; [discriminate | contradiction].
Qed.

Lemma findStringDiff_first_difference_witness :
  StringDiff.diffIndex (findStringDiff "hello" "help") = 3
  /\ String.get 3 "hello" <> String.get 3 "help".
Proof.
  destruct (findStringDiff_first_difference "hello" "help"
              ltac:(discriminate) ltac:(discriminate)) as [_ [_ [Differs _]]].
  split; [reflexivity|].
  apply Differs. reflexivity.
Defined.

Lemma str_substring_length :
  forall a b s, 0 <= a -> Z.of_nat (String.length (Str.substring a b s)) <= Z.max 0 (b - a).
Proof.
  intros a b s Ha. unfold Str.substring.
  pose proof (substring_length_le s (Z.to_nat a) (Z.to_nat (b - a))). lia.
Qed.

(** X9.  The two contexts [findStringDiff] returns are bounded whatever
    the strings: at most 500 characters each, and, when both strings
    are non-empty, at most 200 characters on each side of the
    difference plus the two ellipses (406 in all). *)
Theorem findStringDiff_context_bounded :
  forall str1 str2,
    let diff := findStringDiff str1 str2 in
    (String.length (StringDiff.context1 diff) <= 500)%nat
    /\ (String.length (StringDiff.context2 diff) <= 500)%nat
    /\ (str1 <> "" -> str2 <> "" ->
        (String.length (StringDiff.context1 diff) <= 406)%nat
        /\ (String.length (StringDiff.context2 diff) <= 406)%nat).
Proof.
  intros str1 str2. cbv zeta.
  assert (str1 <> "" -> str2 <> "" ->
          (String.length (StringDiff.context1 (findStringDiff str1 str2)) <= 406)%nat
          /\ (String.length (StringDiff.context2 (findStringDiff str1 str2)) <= 406)%nat)
    as Window.
  { intros H1 H2. unfold findStringDiff.
    apply String.eqb_neq in H1, H2. rewrite H1, H2.
    cbn [orb StringDiff.context1 StringDiff.context2].
    pose proof (common_prefix_bounds str1 str2) as Hd.
    set (d := common_prefix str1 str2) in *.
    rewrite !append_length.
    pose proof (str_substring_length (Z.max 0 (d - 200)) (Z.min (Str.len str1) (d + 200))
                  str1 ltac:(lia)).
    pose proof (str_substring_length (Z.max 0 (d - 200)) (Z.min (Str.len str2) (d + 200))
                  str2 ltac:(lia)).
    split.
    - destruct (0 <? Z.max 0 (d - 200));
        destruct (Z.min (Str.len str1) (d + 200) <? Str.len str1); simpl String.length; lia.
    - destruct (0 <? Z.max 0 (d - 200));
        destruct (Z.min (Str.len str2) (d + 200) <? Str.len str2); simpl String.length; lia. }
  split; [|split; [|exact Window]].
  - destruct (String.eqb str1 "" || String.eqb str2 "") eqn:E.
    + unfold findStringDiff. rewrite E. cbn [StringDiff.context1].
      pose proof (str_substring_length 0 500 str1 ltac:(lia)). lia.
    + apply orb_false_iff in E as [E1 E2]. apply String.eqb_neq in E1, E2.
      destruct (Window E1 E2). lia.
  - destruct (String.eqb str1 "" || String.eqb str2 "") eqn:E.
    + unfold findStringDiff. rewrite E. cbn [StringDiff.context2].
      pose proof (str_substring_length 0 500 str2 ltac:(lia)). lia.
    + apply orb_false_iff in E as [E1 E2]. apply String.eqb_neq in E1, E2.
      destruct (Window E1 E2). lia.
Qed.

(** ** Divergence Locator: whole sequences *)

Lemma first_mismatch_index :
  forall prevHashes currHashes k i p c,
    first_mismatch k prevHashes currHashes = Some (i, p, c) ->
    k <= i < k + Z.min (Z.of_nat (List.length prevHashes))
                       (Z.of_nat (List.length currHashes)).
Proof.
  induction prevHashes as [|p0 prev IH]; intros [|c0 curr] k i p c H;
    cbn [first_mismatch] in H; try discriminate.
  cbn [List.length]. rewrite !Nat2Z.inj_succ.
  destruct (String.eqb (Fingerprint.hash p0) (Fingerprint.hash c0)).
  - apply IH in H. lia.
  - injection H as <- _ _. lia.
Qed.

Lemma first_mismatch_none_hashes :
  forall prevHashes currHashes k,
    List.length prevHashes = List.length currHashes ->
    (first_mismatch k prevHashes currHashes = None
     <-> map Fingerprint.hash prevHashes = map Fingerprint.hash currHashes).
Proof.
  induction prevHashes as [|p0 prev IH]; intros [|c0 curr] k Hlen;
    cbn [List.length] in Hlen; try discriminate.
  - split; reflexivity.
  - cbn [first_mismatch map].
    destruct (String.eqb (Fingerprint.hash p0) (Fingerprint.hash c0)) eqn:E.
    + apply String.eqb_eq in E. rewrite E, (IH curr (k + 1)) by lia.
      split; [intros ->; reflexivity | intros H; now injection H].
    + apply String.eqb_neq in E.
      split; [discriminate | intros H; injection H as H _; contradiction].
Qed.

(** X10.  The index [findDivergencePoint] returns is never below -1 nor
    above the length of either sequence, and it is -1, "no divergence",
    exactly when the two sequences carry the same hashes, one by one. *)
Theorem findDivergencePoint_no_divergence_iff :
  forall prevHashes currHashes,
    let r := findDivergencePoint (Some prevHashes) (Some currHashes) in
    - 1 <= Divergence.divergeIndex r
    /\ Divergence.divergeIndex r <= Z.of_nat (List.length prevHashes)
    /\ Divergence.divergeIndex r <= Z.of_nat (List.length currHashes)
    /\ (Divergence.divergeIndex r = - 1
        <-> map Fingerprint.hash prevHashes = map Fingerprint.hash currHashes).
Proof.
  intros prevHashes currHashes. cbv zeta. unfold findDivergencePoint.
  destruct (first_mismatch 0 prevHashes currHashes) as [[[i p] c]|] eqn:E.
  - pose proof (first_mismatch_index _ _ _ _ _ _ E) as Hi.
    cbn [Divergence.divergeIndex]. repeat split; try lia.
    intros H.
    assert (List.length prevHashes = List.length currHashes) as Hlen
      by (rewrite <- (length_map Fingerprint.hash prevHashes), H; apply length_map).
    apply (first_mismatch_none_hashes _ _ 0 Hlen) in H. congruence.
  - destruct (Z.of_nat (List.length prevHashes) =? Z.of_nat (List.length currHashes)) eqn:L;
      cbn [negb Divergence.plain Divergence.divergeIndex].
    + apply Z.eqb_eq in L. repeat split; try lia.
      intros _. apply (first_mismatch_none_hashes _ _ 0); [lia | exact E].
    + apply Z.eqb_neq in L. repeat split; try lia.
      intros H. apply (f_equal (@List.length string)) in H.
      rewrite !length_map in H. lia.
Qed.

Lemma first_mismatch_extension :
  forall prevHashes extra k,
    first_mismatch k prevHashes (prevHashes ++ extra) = None.
Proof.
  induction prevHashes as [|p prev IH]; intros extra k; cbn [first_mismatch app].
  - destruct extra; reflexivity.
  - rewrite String.eqb_refl. apply IH.
Qed.

(** X11.  When the current request repeats the previous messages and
    adds some at the end (the chat went on), the divergence is the
    message-count change at the old length, whatever the messages are. *)
Theorem findDivergencePoint_appended_messages :
  forall messages added,
    added <> [] ->
    findDivergencePoint (Some (hashMessages (Some messages)))
                        (Some (hashMessages (Some (messages ++ added)%list)))
    = Divergence.plain
        (Z.of_nat (List.length messages))
        ("Message count changed (" ++ Str.dec (Z.of_nat (List.length messages))
           ++ " → " ++ Str.dec (Z.of_nat (List.length (messages ++ added)%list)) ++ ")").
Proof.
  intros messages added Hne. unfold findDivergencePoint, hashMessages.
  rewrite mapi_app, first_mismatch_extension.
  rewrite length_app, !mapi_length, length_app.
  assert (List.length added <> 0%nat) as Hk by (destruct added; simpl; congruence).
  replace (Z.of_nat (List.length messages)
           =? Z.of_nat (List.length messages + List.length added))
    with false by (symmetry; apply Z.eqb_neq; lia).
  cbn [negb]. f_equal. lia.
Qed.

Lemma findDivergencePoint_appended_messages_witness :
  Divergence.divergeIndex
    (findDivergencePoint (Some (hashMessages (Some hello)))
                         (Some (hashMessages (Some (hello ++ [msgC])%list)))) = 2.
Proof.
  rewrite (findDivergencePoint_appended_messages hello [msgC]) by discriminate.
  reflexivity.
Defined.

(** ** Pattern Detector *)

(** X12.  The flags of [detectContentPatterns] agree with its lists:
    lore entries are flagged exactly when a name was collected, depth
    markers exactly when a depth value was; every collected name is
    trimmed; empty content has no pattern at all. *)
Theorem detectContentPatterns_flags_match_lists :
  forall content,
    let p := detectContentPatterns content in
    (Patterns.hasLoreEntries p = true <-> Patterns.loreEntryNames p <> [])
    /\ (Patterns.hasDepthMarkers p = true <-> Patterns.depthValues p <> [])
    /\ (forall name, In name (Patterns.loreEntryNames p) -> Str.trim name = name)
    /\ detectContentPatterns "" = Patterns.none.
Proof.
  intros content. cbv zeta. unfold detectContentPatterns.
  destruct (String.eqb content "").
  - cbn. repeat split; try discriminate; try contradiction.
    all: intros H; now elim H.
  - cbn [Patterns.hasLoreEntries Patterns.loreEntryNames Patterns.hasDepthMarkers
         Patterns.depthValues].
    split; [|split; [|split; [|reflexivity]]].
    + destruct (exec_all loreEntryRegex content), (exec_all altLoreRegex content);
        cbn; split; try discriminate; try reflexivity; intros H; now elim H.
    + destruct (exec_all depthRegex content);
        cbn; split; try discriminate; try reflexivity; intros H; now elim H.
    + intros name Hin. apply in_app_or in Hin as [Hin | Hin];
        apply in_map_iff in Hin as [raw [<- _]]; apply trim_idempotent.
Qed.

(** ** Miss Diagnoser: the primary diagnosis *)

Lemma selectPrimaryDiagnosis_cases :
  forall loreIssue la,
    match option_map LoreIssue.type loreIssue with
    | Some LoreIssue.reordering =>
        option_map PrimaryDiagnosis.issue (selectPrimaryDiagnosis loreIssue la)
        = Some "Lorebook Ordering Issue"
    | Some LoreIssue.different_entries =>
        option_map PrimaryDiagnosis.issue (selectPrimaryDiagnosis loreIssue la)
        = Some "Different Lorebook Entries"
    | None => True
    end
    /\ forall d, selectPrimaryDiagnosis loreIssue la = Some d ->
                 (PrimaryDiagnosis.action d = None
                  <-> PrimaryDiagnosis.issue d = "Chat History Change").
Proof.
  intros [li|] la; unfold selectPrimaryDiagnosis; cbn [option_map].
  - destruct (LoreIssue.type li); (split; [reflexivity|]);
      intros d H; injection H as <-; cbn; split; discriminate.
  - split; [exact I|].
    destruct (LocationAnalysis.likelyCause la) as [[]|];
      destruct (LocationAnalysis.location la);
      intros d H; try discriminate; injection H as <-; cbn;
      split; try discriminate; reflexivity.
Qed.

(** X13.  In a miss analysis, a lore issue always decides the primary
    diagnosis (reordering before different entries, whatever the
    location); a diagnosis comes without a recommended action exactly
    when it is the expected "Chat History Change"; and once a divergence
    was located, the only case left without a primary diagnosis is
    content injected in the middle with no lore entry on either side. *)
Theorem analyzeCacheMiss_primary_diagnosis :
  forall previousRequest now currentMessages currentHashes,
    let a := analyzeCacheMiss previousRequest now currentMessages currentHashes in
    (forall issue, Analysis.loreIssue a = Some issue ->
       option_map PrimaryDiagnosis.issue (Analysis.primaryDiagnosis a)
       = Some (match LoreIssue.type issue with
               | LoreIssue.reordering => "Lorebook Ordering Issue"
               | LoreIssue.different_entries => "Different Lorebook Entries"
               end))
    /\ (forall d, Analysis.primaryDiagnosis a = Some d ->
          (PrimaryDiagnosis.action d = None
           <-> PrimaryDiagnosis.issue d = "Chat History Change"))
    /\ (forall la, Analysis.locationAnalysis a = Some la ->
          (Analysis.primaryDiagnosis a = None
           <-> LocationAnalysis.likelyCause la = Some injected_content)).
Proof.
  intros previousRequest now currentMessages currentHashes. cbv zeta.
  unfold analyzeCacheMiss.
  cbn [Analysis.loreIssue Analysis.primaryDiagnosis Analysis.locationAnalysis].
  unfold divergenceCheck.
  destruct (PreviousRequest.messageHashes previousRequest) as [prevHashes|];
    [|cbn; repeat split; intros; discriminate].
  destruct (0 <=? _); [|cbn; repeat split; intros; discriminate].
  cbn [DivergenceCheck.loreIssue DivergenceCheck.primaryDiagnosis
       DivergenceCheck.locationAnalysis].
  set (div := findDivergencePoint (Some prevHashes) (Some currentHashes)).
  set (prevContent := match Divergence.prevContent div with Some c => c | None => "" end).
  set (currContent := match Divergence.currContent div with Some c => c | None => "" end).
  set (prevPatterns := detectContentPatterns prevContent).
  set (currPatterns := detectContentPatterns currContent).
  pose proof (analyzeDivergenceLocation_unfold
                (Divergence.divergeIndex div) (Z.of_nat (List.length currentHashes))
                prevContent currContent (Some prevPatterns) (Some currPatterns)) as U.
  cbv zeta in U. cbn [flag names_or_empty] in U.
  set (la := analyzeDivergenceLocation _ _ _ _ _ _) in *.
  set (loreIssue := if Patterns.hasLoreEntries prevPatterns
                       || Patterns.hasLoreEntries currPatterns
                    then _ else None) in *.
  pose proof (selectPrimaryDiagnosis_cases loreIssue la) as [Lore Action].
  split; [|split].
  - intros issue Hi. rewrite Hi in Lore |- *. cbn [option_map] in Lore.
    destruct (LoreIssue.type issue); exact Lore.
  - exact Action.
  - intros la' Hla. injection Hla as <-.
    set (lore := Patterns.hasLoreEntries prevPatterns
                 || Patterns.hasLoreEntries currPatterns) in *.
    assert (lore = false -> loreIssue = None) as NoLore
      by (intros E; unfold loreIssue; now rewrite E).
    clearbody loreIssue lore la.
    unfold selectPrimaryDiagnosis.
    destruct (Num.ltb _ (2 # 10) || _);
      [|destruct (Num.ltb _ (8 # 10))];
      destruct loreIssue as [issue|]; cbn [option_map];
      try destruct (LoreIssue.type issue);
      destruct (Patterns.hasDepthMarkers prevPatterns
                || Patterns.hasDepthMarkers currPatterns);
      destruct lore;
      try discriminate (NoLore eq_refl);
      injection U as Loc Cause _; rewrite ?Loc, ?Cause; cbn [option_map];
      split; intros H; try discriminate H; reflexivity.
Qed.

(** ** Miss Diagnoser: recommendations and the system prompt *)

(** X14.  [generateSmartRecommendations] returns at most three
    recommendations in order of priority; the TTL recommendation is
    there exactly when [ttlWarning] is set and, being the only one of
    priority 2, it then comes last. *)
Theorem generateSmartRecommendations_order :
  forall locationAnalysis ttlWarning loreIssue,
    let recs := generateSmartRecommendations locationAnalysis ttlWarning loreIssue in
    (List.length recs <= 3)%nat
    /\ by_priority recs = true
    /\ existsb is_ttl_recommendation recs = ttlWarning
    /\ (ttlWarning = true ->
        forall d, is_ttl_recommendation (last recs d) = true).
Proof.
  intros locationAnalysis ttlWarning loreIssue. cbv zeta.
  unfold generateSmartRecommendations.
  assert (forall c, String.eqb (cause_name c) "ttl_expired" = false) as NotCause
    by (intros []; reflexivity).
  assert (forall k, String.eqb (kind_name k) "ttl_expired" = false) as NotKind
    by (intros []; reflexivity).
  destruct locationAnalysis as [[loc cause [text|] sev details]|];
    cbn [LocationAnalysis.recommendation LocationAnalysis.likelyCause
         LocationAnalysis.severity];
    try destruct (String.eqb text "");
    destruct ttlWarning; destruct loreIssue as [li|];
    cbn [app sort_by_priority fold_left insert_by_priority Recommendation.priority
         Z.ltb Z.compare Pos.compare Pos.compare_cont];
    unfold is_ttl_recommendation;
    cbn [List.length by_priority existsb last Recommendation.type
         Recommendation.priority Z.leb Z.compare Pos.compare Pos.compare_cont andb orb];
    try destruct cause as [c|]; rewrite ?NotCause, ?NotKind; cbn [orb];
    (split; [lia|]); (split; [reflexivity|]); (split; [reflexivity|]);
    intros H d; try discriminate H; reflexivity.
Qed.

Lemma generateSmartRecommendations_order_witness :
  map Recommendation.type
      (generateSmartRecommendations
         (Some (analyzeDivergenceLocation 0 10 lore_and_depth_prev lore_and_depth_curr
                  (Some (detectContentPatterns lore_and_depth_prev))
                  (Some (detectContentPatterns lore_and_depth_curr))))
         true
         (detectLoreOrderingIssues ["Elves"] ["Dwarves"]))
  = ["lorebook_keywords"; "different_entries"; "ttl_expired"]
  /\ by_priority
       (generateSmartRecommendations
          (Some (analyzeDivergenceLocation 0 10 lore_and_depth_prev lore_and_depth_curr
                   (Some (detectContentPatterns lore_and_depth_prev))
                   (Some (detectContentPatterns lore_and_depth_curr))))
          true
          (detectLoreOrderingIssues ["Elves"] ["Dwarves"])) = true.
Proof.
  split; [vm_compute; reflexivity|].
  apply (generateSmartRecommendations_order
           (Some (analyzeDivergenceLocation 0 10 lore_and_depth_prev lore_and_depth_curr
                    (Some (detectContentPatterns lore_and_depth_prev))
                    (Some (detectContentPatterns lore_and_depth_curr))))
           true
           (detectLoreOrderingIssues ["Elves"] ["Dwarves"])).
Defined.

Lemma hex_not_empty : forall n, Str.hex n <> "".
Proof.
  intros n. unfold Str.hex.
  destruct (Z.to_hex_int n) as [[]|[]]; discriminate.
Qed.

Lemma findDivergencePoint_reason_not_system :
  forall prevHashes currHashes,
    Divergence.reason (findDivergencePoint (Some prevHashes) (Some currHashes))
    <> "System prompt changed".
Proof.
  intros prevHashes currHashes. unfold findDivergencePoint.
  destruct (first_mismatch 0 prevHashes currHashes) as [[[i p] c]|];
    [discriminate|].
  destruct (negb _); discriminate.
Qed.

(** The system-prompt reason is there exactly when the last part of
    [analyzeCacheMiss] pushed it. *)
Lemma system_prompt_reason_iff :
  forall previousRequest now currentMessages currentHashes,
    In "System prompt changed"
       (Analysis.reasons (analyzeCacheMiss previousRequest now currentMessages currentHashes))
    <-> systemPromptCheck previousRequest currentMessages = ["System prompt changed"].
Proof.
  intros previousRequest now currentMessages currentHashes.
  unfold analyzeCacheMiss. cbn [Analysis.reasons].
  assert (~ In "System prompt changed" (fst (fst (ttlCheck previousRequest now)))) as NoTtl.
  { unfold ttlCheck.
    destruct (PreviousRequest.timestamp previousRequest) as [ts|];
      [destruct (ts =? 0); [|destruct (300000 <? now - ts)]|];
      cbn; unfold ttl_reason, first_request_reason; cbn; intros H;
      repeat (destruct H as [H | H]); try discriminate H; exact H. }
  assert (~ In "System prompt changed"
            (DivergenceCheck.reasons (divergenceCheck previousRequest currentHashes)))
    as NoDiv.
  { unfold divergenceCheck.
    destruct (PreviousRequest.messageHashes previousRequest) as [prevHashes|];
      [|intros []].
    destruct (0 <=? _); [|intros []].
    intros [H | []]. exact (findDivergencePoint_reason_not_system _ _ H). }
  rewrite !in_app_iff.
  assert (systemPromptCheck previousRequest currentMessages = ["System prompt changed"]
          \/ systemPromptCheck previousRequest currentMessages = []) as [-> | ->].
  { unfold systemPromptCheck.
    destruct currentMessages as [[|firstMsg rest]|]; auto.
    destruct (String.eqb (Message.role firstMsg) "system"); auto.
    destruct (PreviousRequest.systemPromptHash previousRequest); auto.
    destruct (_ && _); auto. }
  - split; [reflexivity | intros _; right; right; left; reflexivity].
  - split; [|discriminate]. intros [H | [H | []]]; contradiction.
Qed.

(** X15.  After a request with messages [previous] was stored as the
    snapshot, the diagnosis of a request with messages [current] gives
    the reason "System prompt changed" exactly when both start with a
    system message and these two hash differently; in that case the
    divergence is at message 0 and the location is "early". *)
Theorem analyzeCacheMiss_system_prompt_changed :
  forall stored previous now current,
    let a := analyzeCacheMiss (snapshot stored previous) now (Some current)
               (hashMessages (Some current)) in
    (In "System prompt changed" (Analysis.reasons a)
     <-> exists p prest c crest,
           previous = p :: prest /\ current = c :: crest
           /\ Message.role p = "system" /\ Message.role c = "system"
           /\ message_hash p <> message_hash c)
    /\ (In "System prompt changed" (Analysis.reasons a) ->
        option_map Divergence.divergeIndex (Analysis.divergence a) = Some 0
        /\ option_map LocationAnalysis.location (Analysis.locationAnalysis a) = Some early).
Proof.
  intros stored previous now current. cbv zeta.
  rewrite system_prompt_reason_iff.
  assert (systemPromptCheck (snapshot stored previous) (Some current)
          = ["System prompt changed"]
          <-> exists p prest c crest,
                previous = p :: prest /\ current = c :: crest
                /\ Message.role p = "system" /\ Message.role c = "system"
                /\ message_hash p <> message_hash c) as Iff.
  { unfold systemPromptCheck, snapshot. cbn [PreviousRequest.systemPromptHash].
    destruct current as [|c crest].
    { split; [discriminate | intros [p [prest [c [crest [_ [H _]]]]]]; discriminate]. }
    destruct previous as [|p prest].
    { destruct (String.eqb (Message.role c) "system");
        (split; [discriminate | intros [p [prest [c' [crest' [H _]]]]]; discriminate]). }
    fold (message_hash c). fold (message_hash p).
    destruct (String.eqb_spec (Message.role c) "system") as [Rc | Rc];
      destruct (String.eqb_spec (Message.role p) "system") as [Rp | Rp].
    - replace (String.eqb (message_hash p) "") with false
        by (symmetry; apply String.eqb_neq, hex_not_empty).
      cbn [negb andb].
      destruct (String.eqb (message_hash p) (message_hash c)) eqn:E;
        [apply String.eqb_eq in E | apply String.eqb_neq in E]; cbn [negb].
      + split; [discriminate|].
        intros [p' [prest' [c' [crest' [Hp [Hc [_ [_ Hne]]]]]]]].
        injection Hp as <- _. injection Hc as <- _. contradiction.
      + split; [|reflexivity]. intros _. exists p, prest, c, crest.
        split; [reflexivity|]. split; [reflexivity|].
        split; [exact Rp|]. split; [exact Rc | exact E].
    - split; [discriminate|].
      intros [p' [prest' [c' [crest' [Hp [_ [Hr _]]]]]]].
      injection Hp as <- _. contradiction.
    - split; [discriminate|].
      intros [p' [prest' [c' [crest' [_ [Hc [_ [Hr _]]]]]]]].
      injection Hc as <- _. contradiction.
    - split; [discriminate|].
      intros [p' [prest' [c' [crest' [_ [Hc [_ [Hr _]]]]]]]].
      injection Hc as <- _. contradiction. }
  split; [exact Iff|].
  intros H. apply Iff in H as [p [prest [c [crest [-> [-> [_ [_ Hne]]]]]]]].
  unfold analyzeCacheMiss. cbn [Analysis.divergence Analysis.locationAnalysis].
  unfold divergenceCheck, snapshot. cbn [PreviousRequest.messageHashes].
  unfold findDivergencePoint, hashMessages. cbn [mapi first_mismatch Fingerprint.hash].
  fold (message_hash c). fold (message_hash p).
  apply String.eqb_neq in Hne. rewrite Hne.
  cbn [Divergence.divergeIndex Z.leb Z.compare DivergenceCheck.divergence
       DivergenceCheck.locationAnalysis option_map].
  split; [reflexivity|].
  unfold analyzeDivergenceLocation.
  replace (0 <? 3) with true by reflexivity. rewrite orb_true_r.
  repeat match goal with
         | |- context [if ?b then _ else _] => destruct b
         | |- context [match ?o with Some _ => _ | None => _ end] => destruct o
         end; reflexivity.
Qed.

Lemma analyzeCacheMiss_system_prompt_changed_witness :
  let a := analyzeCacheMiss (snapshot 1000 hello) 2000 (Some hello_rewritten)
             (hashMessages (Some hello_rewritten)) in
  In "System prompt changed" (Analysis.reasons a)
  /\ option_map Divergence.divergeIndex (Analysis.divergence a) = Some 0
  /\ option_map LocationAnalysis.location (Analysis.locationAnalysis a) = Some early.
Proof.
  cbv zeta.
  destruct (analyzeCacheMiss_system_prompt_changed 1000 hello 2000 hello_rewritten)
    as [Iff Then].
  cbv zeta in Iff, Then.
  assert (In "System prompt changed"
             (Analysis.reasons
                (analyzeCacheMiss (snapshot 1000 hello) 2000 (Some hello_rewritten)
                   (hashMessages (Some hello_rewritten))))) as Changed.
  { apply Iff.
    exists (Message.mk "system" (JStr "You are a narrator.") None),
           [Message.mk "user" (JStr "hello") None],
           (Message.mk "system" (JStr "You are a poet.") None),
           [Message.mk "user" (JStr "hello") None].
    split; [reflexivity|]. split; [reflexivity|].
    split; [reflexivity|]. split; [reflexivity|].
    vm_compute. discriminate. }
  split; [exact Changed | exact (Then Changed)].
Defined.

(** ** Session Aggregator: the counters over a whole session *)

Lemma push_bounded_length :
  forall history entry,
    Z.of_nat (List.length history) <= 100 ->
    Z.of_nat (List.length (push_bounded history entry))
    = Z.min 100 (Z.of_nat (List.length history) + 1).
Proof.
  intros history entry Bound. rewrite push_bounded_eq, length_app. simpl List.length.
  destruct (100 <=? Z.of_nat (List.length history)) eqn:E.
  - apply Z.leb_le in E.
    destruct history as [|h t]; cbn [List.length tl] in *; lia.
  - apply Z.leb_gt in E. lia.
Qed.

(** The call that throws has written the counters the completed call
    writes, and nothing of the history, the snapshot or the warnings. *)
Lemma processUsageData_interrupted_counters :
  forall settings now usage st,
    let done := State.sessionStats (processUsageData settings now usage st) in
    let cut := processUsageData_interrupted usage st in
    SessionStats.totalRequests (State.sessionStats cut) = SessionStats.totalRequests done
    /\ SessionStats.cacheHits (State.sessionStats cut) = SessionStats.cacheHits done
    /\ SessionStats.cacheMisses (State.sessionStats cut) = SessionStats.cacheMisses done
    /\ SessionStats.consecutiveMisses (State.sessionStats cut)
       = SessionStats.consecutiveMisses done
    /\ SessionStats.lastUsage (State.sessionStats cut) = SessionStats.lastUsage done
    /\ SessionStats.requestHistory (State.sessionStats cut)
       = SessionStats.requestHistory (State.sessionStats st)
    /\ State.previousRequest cut = State.previousRequest st
    /\ State.warnings cut = State.warnings st.
Proof.
  intros settings now usage st. cbv zeta.
  unfold processUsageData, processUsageData_interrupted.
  destruct usage as [usage|]; [|repeat split].
  destruct (negb (isClaude (Usage.model usage))); repeat split.
Qed.

Lemma processUsageData_counters_ok :
  forall settings now usage st,
    counters_ok st -> counters_ok (processUsageData settings now usage st).
Proof.
  intros settings now usage st Ok. unfold counters_ok in Ok. cbv zeta in Ok.
  destruct Ok as (Streak & Hits & Total & Len & Det & Last).
  unfold processUsageData.
  destruct usage as [usage|]; [|unfold counters_ok; auto 10].
  destruct (negb (isClaude (Usage.model usage))); [unfold counters_ok; auto 10|].
  unfold counters_ok.
  cbn [State.sessionStats State.detectedClaudeUsage SessionStats.totalRequests
       SessionStats.cacheHits SessionStats.cacheMisses
       SessionStats.consecutiveMisses SessionStats.requestHistory
       SessionStats.lastUsage].
  rewrite push_bounded_length by lia.
  repeat split;
    try (destruct (0 <? Usage.cache_read_input_tokens usage);
         destruct (0 <? Usage.cache_creation_input_tokens usage); lia);
    try lia; try discriminate;
    try (symmetry; apply Z.ltb_lt; lia).
Qed.

Lemma processUsageData_interrupted_counters_ok :
  forall usage st,
    counters_ok st -> counters_ok (processUsageData_interrupted usage st).
Proof.
  intros usage st Ok. unfold counters_ok in Ok. cbv zeta in Ok.
  destruct Ok as (Streak & Hits & Total & Len & Det & Last).
  unfold processUsageData_interrupted.
  destruct usage as [usage|]; [|unfold counters_ok; auto 10].
  destruct (negb (isClaude (Usage.model usage))); [unfold counters_ok; auto 10|].
  unfold counters_ok.
  cbn [State.sessionStats State.detectedClaudeUsage SessionStats.totalRequests
       SessionStats.cacheHits SessionStats.cacheMisses
       SessionStats.consecutiveMisses SessionStats.requestHistory
       SessionStats.lastUsage].
  repeat split;
    try (destruct (0 <? Usage.cache_read_input_tokens usage);
         destruct (0 <? Usage.cache_creation_input_tokens usage); lia);
    try lia; try discriminate;
    try (symmetry; apply Z.ltb_lt; lia).
Qed.

Lemma session_step_counters_ok :
  forall s e,
    counters_ok (Session.globals s) ->
    counters_ok (Session.globals (session_step s e)).
Proof.
  intros s e Ok.
  destruct e as [[now messages | settings now usage | |] | now];
    cbn [session_step Session.globals step].
  - exact Ok.
  - destruct (Session.unhashable s);
      [apply processUsageData_interrupted_counters_ok
      | apply processUsageData_counters_ok]; exact Ok.
  - exact Ok.
  - unfold counters_ok. cbn. repeat split; try lia; reflexivity.
  - exact Ok.
Qed.

Lemma step_history_complete :
  forall st e,
    counters_ok st -> history_complete st -> history_complete (step st e).
Proof.
  intros st e Ok Full. unfold counters_ok in Ok. cbv zeta in Ok.
  destruct Ok as (Streak & Hits & Total & _).
  unfold history_complete in *. cbv zeta in *.
  destruct e as [now messages | settings now usage | |];
    cbn [step State.sessionStats]; try exact Full; [|reflexivity].
  unfold processUsageData.
  destruct usage as [usage|]; [|exact Full].
  destruct (negb (isClaude (Usage.model usage))); [exact Full|].
  cbn [State.sessionStats SessionStats.totalRequests SessionStats.requestHistory].
  rewrite push_bounded_length by lia. lia.
Qed.

(** A session in which every request can be hashed is a session of the
    transition system above. *)
Lemma session_run_seen :
  forall events st,
    session_run (Session.mk st false) (map Seen events)
    = Session.mk (run st events) false.
Proof.
  induction events as [|e events IH]; intros st; [reflexivity|].
  unfold session_run, run in *. cbn [map fold_left].
  destruct e as [now messages | settings now usage | |];
    cbn [session_step Session.globals Session.unhashable]; apply IH.
Qed.

(** X16.  Whatever happens in a session (requests, also ones whose
    messages [hashMessages] cannot hash, usage records of any provider
    and content, stream ends, resets), the counters stay consistent:
    the streak lies between 0 and [cacheMisses], hits and misses
    together never exceed [totalRequests], the history holds at most
    min(100, [totalRequests]) entries, [detectedClaudeUsage] is set
    exactly when a request has been counted, and [lastUsage] is null
    exactly when none has.  The history holds exactly that many entries
    as long as every request could be hashed; a record answered while
    the messages cannot be hashed is counted and leaves no entry, no
    snapshot and no warning: three such write-misses in a row bring the
    streak to the default threshold of 3 without one. *)
Theorem session_counters_consistent :
  (forall events,
      counters_ok (Session.globals (session_run Session.initial events)))
  /\ (forall events,
        session_run Session.initial (map Seen events)
        = Session.mk (run State.initial events) false
        /\ history_complete (run State.initial events))
  /\ (let st := Session.globals (session_run Session.initial unhashable_misses) in
      SessionStats.totalRequests (State.sessionStats st) = 3
      /\ SessionStats.cacheMisses (State.sessionStats st) = 3
      /\ SessionStats.consecutiveMisses (State.sessionStats st) = 3
      /\ SessionStats.requestHistory (State.sessionStats st) = []
      /\ State.previousRequest st = PreviousRequest.empty
      /\ State.warnings st = []).
Proof.
  assert (counters_ok State.initial) as Init.
  { unfold counters_ok. cbn. repeat split; try lia; reflexivity. }
  split; [|split].
  - intros events. unfold session_run.
    assert (counters_ok (Session.globals Session.initial)) as Start by exact Init.
    revert Start. generalize Session.initial as s.
    induction events as [|e events IH]; intros s Ok; [exact Ok|].
    cbn [fold_left]. apply IH, session_step_counters_ok, Ok.
  - intros events. split; [apply session_run_seen|].
    unfold run.
    assert (history_complete State.initial) as Full by reflexivity.
    revert Init Full. generalize State.initial as st.
    induction events as [|e events IH]; intros st Ok Full; [exact Full|].
    cbn [fold_left]. apply IH.
    + destruct e as [now messages | settings now usage | |];
        cbn [step]; try exact Ok.
      * apply processUsageData_counters_ok, Ok.
      * unfold counters_ok. cbn. repeat split; try lia; reflexivity.
    + apply step_history_complete; assumption.
  - cbv zeta. repeat split; reflexivity.
Qed.

(** ** Session Aggregator: the statistics as sums *)

Lemma count_snoc :
  forall p records usage,
    count p (records ++ [usage]) = count p records + (if p usage then 1 else 0).
Proof.
  intros p records usage. unfold count.
  rewrite filter_app, length_app. cbn [filter].
  destruct (p usage); cbn [List.length]; lia.
Qed.

Lemma total_snoc :
  forall f records usage,
    total f (records ++ [usage]) = total f records + f usage.
Proof.
  intros f records usage. unfold total.
  induction records as [|x records IH]; cbn [app fold_right]; [lia|].
  rewrite IH. lia.
Qed.

Lemma since_last_hit_snoc :
  forall records usage,
    since_last_hit (records ++ [usage])
    = if read_hit usage then [] else (since_last_hit records ++ [usage])%list.
Proof.
  intros records usage. unfold since_last_hit. rewrite fold_left_app. reflexivity.
Qed.

Lemma streak_snoc :
  forall records usage,
    count write_miss (since_last_hit (records ++ [usage]))
    = if read_hit usage then 0
      else count write_miss (since_last_hit records)
           + (if write_miss usage then 1 else 0).
Proof.
  intros records usage. rewrite since_last_hit_snoc.
  destruct (read_hit usage); [reflexivity | apply count_snoc].
Qed.

Lemma final_snoc :
  forall A (l : list A) x, final (l ++ [x]) = Some x.
Proof.
  intros A l x. unfold final. rewrite rev_app_distr. reflexivity.
Qed.

(** Counting a record, whether or not the call completes. *)
Lemma counted_record_stats :
  forall usage st st' records,
    isClaude (Usage.model usage) = true ->
    State.sessionStats st'
    = State.sessionStats (processUsageData_interrupted (Some usage) st)
      \/ (exists settings now,
             st' = processUsageData settings now (Some usage) st) ->
    stats_of_records (State.sessionStats st) records ->
    stats_of_records (State.sessionStats st') (records ++ [usage]).
Proof.
  intros usage st st' records Claude Which Inv.
  assert (stats_of_records
            (State.sessionStats (processUsageData_interrupted (Some usage) st))
            (records ++ [usage])) as Cut.
  { destruct Inv as (Total & Hits & Misses & Streak & In & Reads & Writes & Last).
    unfold processUsageData_interrupted. rewrite Claude. cbn [negb].
    unfold stats_of_records.
    cbn [State.sessionStats SessionStats.totalRequests SessionStats.cacheHits
         SessionStats.cacheMisses SessionStats.consecutiveMisses
         SessionStats.totalInputTokens SessionStats.totalCacheReadTokens
         SessionStats.totalCacheWriteTokens SessionStats.lastUsage].
    rewrite streak_snoc, !count_snoc, !total_snoc, final_snoc, length_app.
    change (write_miss usage)
      with ((0 <? Usage.cache_creation_input_tokens usage)
            && negb (0 <? Usage.cache_read_input_tokens usage)).
    change (read_hit usage) with (0 <? Usage.cache_read_input_tokens usage).
    cbn [List.length].
    destruct (0 <? Usage.cache_read_input_tokens usage);
      destruct (0 <? Usage.cache_creation_input_tokens usage);
      cbn [andb negb]; repeat split; try reflexivity; lia. }
  destruct Which as [-> | [settings [now ->]]]; [exact Cut|].
  destruct Cut as (Total & Hits & Misses & Streak & In & Reads & Writes & Last).
  unfold processUsageData_interrupted in *. unfold processUsageData.
  rewrite Claude in *. cbn [negb] in *.
  cbn [State.sessionStats SessionStats.totalRequests SessionStats.cacheHits
       SessionStats.cacheMisses SessionStats.consecutiveMisses
       SessionStats.totalInputTokens SessionStats.totalCacheReadTokens
       SessionStats.totalCacheWriteTokens SessionStats.lastUsage] in *.
  unfold stats_of_records.
  cbn [State.sessionStats SessionStats.totalRequests SessionStats.cacheHits
       SessionStats.cacheMisses SessionStats.consecutiveMisses
       SessionStats.totalInputTokens SessionStats.totalCacheReadTokens
       SessionStats.totalCacheWriteTokens SessionStats.lastUsage].
  repeat split; assumption.
Qed.

Lemma pushed_snoc :
  forall records usage entry,
    pushed (records ++ [(usage, entry)])
    = (pushed records ++ match entry with Some e => [e] | None => [] end)%list.
Proof.
  intros records usage entry. unfold pushed.
  rewrite flat_map_app. cbn [flat_map snd]. rewrite app_nil_r. reflexivity.
Qed.

Lemma ledger_step_ok :
  forall s records e,
    ledger_ok s records ->
    ledger_ok (fst (ledger_step (s, records) e)) (snd (ledger_step (s, records) e)).
Proof.
  intros s records e (Stats & Window & Entries).
  assert (ledger_ok s records) as Same
    by exact (conj Stats (conj Window Entries)).
  destruct e as [[now messages | settings now usage | |] | now];
    cbn [ledger_step fst snd session_step Session.globals Session.unhashable step].
  - exact Same.
  - destruct usage as [usage|].
    + destruct (isClaude (Usage.model usage)) eqn:Claude.
      * unfold ledger_ok. cbn [Session.globals Session.unhashable].
        rewrite map_app. cbn [map fst].
        split; [|split].
        -- apply (counted_record_stats usage (Session.globals s)); [exact Claude| |exact Stats].
           destruct (Session.unhashable s); [left; reflexivity | right; eauto].
        -- rewrite pushed_snoc.
           destruct (Session.unhashable s).
           ++ rewrite app_nil_r.
              unfold processUsageData_interrupted. rewrite Claude. exact Window.
           ++ unfold processUsageData. rewrite Claude. cbn [negb].
              cbn [State.sessionStats SessionStats.requestHistory].
              rewrite Window. apply push_bounded_last_n.
        -- apply Forall_app. split; [exact Entries|].
           constructor; [|constructor]. unfold entry_of_record. cbn [fst snd].
           destruct (Session.unhashable s); [exact I | reflexivity].
      * unfold ledger_ok. cbn [Session.globals Session.unhashable].
        assert (processUsageData_interrupted (Some usage) (Session.globals s)
                = Session.globals s) as ->
          by (unfold processUsageData_interrupted; rewrite Claude; reflexivity).
        assert (processUsageData settings now (Some usage) (Session.globals s)
                = Session.globals s) as ->
          by (unfold processUsageData; rewrite Claude; reflexivity).
        destruct (Session.unhashable s); exact Same.
    + unfold ledger_ok. cbn [Session.globals Session.unhashable
                             processUsageData_interrupted processUsageData].
      destruct (Session.unhashable s); exact Same.
  - exact Same.
  - unfold ledger_ok, stats_of_records, count. cbn. repeat split; auto.
  - exact Same.
Qed.

Lemma ledger_run :
  forall events s records,
    fst (fold_left ledger_step events (s, records)) = session_run s events.
Proof.
  induction events as [|e events IH]; intros s records; [reflexivity|].
  unfold session_run in *. cbn [fold_left]. cbn [ledger_step]. apply IH.
Qed.

Lemma ledger_all_pushed :
  forall events s records,
    Session.unhashable s = false ->
    Forall (fun r => snd r <> None) records ->
    (forall now, ~ In (UnhashableRequestSent now) events) ->
    Forall (fun r => snd r <> None)
           (snd (fold_left ledger_step events (s, records))).
Proof.
  induction events as [|e events IH]; intros s records Hashable All Never;
    [exact All|].
  cbn [fold_left]. cbn [ledger_step].
  assert (forall now, ~ In (UnhashableRequestSent now) events) as Later
    by (intros now H; apply (Never now); right; exact H).
  destruct e as [[now messages | settings now usage | |] | now].
  - apply IH; [reflexivity | exact All | exact Later].
  - apply IH; [exact Hashable | | exact Later].
    destruct usage as [usage|]; [|exact All].
    destruct (isClaude (Usage.model usage)); [|exact All].
    apply Forall_app. split; [exact All|].
    constructor; [|constructor]. cbn [snd]. rewrite Hashable. discriminate.
  - apply IH; [exact Hashable | exact All | exact Later].
  - apply IH; [exact Hashable | constructor | exact Later].
  - exfalso. apply (Never now). left. reflexivity.
Qed.

(** X17.  At any point of a session the statistics are what the usage
    records counted since the last reset add up to, whether or not an
    entry was pushed for them and whether or not it is still in the
    history: [totalRequests] is their number, [cacheHits] and
    [cacheMisses] the numbers of records with a cache read and with a
    write without a read, the streak the number of such write-misses
    after the last hit, the token totals the sums over the records,
    [lastUsage] the last one.  The history is the last 100 of the
    entries pushed, each carrying its record; every record has one as
    long as every request could be hashed. *)
Theorem sessionStats_sum_of_records :
  forall events,
    let stats :=
      State.sessionStats (Session.globals (session_run Session.initial events)) in
    stats_of_records stats (map fst (ledger events))
    /\ SessionStats.requestHistory stats = last_n 100 (pushed (ledger events))
    /\ Forall entry_of_record (ledger events)
    /\ ((forall now, ~ In (UnhashableRequestSent now) events) ->
        Forall (fun r => snd r <> None) (ledger events)).
Proof.
  intros events. cbv zeta. unfold ledger.
  rewrite <- (ledger_run events Session.initial []).
  assert (forall s records,
             ledger_ok s records ->
             ledger_ok (fst (fold_left ledger_step events (s, records)))
                       (snd (fold_left ledger_step events (s, records)))) as Fold.
  { induction events as [|e events IH]; intros s records Inv; [exact Inv|].
    cbn [fold_left].
    pose proof (ledger_step_ok s records e Inv) as Step.
    destruct (ledger_step (s, records) e) as [s' records']. apply IH, Step. }
  destruct (Fold Session.initial []) as (Stats & Window & Entries).
  { unfold ledger_ok, stats_of_records, count. cbn. repeat split; auto. }
  split; [exact Stats|]. split; [exact Window|]. split; [exact Entries|].
  intros Never. apply ledger_all_pushed; [reflexivity | constructor | exact Never].
Qed.

Lemma sessionStats_sum_of_records_witness :
  map fst (ledger unhashable_misses)
  = [sonnet_write_miss; sonnet_write_miss; sonnet_write_miss]
  /\ pushed (ledger unhashable_misses) = []
  /\ stats_of_records
       (State.sessionStats
          (Session.globals (session_run Session.initial unhashable_misses)))
       [sonnet_write_miss; sonnet_write_miss; sonnet_write_miss].
Proof.
  split; [reflexivity|]. split; [reflexivity|].
  exact (proj1 (sessionStats_sum_of_records unhashable_misses)).
Defined.

(** ** The TTL timer against the TTL check of the diagnoser *)

Lemma dec_not_expired : forall n rest, Str.dec n ++ rest <> "EXPIRED".
Proof.
  intros n rest. unfold Str.dec.
  destruct (Z.to_int n) as [[]|[]]; discriminate.
Qed.

Lemma ttl_text_not_expired : forall n rest, "TTL: " ++ Str.dec n ++ rest <> "TTL: EXPIRED".
Proof.
  intros n rest H. cbn [String.append] in H.
  injection H as H. exact (dec_not_expired _ _ H).
Qed.

(** X18.  With a snapshot taken at [ts], the timer of the panel reads
    "TTL: EXPIRED" from 300000 ms after [ts] on, and is red from
    240000 ms on, while the TTL check of [analyzeCacheMiss] warns only
    after more than 300000 ms: at exactly 300000 ms the panel says
    expired and the diagnosis of a miss does not. *)
Theorem updateTTLTimer_expired_iff :
  forall previousRequest now ts currentMessages currentHashes,
    PreviousRequest.timestamp previousRequest = Some ts ->
    ts <> 0 ->
    (fst (updateTTLTimer previousRequest now) = "TTL: EXPIRED" <-> 300000 <= now - ts)
    /\ (Analysis.ttlWarning
          (analyzeCacheMiss previousRequest now currentMessages currentHashes) = true
        <-> 300000 < now - ts)
    /\ (snd (updateTTLTimer previousRequest now) = "#f87171" <-> 240000 < now - ts).
Proof.
  intros previousRequest now ts currentMessages currentHashes Stamp Truthy.
  unfold analyzeCacheMiss, ttlCheck, updateTTLTimer. cbn [Analysis.ttlWarning].
  rewrite Stamp. apply Z.eqb_neq in Truthy. rewrite Truthy. cbv zeta.
  split; [|split].
  - destruct (Z.max 0 (300000 - (now - ts)) <=? 0) eqn:Expired.
    + apply Z.leb_le in Expired. split; [lia | reflexivity].
    + apply Z.leb_gt in Expired.
      split; [|lia]. intros Text. exfalso. revert Text.
      destruct (_ <? 60000); [|destruct (_ <? 120000)]; cbn [fst];
        apply ttl_text_not_expired.
  - destruct (300000 <? now - ts) eqn:Late; cbn [fst snd].
    + apply Z.ltb_lt in Late. split; [lia | reflexivity].
    + apply Z.ltb_ge in Late. split; [discriminate | lia].
  - destruct (Z.max 0 (300000 - (now - ts)) <=? 0) eqn:Expired;
      [apply Z.leb_le in Expired; split; [lia | reflexivity]|].
    apply Z.leb_gt in Expired.
    destruct (Z.max 0 (300000 - (now - ts)) <? 60000) eqn:Red;
      [apply Z.ltb_lt in Red; split; [lia | reflexivity]|].
    apply Z.ltb_ge in Red.
    destruct (_ <? 120000); cbn [snd]; (split; [discriminate | lia]).
Qed.

Lemma updateTTLTimer_expired_iff_witness :
  fst (updateTTLTimer (snapshot 1000 hello) 301000) = "TTL: EXPIRED"
  <-> 300000 <= 301000 - 1000.
Proof.
  refine (proj1 (updateTTLTimer_expired_iff (snapshot 1000 hello) 301000 1000
                   (Some hello) (hashMessages (Some hello)) _ _)).
  - reflexivity.
  - lia.
Defined.

(** ** [escapeHtml] *)

Lemma replace_all_app :
  forall c replacement a b,
    replace_all c replacement (a ++ b)
    = replace_all c replacement a ++ replace_all c replacement b.
Proof.
  intros c replacement a b.
  induction a as [|x a IH]; cbn [String.append replace_all]; [reflexivity|].
  rewrite IH. symmetry. apply append_assoc.
Qed.

Lemma escapeHtml_cons :
  forall c str, escapeHtml (String c str) = escape_char c ++ escapeHtml str.
Proof.
  intros c str. unfold escapeHtml.
  change (String c str) with (String c "" ++ str).
  rewrite !replace_all_app. f_equal.
  unfold escape_char.
  destruct (Ascii.eqb_spec c "&"%char) as [-> | NotAmp]; [reflexivity|].
  destruct (Ascii.eqb_spec c "<"%char) as [-> | NotLt]; [reflexivity|].
  destruct (Ascii.eqb_spec c ">"%char) as [-> | NotGt]; [reflexivity|].
  destruct (Ascii.eqb_spec c (ascii_of_nat 34)) as [-> | NotQuot]; [reflexivity|].
  destruct (Ascii.eqb_spec c "'"%char) as [-> | NotApos]; [reflexivity|].
  apply Ascii.eqb_neq in NotAmp, NotLt, NotGt, NotQuot, NotApos.
  cbn [replace_all String.append].
  rewrite NotAmp. cbn [replace_all String.append].
  rewrite NotLt. cbn [replace_all String.append].
  rewrite NotGt. cbn [replace_all String.append].
  rewrite NotQuot. cbn [replace_all String.append].
  rewrite NotApos. reflexivity.
Qed.

Lemma code_units_app :
  forall a b, code_units (a ++ b) = (code_units a ++ code_units b)%list.
Proof.
  intros a b. unfold code_units.
  induction a as [|x a IH]; cbn; [reflexivity | rewrite IH; reflexivity].
Qed.

Lemma escape_char_no_markup :
  forall c, forallb (fun x => negb (is_markup x)) (code_units (escape_char c)) = true.
Proof.
  intros c. unfold escape_char.
  destruct (Ascii.eqb_spec c "&"%char); [reflexivity|].
  destruct (Ascii.eqb_spec c "<"%char) as [| NotLt]; [reflexivity|].
  destruct (Ascii.eqb_spec c ">"%char) as [| NotGt]; [reflexivity|].
  destruct (Ascii.eqb_spec c (ascii_of_nat 34)) as [| NotQuot]; [reflexivity|].
  destruct (Ascii.eqb_spec c "'"%char) as [| NotApos]; [reflexivity|].
  apply Ascii.eqb_neq in NotLt, NotGt, NotQuot, NotApos.
  cbn [code_units list_ascii_of_string forallb]. unfold is_markup.
  rewrite NotLt, NotGt, NotQuot, NotApos. reflexivity.
Qed.

(** X19.  The five replacements of [escapeHtml], done one after the
    other over the whole string, come to escaping each character once
    (the ampersands of the entities are not escaped again), and the
    result holds no [<], [>], double or single quote. *)
Theorem escapeHtml_one_pass :
  forall str,
    escapeHtml str = String.concat "" (map escape_char (code_units str))
    /\ forallb (fun c => negb (is_markup c)) (code_units (escapeHtml str)) = true.
Proof.
  induction str as [|c str [Pass Clean]]; [split; reflexivity|].
  rewrite escapeHtml_cons. split.
  - cbn [code_units list_ascii_of_string map]. fold (code_units str).
    rewrite Pass.
    destruct (map escape_char (code_units str)) as [|piece pieces] eqn:Pieces.
    + cbn [String.concat]. apply append_nil_r.
    + cbn [String.concat]. reflexivity.
  - rewrite code_units_app, forallb_app, escape_char_no_markup, Clean. reflexivity.
Qed.

Lemma escape_char_cases :
  forall c,
    (c = "&"%char /\ escape_char c = "&amp;")
    \/ (c = "<"%char /\ escape_char c = "&lt;")
    \/ (c = ">"%char /\ escape_char c = "&gt;")
    \/ (c = ascii_of_nat 34 /\ escape_char c = "&quot;")
    \/ (c = "'"%char /\ escape_char c = "&#039;")
    \/ (c <> "&"%char /\ escape_char c = String c "").
Proof.
  intros c. unfold escape_char.
  destruct (Ascii.eqb_spec c "&"%char) as [-> | NotAmp]; [auto|].
  destruct (Ascii.eqb_spec c "<"%char) as [-> | NotLt]; [auto|].
  destruct (Ascii.eqb_spec c ">"%char) as [-> | NotGt]; [auto 6|].
  destruct (Ascii.eqb_spec c (ascii_of_nat 34)) as [-> | NotQuot]; [auto 7|].
  destruct (Ascii.eqb_spec c "'"%char) as [-> | NotApos]; [auto 8|].
  auto 10.
Qed.

(** X20.  [escapeHtml] loses nothing: two strings have the same escaped
    form only when they are the same string. *)
Theorem escapeHtml_injective :
  forall a b, escapeHtml a = escapeHtml b <-> a = b.
Proof.
  intros a b. split; [|intros ->; reflexivity].
  revert b. induction a as [|x a IH]; intros [|y b] Same.
  - reflexivity.
  - exfalso. rewrite escapeHtml_cons in Same.
    destruct (escape_char_cases y) as [[_ E]|[[_ E]|[[_ E]|[[_ E]|[[_ E]|[_ E]]]]]];
      rewrite E in Same; discriminate.
  - exfalso. rewrite escapeHtml_cons in Same.
    destruct (escape_char_cases x) as [[_ E]|[[_ E]|[[_ E]|[[_ E]|[[_ E]|[_ E]]]]]];
      rewrite E in Same; discriminate.
  - rewrite !escapeHtml_cons in Same.
    destruct (escape_char_cases x)
      as [[X Ex]|[[X Ex]|[[X Ex]|[[X Ex]|[[X Ex]|[X Ex]]]]]];
      destruct (escape_char_cases y)
        as [[Y Ey]|[[Y Ey]|[[Y Ey]|[[Y Ey]|[[Y Ey]|[Y Ey]]]]]];
      rewrite Ex, Ey in Same; cbn [String.append] in Same;
      try discriminate Same;
      try (injection Same as Same; subst; f_equal; apply IH; exact Same);
      try (injection Same as Head _; subst; contradiction);
      try (injection Same as Head _; symmetry in Head; subst; contradiction).
    injection Same as -> Same. f_equal. apply IH, Same.
Qed.

(** ** [saveUsageToMessage] and [loadSettings] *)

Lemma assoc_set_same :
  forall k v fields, Js.assoc k (Obj.set k v fields) = Some v.
Proof.
  intros k v fields. induction fields as [|[k' v'] fields IH]; cbn [Obj.set Js.assoc].
  - rewrite String.eqb_refl. reflexivity.
  - destruct (String.eqb k k') eqn:E; cbn [Js.assoc].
    + rewrite String.eqb_refl. reflexivity.
    + rewrite E. exact IH.
Qed.

Lemma assoc_set_other :
  forall k k' v fields,
    k' <> k -> Js.assoc k' (Obj.set k v fields) = Js.assoc k' fields.
Proof.
  intros k k' v fields Other. apply String.eqb_neq in Other.
  induction fields as [|[k0 v0] fields IH]; cbn [Obj.set Js.assoc].
  - rewrite Other. reflexivity.
  - destruct (String.eqb_spec k k0) as [<- | Diff]; cbn [Js.assoc].
    + rewrite Other. reflexivity.
    + destruct (String.eqb k' k0); [reflexivity | exact IH].
Qed.

(** X21.  [saveUsageToMessage] leaves an absent or empty chat as it is
    and touches the last message only: one from the user is left as it
    is; any other one keeps its [is_user] flag and gets an [extra]
    whose four usage properties read back the numbers of the record,
    every other property of [extra] reading as before. *)
Theorem saveUsageToMessage_last_message_only :
  forall usage,
    saveUsageToMessage usage None = None
    /\ saveUsageToMessage usage (Some []) = Some []
    /\ forall earlier lastMessage,
         exists saved,
           saveUsageToMessage usage (Some (earlier ++ [lastMessage])%list)
           = Some (earlier ++ [saved])%list
           /\ ChatMessage.is_user saved = ChatMessage.is_user lastMessage
           /\ (ChatMessage.is_user lastMessage = true -> saved = lastMessage)
           /\ (ChatMessage.is_user lastMessage = false ->
               exists extra,
                 ChatMessage.extra saved = Some extra
                 /\ Js.assoc "cache_read_input_tokens" extra
                    = Some (JNum (Usage.cache_read_input_tokens usage))
                 /\ Js.assoc "cache_creation_input_tokens" extra
                    = Some (JNum (Usage.cache_creation_input_tokens usage))
                 /\ Js.assoc "input_tokens" extra
                    = Some (JNum (Usage.input_tokens usage))
                 /\ Js.assoc "output_tokens" extra
                    = Some (JNum (Usage.output_tokens usage))
                 /\ forall k, ~ In k usage_keys ->
                              Js.assoc k extra = Js.assoc k (extra_of lastMessage)).
Proof.
  intros usage. split; [reflexivity|]. split; [reflexivity|].
  intros earlier lastMessage.
  assert (saveUsageToMessage usage (Some (earlier ++ [lastMessage])%list)
          = if negb (ChatMessage.is_user lastMessage)
            then Some (earlier ++ [with_usage usage lastMessage])%list
            else Some (earlier ++ [lastMessage])%list) as ->.
  { unfold saveUsageToMessage.
    rewrite last_last, removelast_last.
    destruct (earlier ++ [lastMessage])%list eqn:E; [|reflexivity].
    destruct earlier; discriminate. }
  destruct (ChatMessage.is_user lastMessage) eqn:User; cbn [negb].
  - exists lastMessage. repeat split; try assumption; discriminate.
  - exists (with_usage usage lastMessage).
    split; [reflexivity|]. split; [exact User|].
    split; [discriminate|]. intros _.
    eexists. split; [reflexivity|]. fold (extra_of lastMessage).
    repeat split;
      try (repeat (rewrite assoc_set_other by discriminate);
           apply assoc_set_same).
    intros k Other. unfold usage_keys in Other. cbn [In] in Other.
    rewrite !assoc_set_other; [reflexivity | | | |];
      intros ->; apply Other; auto 6.
Qed.

Lemma loadSettings_fold :
  forall defaults settings k,
    Js.assoc k
      (fold_left (fun settings kv =>
                    match Js.assoc (fst kv) settings with
                    | None => Obj.set (fst kv) (snd kv) settings
                    | Some _ => settings
                    end)
                 defaults settings)
    = match Js.assoc k settings with
      | Some v => Some v
      | None => Js.assoc k defaults
      end.
Proof.
  induction defaults as [|[k0 v0] defaults IH]; intros settings k;
    cbn [fold_left fst snd Js.assoc].
  - destruct (Js.assoc k settings); reflexivity.
  - rewrite IH.
    destruct (String.eqb_spec k k0) as [-> | Diff].
    + destruct (Js.assoc k0 settings) eqn:Old.
      * rewrite Old. reflexivity.
      * rewrite assoc_set_same. reflexivity.
    + destruct (Js.assoc k0 settings); [reflexivity|].
      rewrite assoc_set_other by exact Diff. reflexivity.
Qed.

Lemma loadSettings_fold_fixed :
  forall defaults settings,
    (forall kv, In kv defaults -> Js.assoc (fst kv) settings <> None) ->
    fold_left (fun settings kv =>
                 match Js.assoc (fst kv) settings with
                 | None => Obj.set (fst kv) (snd kv) settings
                 | Some _ => settings
                 end)
              defaults settings
    = settings.
Proof.
  induction defaults as [|kv defaults IH]; intros settings Defined;
    cbn [fold_left]; [reflexivity|].
  destruct (Js.assoc (fst kv) settings) eqn:Old.
  - apply IH. intros kv' Member. apply Defined. right. exact Member.
  - exfalso. exact (Defined kv (or_introl eq_refl) Old).
Qed.

(** X22.  After [loadSettings] every setting reads as it was stored,
    whatever its value ([null], [false], 0 and the empty string
    included), and a setting not stored reads as its default; calling
    it again changes nothing. *)
Theorem loadSettings_fills_defaults :
  forall stored,
    (forall k,
        Js.assoc k (loadSettings stored)
        = match Js.assoc k (stored_settings stored) with
          | Some v => Some v
          | None => Js.assoc k defaultSettings
          end)
    /\ loadSettings (Some (loadSettings stored)) = loadSettings stored.
Proof.
  intros stored.
  assert (forall k,
             Js.assoc k (loadSettings stored)
             = match Js.assoc k (stored_settings stored) with
               | Some v => Some v
               | None => Js.assoc k defaultSettings
               end) as Reads.
  { intros k. unfold loadSettings. fold (stored_settings stored).
    apply loadSettings_fold. }
  split; [exact Reads|].
  unfold loadSettings at 1. apply loadSettings_fold_fixed.
  intros kv Member. rewrite Reads.
  destruct (Js.assoc (fst kv) (stored_settings stored)); [discriminate|].
  unfold defaultSettings in Member. cbn [In] in Member.
  repeat (destruct Member as [<- | Member]; [discriminate|]).
  destruct Member.
Qed.

(** ** Miss Diagnoser: a miss without any reason *)

Lemma hashMessages_hashes :
  forall messages,
    map Fingerprint.hash (hashMessages (Some messages)) = map message_hash messages.
Proof.
  intros messages. unfold hashMessages.
  match goal with |- context [mapi ?f0 0 messages] => set (f := f0) end.
  assert (forall m idx, Fingerprint.hash (f m idx) = message_hash m) as Hash
    by reflexivity.
  clearbody f. generalize 0.
  induction messages as [|m messages IH]; intros idx; cbn [mapi map]; [reflexivity|].
  rewrite IH, Hash. reflexivity.
Qed.

Lemma divergeIndex_negative_iff :
  forall prevHashes currHashes,
    Divergence.divergeIndex (findDivergencePoint (Some prevHashes) (Some currHashes)) < 0
    <-> map Fingerprint.hash prevHashes = map Fingerprint.hash currHashes.
Proof.
  intros prevHashes currHashes. unfold findDivergencePoint.
  destruct (first_mismatch 0 prevHashes currHashes) as [[[i p] c]|] eqn:E.
  - pose proof (first_mismatch_index _ _ _ _ _ _ E) as Hi.
    cbn [Divergence.divergeIndex]. split; [lia|].
    intros H.
    assert (List.length prevHashes = List.length currHashes) as Hlen
      by (rewrite <- (length_map Fingerprint.hash prevHashes), H; apply length_map).
    apply (first_mismatch_none_hashes _ _ 0 Hlen) in H. congruence.
  - destruct (Z.of_nat (List.length prevHashes) =? Z.of_nat (List.length currHashes)) eqn:L;
      cbn [negb Divergence.plain Divergence.divergeIndex].
    + apply Z.eqb_eq in L. split; [|lia].
      intros _. apply (first_mismatch_none_hashes _ _ 0); [lia | exact E].
    + apply Z.eqb_neq in L. split; [lia|].
      intros H. apply (f_equal (@List.length string)) in H.
      rewrite !length_map in H. lia.
Qed.

(** X23.  A write-miss diagnosed against the snapshot of the request
    before gets no reason at all exactly when it comes within 300000 ms
    and every message hashes as the message at its place before, with
    none added or dropped: about a miss on an unchanged prompt inside
    the TTL the diagnoser has nothing to say. *)
Theorem analyzeCacheMiss_no_reason_iff :
  forall stored previous now current,
    stored <> 0 ->
    let a := analyzeCacheMiss (snapshot stored previous) now (Some current)
               (hashMessages (Some current)) in
    Analysis.reasons a = []
    <-> now - stored <= 300000
        /\ map message_hash previous = map message_hash current.
Proof.
  intros stored previous now current Truthy. cbv zeta.
  unfold analyzeCacheMiss. cbn [Analysis.reasons].
  assert (fst (fst (ttlCheck (snapshot stored previous) now)) = []
          <-> now - stored <= 300000) as Ttl.
  { unfold ttlCheck, snapshot. cbn [PreviousRequest.timestamp].
    apply Z.eqb_neq in Truthy. rewrite Truthy.
    destruct (300000 <? now - stored) eqn:Late; cbn [fst].
    - apply Z.ltb_lt in Late. split; [discriminate | lia].
    - apply Z.ltb_ge in Late. split; [intros _; exact Late | reflexivity]. }
  assert (DivergenceCheck.reasons
            (divergenceCheck (snapshot stored previous) (hashMessages (Some current)))
          = []
          <-> map message_hash previous = map message_hash current) as Div.
  { rewrite <- !hashMessages_hashes, <- divergeIndex_negative_iff.
    unfold divergenceCheck, snapshot. cbn [PreviousRequest.messageHashes].
    destruct (0 <=? _) eqn:Found; cbn [DivergenceCheck.reasons].
    - apply Z.leb_le in Found. split; [discriminate | lia].
    - apply Z.leb_gt in Found. split; [intros _; exact Found | reflexivity]. }
  assert (map message_hash previous = map message_hash current ->
          systemPromptCheck (snapshot stored previous) (Some current) = []) as Sys.
  { intros Same. unfold systemPromptCheck, snapshot.
    cbn [PreviousRequest.systemPromptHash].
    destruct current as [|c crest]; [reflexivity|].
    destruct previous as [|p prest]; [discriminate Same|].
    injection Same as Head _.
    fold (message_hash c). fold (message_hash p). rewrite Head.
    destruct (String.eqb (Message.role c) "system"); [|reflexivity].
    destruct (String.eqb (Message.role p) "system"); [|reflexivity].
    rewrite String.eqb_refl, andb_false_r. reflexivity. }
  split.
  - intros Empty. apply app_eq_nil in Empty as [NoTtl Rest].
    apply app_eq_nil in Rest as [NoDiv _].
    split; [apply Ttl, NoTtl | apply Div, NoDiv].
  - intros [Fresh Same].
    rewrite (proj2 Ttl Fresh), (proj2 Div Same), (Sys Same). reflexivity.
Qed.

Lemma analyzeCacheMiss_no_reason_iff_witness :
  Analysis.reasons
    (analyzeCacheMiss (snapshot 1000 hello) 2000 (Some hello)
       (hashMessages (Some hello))) = []
  <-> 2000 - 1000 <= 300000 /\ map message_hash hello = map message_hash hello.
Proof.
  apply (analyzeCacheMiss_no_reason_iff 1000 hello 2000 hello). lia.
Defined.

(** ** Cost Model: the price tiers *)

(** X24.  Whatever the model string, the tier [calculateCosts] picks
    prices a cache write at 1.25 times and a cache read at a tenth of
    the input price, and output at 5 times the input price, as binary64
    numbers. *)
Theorem priceTier_ratios :
  forall model,
    let price := priceTier model in
    Price.cacheWritePrice price = (Price.inputPrice price * 1.25)%float
    /\ Price.cacheReadPrice price = (Price.inputPrice price / 10)%float
    /\ Price.outputPrice price = (Price.inputPrice price * 5)%float.
Proof.
  intros model. cbv zeta. unfold priceTier, sonnetPricing.
  repeat match goal with
         | |- context [if ?b then _ else _] => destruct b
         end;
    cbn [Price.cacheWritePrice Price.cacheReadPrice Price.outputPrice
         Price.inputPrice];
    repeat split; vm_compute; reflexivity.
Qed.

(** ** Session Aggregator: the entries of the history *)

Lemma historyEntry_consistent :
  forall now usage st,
    isClaude (Usage.model usage) = true ->
    entry_consistent (historyEntry now usage st).
Proof.
  intros now usage st Claude. unfold entry_consistent, is_write_miss.
  cbn [historyEntry HistoryEntry.usage HistoryEntry.cacheHit HistoryEntry.cacheWrite
       HistoryEntry.costs HistoryEntry.messageCount HistoryEntry.messageHashes
       HistoryEntry.analysis].
  repeat split; try assumption.
  - destruct (CurrentRequest.messages (State.currentRequest st)) as [messages|];
      [|reflexivity].
    unfold hashMessages. rewrite mapi_length. reflexivity.
  - destruct (_ && _); [reflexivity | intros H; now contradiction H].
  - intros ->. discriminate.
Qed.

Lemma Forall_tl : forall A (P : A -> Prop) l, Forall P l -> Forall P (tl l).
Proof.
  intros A P l H. destruct H; [constructor | assumption].
Qed.

Lemma step_history_consistent :
  forall st e,
    Forall entry_consistent (SessionStats.requestHistory (State.sessionStats st)) ->
    Forall entry_consistent
           (SessionStats.requestHistory (State.sessionStats (step st e))).
Proof.
  intros st e Inv.
  destruct e as [now messages | settings now [usage|] | |];
    cbn [step State.sessionStats SessionStats.requestHistory]; try exact Inv.
  - unfold processUsageData.
    destruct (isClaude (Usage.model usage)) eqn:Claude; cbn [negb]; [|exact Inv].
    cbn [State.sessionStats SessionStats.requestHistory].
    rewrite push_bounded_eq. apply Forall_app. split.
    + destruct (100 <=? _); [apply Forall_tl|]; exact Inv.
    + constructor; [|constructor]. apply historyEntry_consistent, Claude.
  - constructor.
Qed.


Lemma in_time_order_tl :
  forall entries, in_time_order entries = true -> in_time_order (tl entries) = true.
Proof.
  intros [|a [|b rest]] H; try reflexivity.
  cbn [in_time_order] in H. apply andb_true_iff in H as [_ H]. exact H.
Qed.

Lemma in_time_order_snoc :
  forall entries e,
    in_time_order entries = true ->
    Forall (fun x => HistoryEntry.timestamp x <= HistoryEntry.timestamp e) entries ->
    in_time_order (entries ++ [e]) = true.
Proof.
  induction entries as [|a entries IH]; intros e Sorted Before; [reflexivity|].
  inversion Before as [|? ? Ha Hrest]; subst.
  destruct entries as [|b entries].
  - cbn. apply andb_true_iff. split; [apply Z.leb_le, Ha | reflexivity].
  - cbn [app in_time_order]. cbn [in_time_order] in Sorted. apply andb_true_iff in Sorted as [Hab Sorted].
    rewrite Hab. exact (IH e Sorted Hrest).
Qed.

Lemma Forall_weaken_time :
  forall last now entries,
    last <= now ->
    Forall (fun e => HistoryEntry.timestamp e <= last
                     /\ 0 <= HistoryEntry.responseTimeMs e) entries ->
    Forall (fun e => HistoryEntry.timestamp e <= now
                     /\ 0 <= HistoryEntry.responseTimeMs e) entries.
Proof.
  intros last now entries Le H.
  eapply Forall_impl; [|exact H]. cbv beta. intros e [T R]. split; [lia | exact R].
Qed.

Lemma processUsageData_not_after :
  forall settings now usage st last,
    last <= now -> not_after last st ->
    not_after now (processUsageData settings now usage st).
Proof.
  intros settings now usage st last Le (Start & Hist & Sorted).
  assert (not_after now st) as Same.
  { split; [|split; [eapply Forall_weaken_time; eassumption | exact Sorted]].
    destruct (CurrentRequest.startTime (State.currentRequest st)); [lia | exact I]. }
  unfold processUsageData.
  destruct usage as [usage|]; [|exact Same].
  destruct (negb (isClaude (Usage.model usage))); [exact Same|].
  unfold not_after.
  cbn [State.currentRequest State.sessionStats CurrentRequest.startTime
       SessionStats.requestHistory].
  split; [exact (proj1 Same)|].
  rewrite push_bounded_eq.
  set (kept := if 100 <=? _ then tl _ else _).
  assert (Forall (fun e => HistoryEntry.timestamp e <= now
                           /\ 0 <= HistoryEntry.responseTimeMs e) kept) as Kept.
  { subst kept. destruct (100 <=? _); [apply Forall_tl|];
      eapply Forall_weaken_time; eassumption. }
  assert (in_time_order kept = true) as KeptSorted.
  { subst kept. destruct (100 <=? _); [apply in_time_order_tl|]; exact Sorted. }
  split.
  - apply Forall_app. split; [exact Kept|].
    constructor; [|constructor].
    cbn [historyEntry HistoryEntry.timestamp HistoryEntry.responseTimeMs].
    split; [lia|].
    destruct (CurrentRequest.startTime (State.currentRequest st)) as [t|]; [|lia].
    destruct (t =? 0); lia.
  - apply in_time_order_snoc; [exact KeptSorted|].
    eapply Forall_impl; [|exact Kept]. cbv beta.
    intros e [T _]. exact T.
Qed.

Lemma run_not_after :
  forall events last st,
    not_after last st -> clock_monotone last events ->
    exists last', not_after last' (run st events).
Proof.
  induction events as [|e events IH]; intros last st Inv Clock.
  - exists last. exact Inv.
  - destruct e as [now messages | settings now usage | |];
      cbn [clock_monotone] in Clock; unfold run; cbn [fold_left].
    + destruct Clock as [Le Clock]. apply (IH now); [|exact Clock].
      destruct Inv as (Start & Hist & Sorted).
      split; [cbn; lia|].
      split; [eapply Forall_weaken_time; eassumption | exact Sorted].
    + destruct Clock as [Le Clock]. apply (IH now); [|exact Clock].
      cbn [step]. eapply processUsageData_not_after; eassumption.
    + apply (IH last); [|exact Clock].
      destruct Inv as (Start & Hist & Sorted).
      split; [exact Start | split; [exact Hist | exact Sorted]].
    + apply (IH last); [|exact Clock].
      destruct Inv as (Start & Hist & Sorted).
      split; [exact Start | split; [constructor | reflexivity]].
Qed.

(** X26.  As long as the clock never goes back, the history of a
    session is in the order of its timestamps and no entry has a
    negative response time. *)
Theorem requestHistory_chronological :
  forall events,
    clock_monotone 0 events ->
    let history :=
      SessionStats.requestHistory (State.sessionStats (run State.initial events)) in
    in_time_order history = true
    /\ Forall (fun e => 0 <= HistoryEntry.responseTimeMs e) history.
Proof.
  intros events Clock. cbv zeta.
  destruct (run_not_after events 0 State.initial) as [last (_ & Hist & Sorted)].
  - split; [exact I | split; [constructor | reflexivity]].
  - exact Clock.
  - split; [exact Sorted|].
    eapply Forall_impl; [|exact Hist]. cbv beta. intros e [_ R]. exact R.
Qed.

Lemma requestHistory_chronological_witness :
  in_time_order
    (SessionStats.requestHistory
       (State.sessionStats
          (run State.initial
             [RequestSent 1000 (Some hello);
              UsageSeen (Some Settings.default) 2000 (Some sonnet_write_miss);
              RequestSent 3000 (Some hello);
              UsageSeen (Some Settings.default) 4500 (Some sonnet_hit)]))) = true.
Proof.
  refine (proj1 (requestHistory_chronological
                   [RequestSent 1000 (Some hello);
                    UsageSeen (Some Settings.default) 2000 (Some sonnet_write_miss);
                    RequestSent 3000 (Some hello);
                    UsageSeen (Some Settings.default) 4500 (Some sonnet_hit)] _)).
  cbn. lia.
Defined.

(** ** Session Aggregator: where the snapshot comes from *)

Lemma run_snoc :
  forall st events e, run st (events ++ [e]) = step (run st events) e.
Proof.
  intros st events e. unfold run. rewrite fold_left_app. reflexivity.
Qed.

Lemma captured_messages_sent :
  forall events messages,
    CurrentRequest.messages (State.currentRequest (run State.initial events))
    = Some messages ->
    exists before t after,
      events = (before ++ RequestSent t (Some messages) :: after)%list.
Proof.
  induction events as [|e events IH] using rev_ind; intros messages Captured.
  - discriminate Captured.
  - rewrite run_snoc in Captured.
    assert (CurrentRequest.messages (State.currentRequest (run State.initial events))
            = Some messages ->
            exists before t after,
              (events ++ [e])%list
              = (before ++ RequestSent t (Some messages) :: after)%list) as Old.
    { intros H. destruct (IH _ H) as (before & t & after & ->).
      exists before, t, (after ++ [e])%list.
      rewrite <- app_assoc. reflexivity. }
    destruct e as [now sent | settings now usage | |]; cbn [step] in Captured.
    + cbn in Captured. subst sent. exists events, now, []. reflexivity.
    + apply Old. revert Captured. unfold processUsageData.
      destruct usage as [usage|]; [|auto].
      destruct (negb (isClaude (Usage.model usage))); auto.
    + apply Old, Captured.
    + apply Old, Captured.
Qed.

(** X27.  At any point of a session the snapshot is the all-null one or
    the snapshot of the messages of a request sent earlier, taken when
    a usage record with a Claude model string was processed after
    it. *)
Theorem previousRequest_provenance :
  forall events,
    let previousRequest := State.previousRequest (run State.initial events) in
    previousRequest = PreviousRequest.empty
    \/ exists before t messages between settings now usage rest,
         events = (before ++ RequestSent t (Some messages)
                     :: between ++ UsageSeen settings now (Some usage) :: rest)%list
         /\ isClaude (Usage.model usage) = true
         /\ previousRequest = snapshot now messages.
Proof.
  intros events. cbv zeta.
  induction events as [|e events IH] using rev_ind; [left; reflexivity|].
  rewrite run_snoc.
  assert (State.previousRequest (step (run State.initial events) e)
          = State.previousRequest (run State.initial events) ->
          State.previousRequest (step (run State.initial events) e)
          = PreviousRequest.empty
          \/ exists before t messages between settings now usage rest,
               (events ++ [e])%list
               = (before ++ RequestSent t (Some messages)
                    :: between ++ UsageSeen settings now (Some usage) :: rest)%list
               /\ isClaude (Usage.model usage) = true
               /\ State.previousRequest (step (run State.initial events) e)
                  = snapshot now messages) as Old.
  { intros ->.
    destruct IH as [Empty | (before & t & messages & between & settings & now
                             & usage & rest & -> & Claude & Snap)];
      [left; exact Empty | right].
    exists before, t, messages, between, settings, now, usage, (rest ++ [e])%list.
    split; [|split; assumption].
    rewrite <- app_assoc. cbn [app]. rewrite <- app_assoc. reflexivity. }
  destruct e as [now sent | settings now usage | |]; try (apply Old; reflexivity).
  cbn [step].
  destruct usage as [usage|]; [|apply Old; reflexivity].
  destruct (isClaude (Usage.model usage)) eqn:Claude;
    [|apply Old; cbn [step]; unfold processUsageData; rewrite Claude; reflexivity].
  destruct (CurrentRequest.messages (State.currentRequest (run State.initial events)))
    as [messages|] eqn:Captured;
    [|apply Old; cbn [step]; unfold processUsageData;
      rewrite Claude, Captured; reflexivity].
  right.
  destruct (captured_messages_sent events messages Captured)
    as (before & t & after & ->).
  exists before, t, messages, after, settings, now, usage, [].
  split; [rewrite <- app_assoc; reflexivity|].
  split; [exact Claude|].
  unfold processUsageData. rewrite Claude. cbn [negb State.previousRequest].
  rewrite Captured. reflexivity.
Qed.
